(** * alert-watcher: a shallow embedding of [alert-watcher/app.py]

    The watcher reads one access-log line at a time, keeps a rolling window
    of error observations, tracks the serving pool, and sends rate-limited
    alerts to a webhook.  The development has three layers:

    - [Py]: the Python values and built-ins the program relies on (JSON
      values as [json.loads] returns them, [str.strip], [str.split(",")],
      [int(...)], truthiness, [collections.deque]);
    - [Watcher]: the class [AlertWatcher], each method translated as a
      computation in a state-and-exception monad that threads the object,
      a clock of external calls and the trace of observable effects;
    - the theorems, one per property of the specification.

    Modelling boundaries.  Strings are sequences of code points below 256.
    A float is NaN, an infinity, or a rational; the division and the
    product of the program are rounded to the nearest double (IEEE 754
    binary64, ties to even).  Conversions between [int] and [str] keep to
    the digit limit of CPython 3.11 (4300 digits); the integers of a
    decoded line are within it, [json.loads] having refused any other.
    The platform has 64 bits.  [json.loads], [repr] of a float, [float] of
    a text, the environment, the wall clock, the filesystem and the
    webhook are parameters: every theorem holds whatever they answer. *)

From Stdlib Require Import ZArith QArith Qabs String Ascii List Bool Lia DecimalString DecimalPos DecimalZ.
From stdpp Require Import base gmap strings.

Local Open Scope string_scope.

(** ** Python values and built-ins *)

Module Py.

(** Exceptions that can reach the methods of the watcher. *)
Inductive exn : Type :=
| AttributeError
| TypeError
| ValueError
| OverflowError
| ZeroDivisionError
| RecursionError.

(** A pure computation that may raise. *)
Inductive result (A : Type) : Type :=
| Ok (a : A)
| Err (e : exn).
Arguments Ok {A} a.
Arguments Err {A} e.

Definition rbind {A B} (r : result A) (k : A -> result B) : result B :=
  match r with
  | Ok a => k a
  | Err e => Err e
  end.

(** Python floats: the two special kinds and the finite values. *)
Inductive pyfloat : Type :=
| FNaN
| FInf (negative : bool)
| FFin (q : Q).

(** What [json.loads] returns.  [JNull] is Python's [None]; a [JObj] is a
    [dict] in insertion order; a [JInt] is an [int] of at most 4300
    digits, the longest [json.loads] converts. *)
#[warnings="-register-all"]
Inductive json : Type :=
| JNull
| JBool (b : bool)
| JInt (n : Z)
| JFloat (x : pyfloat)
| JStr (s : string)
| JArr (items : list json)
| JObj (fields : list (string * json)).

(** *** Strings *)

Definition code (c : ascii) : N := N_of_ascii c.

Definition between (lo hi n : N) : bool := ((lo <=? n) && (n <=? hi))%N.

(** [str.isspace] on one code point below 256. *)
Definition is_space (c : ascii) : bool :=
  let n := code c in
  between 9 13 n || between 28 32 n || (n =? 133)%N || (n =? 160)%N.

Fixpoint lstrip (s : string) : string :=
  match s with
  | EmptyString => EmptyString
  | String c s' => if is_space c then lstrip s' else s
  end.

Fixpoint rstrip (s : string) : string :=
  match s with
  | EmptyString => EmptyString
  | String c s' =>
      match rstrip s' with
      | EmptyString => if is_space c then EmptyString else String c EmptyString
      | r => String c r
      end
  end.

(** [s.strip()] *)
Definition strip (s : string) : string := rstrip (lstrip s).

Definition lower_char (c : ascii) : ascii :=
  let n := code c in
  if between 65 90 n || (between 192 222 n && negb (n =? 215)%N)
  then ascii_of_N (n + 32) else c.

(** [s.lower()] *)
Fixpoint lower (s : string) : string :=
  match s with
  | EmptyString => EmptyString
  | String c s' => String (lower_char c) (lower s')
  end.

(** [s.split(",")]: never empty, keeps empty pieces. *)
Fixpoint split_comma (s : string) : list string :=
  match s with
  | EmptyString => [EmptyString]
  | String c s' =>
      if Ascii.eqb c "," then EmptyString :: split_comma s'
      else match split_comma s' with
           | piece :: rest => String c piece :: rest
           | [] => [String c EmptyString]
           end
  end.

Definition is_empty (s : string) : bool :=
  match s with EmptyString => true | _ => false end.

Fixpoint join (sep : string) (l : list string) : string :=
  match l with
  | [] => ""
  | [x] => x
  | x :: rest => x +:+ sep +:+ join sep rest
  end.

(** *** Integers and text *)

(** The decimal numeral of an integer: what [str(n)] returns when it
    returns. *)
Definition str_of_Z (n : Z) : string := NilZero.string_of_int (Z.to_int n).

(** The most digits a conversion between [int] and [str] takes: the
    default of [sys.get_int_max_str_digits()] from CPython 3.11 on. *)
Definition max_str_digits : N := 4300.

(** The number of digit characters of a text. *)
Fixpoint count_digits (s : string) : N :=
  match s with
  | EmptyString => 0
  | String c s' => (if between 48 57 (code c) then 1 else 0) + count_digits s'
  end.

(** [str(n)] for an [int]; [None] stands for the [ValueError] past the
    digit limit.  The integers of a decoded line are within the limit,
    [json.loads] having refused any other. *)
Definition str_of_int (n : Z) : option string :=
  let text := str_of_Z n in
  if (max_str_digits <? count_digits text)%N then None else Some text.

Definition digit_value (c : ascii) : option Z :=
  let n := code c in
  if between 48 57 n then Some (Z.of_N n - 48)%Z else None.

(** The digits of an integer literal as [int(str)] accepts them: digits,
    with single underscores between digits.  [after_digit] tells whether
    the previous character was a digit. *)
Fixpoint digits_value (acc : Z) (after_digit : bool) (s : string) : option Z :=
  match s with
  | EmptyString => if after_digit then Some acc else None
  | String c s' =>
      match digit_value c with
      | Some d => digits_value (10 * acc + d)%Z true s'
      | None =>
          if Ascii.eqb c "_" && after_digit then digits_value acc false s'
          else None
      end
  end.

(** The blanks [int(str)] skips around the literal. *)
Definition is_int_space (c : ascii) : bool :=
  let n := code c in
  between 9 13 n || (n =? 32)%N || (n =? 133)%N || (n =? 160)%N.

Fixpoint int_lstrip (s : string) : string :=
  match s with
  | EmptyString => EmptyString
  | String c s' => if is_int_space c then int_lstrip s' else s
  end.

Fixpoint int_rstrip (s : string) : string :=
  match s with
  | EmptyString => EmptyString
  | String c s' =>
      match int_rstrip s' with
      | EmptyString => if is_int_space c then EmptyString else String c EmptyString
      | r => String c r
      end
  end.

(** [int(s)] for a [str]; [None] stands for [ValueError], which a
    literal of more digits than the limit raises as well. *)
Definition int_of_str (s : string) : option Z :=
  let literal := int_rstrip (int_lstrip s) in
  if (max_str_digits <? count_digits literal)%N then None
  else match literal with
       | String "+" r => digits_value 0 false r
       | String "-" r => Z.opp <$> digits_value 0 false r
       | r => digits_value 0 false r
       end.

Definition hex_digit (n : N) : ascii :=
  if (n <? 10)%N then ascii_of_N (48 + n) else ascii_of_N (87 + n).

(** [repr] of one character inside a literal quoted with [quote]. *)
Definition repr_char (quote : ascii) (c : ascii) : string :=
  let n := code c in
  if Ascii.eqb c "\" then "\\"
  else if Ascii.eqb c quote then String "\" (String c "")
  else if (n =? 9)%N then "\t"
  else if (n =? 10)%N then "\n"
  else if (n =? 13)%N then "\r"
  else if (n <? 32)%N || between 127 160 n || (n =? 173)%N
       then String "\" (String "x" (String (hex_digit (n / 16)) (String (hex_digit (n mod 16)) "")))
  else String c "".

Fixpoint contains_char (c : ascii) (s : string) : bool :=
  match s with
  | EmptyString => false
  | String d s' => Ascii.eqb c d || contains_char c s'
  end.

Fixpoint concat_map (f : ascii -> string) (s : string) : string :=
  match s with
  | EmptyString => EmptyString
  | String c s' => f c +:+ concat_map f s'
  end.

Definition double_quote : ascii := ascii_of_N 34.

(** [repr(s)] for a [str]: single quotes unless the text has a single
    quote and no double quote. *)
Definition repr_str (s : string) : string :=
  let quote : ascii :=
    if contains_char "'" s && negb (contains_char double_quote s) then double_quote else "'"%char in
  String quote (concat_map (repr_char quote) s) +:+ String quote "".

(** *** Floats *)

(** [a >= b] on floats: false as soon as one side is NaN. *)
Definition float_ge (a b : pyfloat) : bool :=
  match a, b with
  | FNaN, _ | _, FNaN => false
  | FInf false, _ => true
  | FInf true, FInf true => true
  | FInf true, _ => false
  | FFin _, FInf negative => negative
  | FFin x, FFin y => Qle_bool y x
  end.

(** The integer nearest to [q], ties to the even one. *)
Definition round_half_even (q : Q) : Z :=
  let n := Qnum q in
  let d := Zpos (Qden q) in
  let fl := (n / d)%Z in
  let twice_rest := (2 * (n mod d))%Z in
  if (twice_rest <? d)%Z then fl
  else if (d <? twice_rest)%Z then (fl + 1)%Z
  else if Z.even fl then fl else (fl + 1)%Z.

(** [q * 2^k] *)
Definition Qshift (q : Q) (k : Z) : Q :=
  if (0 <=? k)%Z then Qmake (Qnum q * 2 ^ k) (Qden q)
  else Qmake (Qnum q) (Qden q * Z.to_pos (2 ^ (- k))).

(** The binade of a positive rational: the [e] with [2^e <= q < 2^(e+1)]. *)
Definition binade (q : Q) : Z :=
  let e := (Z.log2 (Qnum q) - Z.log2 (Zpos (Qden q)))%Z in
  if Qle_bool (Qshift 1 e) q then e else (e - 1)%Z.

(** The double (IEEE 754 binary64: 53 bits, exponents down to the
    subnormals at 2^-1074) nearest to [q], ties to even; [None] when it
    is past the largest double.  The sign of a zero is not kept. *)
Definition binary64 (q : Q) : option Q :=
  if Qeq_bool q 0 then Some 0%Q
  else
    let a := Qabs q in
    let p := Z.max (binade a - 52) (-1074) in
    let m := round_half_even (Qshift a (- p)) in
    let x := Qshift (inject_Z m) p in
    if Qle_bool (Qshift 1 1024) x then None
    else Some (if (Qnum q <? 0)%Z then (- x)%Q else x).

(** [a / b] on two [int]s (true division): the quotient rounded to a
    double. *)
Definition truediv (a b : Z) : result pyfloat :=
  if (b =? 0)%Z then Err ZeroDivisionError
  else match binary64 (inject_Z a / inject_Z b) with
       | Some x => Ok (FFin x)
       | None => Err OverflowError
       end.

(** [x * k] for a positive [int] [k] that a double holds exactly (the
    program's 100): the product rounded to a double, infinite past the
    largest one. *)
Definition float_scale (x : pyfloat) (k : Z) : pyfloat :=
  match x with
  | FFin q =>
      match binary64 (q * inject_Z k) with
      | Some y => FFin y
      | None => FInf (Qnum q <? 0)%Z
      end
  | other => other
  end.

Definition pad2 (n : Z) : string :=
  if (n <? 10)%Z then "0" +:+ str_of_Z n else str_of_Z n.

(** [format(x, ".2f")] *)
Definition format_2f (x : pyfloat) : string :=
  match x with
  | FNaN => "nan"
  | FInf negative => if negative then "-inf" else "inf"
  | FFin q =>
      let n := round_half_even (Qabs q * 100) in
      (if (Qnum q <? 0)%Z then "-" else "")
        +:+ str_of_Z (n / 100) +:+ "." +:+ pad2 (n mod 100)
  end.

(** [int(x)] for a float: truncation toward zero. *)
Definition int_of_float (x : pyfloat) : result Z :=
  match x with
  | FNaN => Err ValueError
  | FInf _ => Err OverflowError
  | FFin q => Ok (Z.quot (Qnum q) (Zpos (Qden q)))
  end.

(** *** Dynamic operations on values *)

(** [bool(v)] *)
Definition truthy (v : json) : bool :=
  match v with
  | JNull => false
  | JBool b => b
  | JInt n => negb (n =? 0)%Z
  | JFloat (FFin q) => negb (Qeq_bool q 0)
  | JFloat _ => true
  | JStr s => negb (is_empty s)
  | JArr items => match items with [] => false | _ => true end
  | JObj fields => match fields with [] => false | _ => true end
  end.

(** [v or default] *)
Definition py_or (v default : json) : json :=
  if truthy v then v else default.

Definition is_none (v : json) : bool :=
  match v with JNull => true | _ => false end.

Fixpoint dict_get (fields : list (string * json)) (key : string) : json :=
  match fields with
  | [] => JNull
  | (k, v) :: rest => if String.eqb k key then v else dict_get rest key
  end.

(** [v.get(key)]: only a [dict] has the method. *)
Definition py_get (v : json) (key : string) : result json :=
  match v with
  | JObj fields => Ok (dict_get fields key)
  | _ => Err AttributeError
  end.

(** [v.strip()]: only a [str] has the method. *)
Definition py_strip (v : json) : result string :=
  match v with
  | JStr s => Ok (strip s)
  | _ => Err AttributeError
  end.

(** [v == n] for an [int] [n]. *)
Definition eq_int (v : json) (n : Z) : bool :=
  match v with
  | JInt k => (k =? n)%Z
  | JBool b => ((if b then 1 else 0) =? n)%Z
  | JFloat (FFin q) => Qeq_bool q (inject_Z n)
  | _ => false
  end.

(** [int(v)] *)
Definition py_int (v : json) : result Z :=
  match v with
  | JNull => Err TypeError
  | JBool b => Ok (if b then 1 else 0)%Z
  | JInt n => Ok n
  | JFloat x => int_of_float x
  | JStr s => match int_of_str s with Some n => Ok n | None => Err ValueError end
  | JArr _ | JObj _ => Err TypeError
  end.

(** What [json.loads] does with a text: it returns a value, raises
    [json.JSONDecodeError], raises a plain [ValueError] on an integer of
    more digits than the conversion limit allows, or raises
    [RecursionError] on nesting too deep. *)
Inductive loaded : Type :=
| Decoded (value : json)
| JSONDecodeError
| IntegerTooLong
| NestingTooDeep.

(** The exception of [json.loads] that [except json.JSONDecodeError] does
    not catch. *)
Definition loads_raises (l : loaded) : option exn :=
  match l with
  | IntegerTooLong => Some ValueError
  | NestingTooDeep => Some RecursionError
  | Decoded _ | JSONDecodeError => None
  end.

(** The library functions the program calls and this development leaves
    open: [json.loads] and [repr] of a float. *)
Class PyLib : Type := {
  json_loads : string -> loaded;
  float_repr : pyfloat -> string
}.

Section Text.
Context {lib : PyLib}.

(** [repr(v)] *)
Fixpoint py_repr (v : json) : string :=
  match v with
  | JNull => "None"
  | JBool b => if b then "True" else "False"
  | JInt n => str_of_Z n
  | JFloat x => float_repr x
  | JStr s => repr_str s
  | JArr items => "[" +:+ join ", " (map py_repr items) +:+ "]"
  | JObj fields =>
      "{" +:+ join ", "
                (map (fun kv => match kv with
                                | (k, v') => repr_str k +:+ ": " +:+ py_repr v'
                                end) fields)
          +:+ "}"
  end.

(** [str(v)], also what an f-string puts for [{v}]. *)
Definition py_str (v : json) : string :=
  match v with
  | JStr s => s
  | _ => py_repr v
  end.
End Text.

(** *** [collections.deque] with a bound *)

Record deque : Type := { items : list Z; maxlen : nat }.

(** [collections.deque(maxlen=n)] for an [int]: a bound outside the
    platform's [Py_ssize_t] (64 bits here) is an [OverflowError], a
    negative one a [ValueError]. *)
Definition deque_new (n : Z) : result deque :=
  if (n <? - 2 ^ 63)%Z || (2 ^ 63 <=? n)%Z then Err OverflowError
  else if (n <? 0)%Z then Err ValueError
  else Ok {| items := []; maxlen := Z.to_nat n |}.

(** [d.append(x)]: add on the right, then drop the leftmost item when the
    bound is exceeded. *)
Definition deque_append (d : deque) (x : Z) : deque :=
  let grown := (items d ++ [x])%list in
  {| items := if (maxlen d <? length grown)%nat then tail grown else grown;
     maxlen := maxlen d |}.

Definition deque_len (d : deque) : nat := length (items d).

(** [sum(d)] *)
Definition deque_sum (d : deque) : Z := fold_right Z.add 0%Z (items d).

End Py.

(** ** The watcher *)

Module Watcher.
Import Py.

(** What [requests.post] gives back: a response, or a
    [requests.RequestException]. *)
Inductive http_result : Type :=
| Response (status_code : Z) (text : string)
| RequestException (exc : string).

(** The outside world, asked by the number of the external call:
    [time.time()], [os.path.exists(path)] and
    [requests.post(url, json={"text": text}, ...)]. *)
Class World : Type := {
  time_time : nat -> Q;
  os_path_exists : nat -> string -> bool;
  requests_post : nat -> string -> string -> http_result
}.

(** Observable effects, in the order they happen.  [EvNotify] marks the
    entry into [_notify], that is, one alert event handed to the gate. *)
Inductive event : Type :=
| EvLog (message : string)
| EvNotify (alert_type message : string)
| EvExists (path : string) (answer : bool)
| EvPost (url text : string) (answer : http_result).

(** The fields of an [AlertWatcher] object. *)
Record AlertWatcher : Type := {
  webhook_url : string;
  log_path : string;
  window : deque;
  error_threshold : pyfloat;
  cooldown_seconds : Z;
  primary_pool : string;
  maintenance_flag : string;
  current_pool : option string;
  cooldowns : gmap string Q;
  error_alert_active : bool
}.

Definition with_window (d : deque) (w : AlertWatcher) : AlertWatcher :=
  {| webhook_url := webhook_url w; log_path := log_path w; window := d;
     error_threshold := error_threshold w; cooldown_seconds := cooldown_seconds w;
     primary_pool := primary_pool w; maintenance_flag := maintenance_flag w;
     current_pool := current_pool w; cooldowns := cooldowns w;
     error_alert_active := error_alert_active w |}.

Definition with_current_pool (p : option string) (w : AlertWatcher) : AlertWatcher :=
  {| webhook_url := webhook_url w; log_path := log_path w; window := window w;
     error_threshold := error_threshold w; cooldown_seconds := cooldown_seconds w;
     primary_pool := primary_pool w; maintenance_flag := maintenance_flag w;
     current_pool := p; cooldowns := cooldowns w;
     error_alert_active := error_alert_active w |}.

Definition with_cooldowns (c : gmap string Q) (w : AlertWatcher) : AlertWatcher :=
  {| webhook_url := webhook_url w; log_path := log_path w; window := window w;
     error_threshold := error_threshold w; cooldown_seconds := cooldown_seconds w;
     primary_pool := primary_pool w; maintenance_flag := maintenance_flag w;
     current_pool := current_pool w; cooldowns := c;
     error_alert_active := error_alert_active w |}.

Definition with_error_alert_active (b : bool) (w : AlertWatcher) : AlertWatcher :=
  {| webhook_url := webhook_url w; log_path := log_path w; window := window w;
     error_threshold := error_threshold w; cooldown_seconds := cooldown_seconds w;
     primary_pool := primary_pool w; maintenance_flag := maintenance_flag w;
     current_pool := current_pool w; cooldowns := cooldowns w;
     error_alert_active := b |}.

(** [AlertWatcher.__init__] *)
Definition __init__ (webhook_url log_path : string) (window_size : Z)
    (error_threshold : pyfloat) (cooldown_seconds : Z)
    (primary_pool maintenance_flag : option string) : result AlertWatcher :=
  rbind (deque_new window_size) (fun window =>
  Ok {| webhook_url := webhook_url;
        log_path := log_path;
        window := window;
        error_threshold := error_threshold;
        cooldown_seconds := cooldown_seconds;
        primary_pool := lower (strip (default "" primary_pool));
        maintenance_flag := strip (default "" maintenance_flag);
        current_pool := None;
        cooldowns := ∅;
        error_alert_active := false |}).

(** *** The monad of the methods *)

(** The object, the number of external calls made so far, and the effects
    so far (oldest first). *)
Record machine : Type := {
  self : AlertWatcher;
  tick : nat;
  trace : list event
}.

Inductive outcome (A : Type) : Type :=
| Ret (a : A) (m : machine)
| Raise (e : exn) (m : machine).
Arguments Ret {A} a m.
Arguments Raise {A} e m.

Definition M (A : Type) : Type := machine -> outcome A.

#[global] Instance M_ret : MRet M := fun A a m => Ret a m.

#[global] Instance M_bind : MBind M := fun A B k c m =>
  match c m with
  | Ret a m' => k a m'
  | Raise e m' => Raise e m'
  end.

(** The machine a call ends in, returned or raised. *)
Definition final {A} (o : outcome A) : machine :=
  match o with
  | Ret _ m => m
  | Raise _ m => m
  end.

Definition lift {A} (r : result A) : M A := fun m =>
  match r with
  | Ok a => Ret a m
  | Err e => Raise e m
  end.

Definition gets {A} (f : AlertWatcher -> A) : M A := fun m => Ret (f (self m)) m.

Definition modify (f : AlertWatcher -> AlertWatcher) : M unit := fun m =>
  Ret () {| self := f (self m); tick := tick m; trace := trace m |}.

Definition emit (e : event) : M unit := fun m =>
  Ret () {| self := self m; tick := tick m; trace := (trace m ++ [e])%list |}.

(** One external call: the world answers by the current tick, the tick
    advances. *)
Definition external {A} (ask : nat -> A) : M A := fun m =>
  Ret (ask (tick m)) {| self := self m; tick := S (tick m); trace := trace m |}.

(** [log(message)]: one diagnostic line (its date prefix is left out). *)
Definition log (message : string) : M unit := emit (EvLog message).

Section Methods.
Context {lib : PyLib} {world : World}.

(** The loop of [_first_status] over the candidate tokens. *)
Fixpoint _first_status_loop (candidates : list string) : option Z :=
  match candidates with
  | [] => None
  | part :: rest =>
      let part := strip part in
      if is_empty part then _first_status_loop rest
      else match int_of_str part with
           | Some n => Some n
           | None => _first_status_loop rest
           end
  end.

(** [AlertWatcher._first_status] *)
Definition _first_status (value : json) : option Z :=
  match value with
  | JNull => None
  | JArr items => _first_status_loop (map py_str items)
  | _ => _first_status_loop (split_comma (py_str value))
  end.

(** [AlertWatcher._is_error] *)
Definition _is_error (entry : json) : result bool :=
  rbind (py_get entry "upstream_status") (fun upstream_status =>
  rbind (match _first_status upstream_status with
         | Some n => Ok (JInt n)
         | None => py_get entry "status"
         end) (fun status_code =>
  if is_none status_code then Ok false
  else match py_int status_code with
       | Ok n => Ok (500 <=? n)%Z
       | Err TypeError | Err ValueError => Ok false
       | Err e => Err e
       end)).

(** [AlertWatcher._maintenance_active] *)
Definition _maintenance_active : M bool :=
  flag ← gets maintenance_flag;
  if is_empty flag then mret false
  else
    answer ← external (fun k => os_path_exists k flag);
    emit (EvExists flag answer);;
    mret answer.

(** [AlertWatcher._in_cooldown] *)
Definition _in_cooldown (alert_type : string) : M bool :=
  table ← gets cooldowns;
  match table !! alert_type with
  | None => mret false
  | Some last =>
      now ← external time_time;
      seconds ← gets cooldown_seconds;
      mret (negb (Qle_bool (inject_Z seconds) (now - last)))
  end.

(** [AlertWatcher._notify] *)
Definition _notify (alert_type message : string) : M unit :=
  emit (EvNotify alert_type message);;
  cooling ← _in_cooldown alert_type;
  if (cooling : bool) then mret ()
  else
    maintenance ← _maintenance_active;
    if (maintenance : bool) then
      log ("Maintenance mode active; suppressing " +:+ alert_type
             +:+ " alert: " +:+ message)
    else
      url ← gets webhook_url;
      if is_empty url then
        log ("Cannot send " +:+ alert_type
               +:+ " alert (no webhook configured): " +:+ message)
      else
        let text := ":rotating_light: " +:+ message in
        response ← external (fun k => requests_post k url text);
        emit (EvPost url text response);;
        match (response : http_result) with
        | Response status_code body =>
            if (400 <=? status_code)%Z then
              log ("Slack webhook returned " +:+ str_of_Z status_code
                     +:+ ": " +:+ strip body)
            else
              log ("Sent " +:+ alert_type +:+ " alert: " +:+ message);;
              now ← external time_time;
              modify (fun w => with_cooldowns (<[alert_type := now]> (cooldowns w)) w)
        | RequestException exc =>
            log ("Failed to send " +:+ alert_type +:+ " alert: " +:+ exc)
        end.

(** [AlertWatcher._record_error] *)
Definition _record_error (entry : json) : M unit :=
  is_error ← lift (_is_error entry);
  modify (fun w => with_window
                     (deque_append (window w) (if (is_error : bool) then 1 else 0)%Z) w);;
  w ← gets window;
  if (deque_len w <? maxlen w)%nat then mret ()
  else
    error_rate ← lift (truediv (deque_sum w) (Z.of_nat (deque_len w)));
    threshold ← gets error_threshold;
    if float_ge error_rate threshold then
      active ← gets error_alert_active;
      if negb active then
        _notify "error_rate"
          ("High upstream error rate detected: "
             +:+ format_2f (float_scale error_rate 100) +:+ "% over last "
             +:+ str_of_Z (Z.of_nat (deque_len w)) +:+ " requests.");;
        modify (with_error_alert_active true)
      else mret ()
    else modify (with_error_alert_active false).

(** [AlertWatcher._check_failover] *)
Definition _check_failover (entry : json) : M unit :=
  status ← lift (py_get entry "status");
  raw_pool ← lift (py_get entry "pool");
  stripped ← lift (py_strip (py_or raw_pool (JStr "")));
  let pool := lower stripped in
  raw_release ← lift (py_get entry "release");
  let release := py_str (py_or raw_release (JStr "unknown")) in
  if is_empty pool || negb (eq_int status 200) then mret ()
  else
    previous_pool ← gets current_pool;
    if bool_decide (previous_pool = Some pool) then mret ()
    else
      modify (with_current_pool (Some pool));;
      match (previous_pool : option string) with
      | None =>
          log ("Initial pool observed: " +:+ pool +:+ " (release " +:+ release +:+ ")")
      | Some previous =>
          primary ← gets primary_pool;
          if negb (is_empty primary) && String.eqb pool primary then
            _notify "recovery"
              ("Traffic recovered to primary pool '" +:+ pool +:+ "' (was '"
                 +:+ previous +:+ "'). Release " +:+ release +:+ " now serving.")
          else
            _notify "failover"
              ("Failover detected: traffic moved from '" +:+ previous
                 +:+ "' to '" +:+ pool +:+ "'. Release " +:+ release
                 +:+ " now serving.")
      end.

(** [AlertWatcher._parse_entry]; [JNull] is the [None] it returns. *)
Definition _parse_entry (line : string) : M json :=
  let line := strip line in
  if is_empty line then mret JNull
  else match json_loads line with
       | Decoded data => mret data
       | JSONDecodeError => log ("Skipping unparsable log line: " +:+ line);; mret JNull
       | IntegerTooLong => lift (Err ValueError)
       | NestingTooDeep => lift (Err RecursionError)
       end.

(** [AlertWatcher.process_line] *)
Definition process_line (line : string) : M unit :=
  entry ← _parse_entry line;
  if negb (truthy entry) then mret ()
  else
    _record_error entry;;
    _check_failover entry.

(** Feeding lines one after the other, as [tail_file] does; the first
    exception ends the run. *)
Fixpoint process_lines (lines : list string) : M unit :=
  match lines with
  | [] => mret ()
  | line :: rest => process_line line;; process_lines rest
  end.

End Methods.

End Watcher.

Import Py Watcher.

(** ** Vocabulary of the properties *)

(** The alert events of a stretch of trace: [(alert_type, message)] of
    each entry into [_notify]. *)
Fixpoint notify_events (l : list event) : list (string * string) :=
  match l with
  | [] => []
  | EvNotify alert_type message :: rest => (alert_type, message) :: notify_events rest
  | _ :: rest => notify_events rest
  end.

(** The answers of the webhook calls of a stretch of trace. *)
Fixpoint post_events (l : list event) : list http_result :=
  match l with
  | [] => []
  | EvPost _ _ answer :: rest => answer :: post_events rest
  | _ :: rest => post_events rest
  end.


Definition with_self (w : AlertWatcher) (m : machine) : machine :=
  {| self := w; tick := tick m; trace := trace m |}.

(** A machine that starts on object [w]: no external call made, nothing
    observed yet. *)
Definition boot (w : AlertWatcher) : machine :=
  {| self := w; tick := 0; trace := [] |}.

(** The last successful dispatch of [alert_type] is less than
    [cooldown_seconds] old at the clock reading the next external call
    gets. *)
Definition cooling_down {world : World} (m : machine) (alert_type : string) : Prop :=
  exists last : Q,
    cooldowns (self m) !! alert_type = Some last
    /\ (time_time (tick m) - last < inject_Z (cooldown_seconds (self m)))%Q.

(** The tick at which [_notify] reaches its maintenance gate: one clock
    reading later when a last dispatch is on record. *)
Definition gate_tick (m : machine) (alert_type : string) : nat :=
  match cooldowns (self m) !! alert_type with
  | Some _ => S (tick m)
  | None => tick m
  end.


Definition observation (is_error : bool) : Z := if is_error then 1%Z else 0%Z.

(** What [_record_error] decides on the window [d] it has just appended
    to: still filling, rate below the threshold, rate at or above it, a
    division by zero, or a quotient too large for a float. *)
Inductive level : Type := Filling | Low | High | Fault | Overflow.

Definition level_of (threshold : pyfloat) (d : deque) : level :=
  if (deque_len d <? maxlen d)%nat then Filling
  else match truediv (deque_sum d) (Z.of_nat (deque_len d)) with
       | Err ZeroDivisionError => Fault
       | Err _ => Overflow
       | Ok rate => if float_ge rate threshold then High else Low
       end.

Definition level_eqb (a b : level) : bool :=
  match a, b with
  | Filling, Filling | Low, Low | High, High | Fault, Fault | Overflow, Overflow => true
  | _, _ => false
  end.

(** The levels at which [_record_error] returns. *)
Definition returning (l : level) : Prop := l <> Fault /\ l <> Overflow.

(** Rising edges of a sequence of levels, from a given state of the
    flag: a [High] met while the flag is down. *)
Fixpoint edges (active : bool) (ls : list level) : nat :=
  match ls with
  | [] => 0
  | High :: rest => (if active then 0 else 1) + edges true rest
  | Low :: rest => edges false rest
  | _ :: rest => edges active rest
  end.

(** The flag after a sequence of levels. *)
Fixpoint active_after (active : bool) (ls : list level) : bool :=
  match ls with
  | [] => active
  | High :: rest => active_after true rest
  | Low :: rest => active_after false rest
  | _ :: rest => active_after active rest
  end.

Section Runs.
Context {lib : PyLib} {world : World}.

(** The levels [_record_error] meets on the entries, one after the other,
    from window [d]; [None] when an entry does not classify. *)
Fixpoint levels (threshold : pyfloat) (d : deque) (entries : list json) : option (list level) :=
  match entries with
  | [] => Some []
  | entry :: rest =>
      match _is_error entry with
      | Ok b =>
          let d' := deque_append d (observation b) in
          cons (level_of threshold d') <$> levels threshold d' rest
      | Err _ => None
      end
  end.

(** [_record_error] on each entry in turn. *)
Fixpoint record_all (entries : list json) : M unit :=
  match entries with
  | [] => mret ()
  | entry :: rest => _record_error entry;; record_all rest
  end.

End Runs.

(** The error classification as the specification words it: the first
    token of [upstream_status] that parses; else the [status] field; no
    usable code means no error; else error from 500 up. *)
Section SpecClassification.
Context {lib : PyLib}.

Definition spec_tokens (upstream_status : json) : list string :=
  match upstream_status with
  | JNull => []
  | JArr elements => map py_str elements
  | scalar => split_comma (py_str scalar)
  end.

Definition spec_first_parsed (tokens : list string) : option Z :=
  head (omap (fun token => int_of_str (strip token)) tokens).

(** The number a [status] value stands for, if any. *)
Definition spec_numeric (status : json) : option Z :=
  match py_int status with
  | Ok n => Some n
  | Err _ => None
  end.

Definition spec_is_error (fields : list (string * json)) : bool :=
  match spec_first_parsed (spec_tokens (dict_get fields "upstream_status")) with
  | Some status_code => (500 <=? status_code)%Z
  | None =>
      match spec_numeric (dict_get fields "status") with
      | Some status_code => (500 <=? status_code)%Z
      | None => false
      end
  end.

(** The one value on which [int(...)] raises what [_is_error] does not
    catch. *)
Definition is_infinite (v : json) : bool :=
  match v with
  | JFloat (FInf _) => true
  | _ => false
  end.

End SpecClassification.

(** The release as the messages of [_check_failover] print it. *)
Section Release.
Context {lib : PyLib}.

Definition release_text (fields : list (string * json)) : string :=
  py_str (py_or (dict_get fields "release") (JStr "unknown")).

End Release.

(** The window of the machine has bound [n] and respects it. *)
Definition bounded (n : nat) (m : machine) : Prop :=
  maxlen (window (self m)) = n /\ (deque_len (window (self m)) <= n)%nat.

(** ** Sample library, worlds and objects *)

Definition table_loads (table : list (string * json)) (line : string) : loaded :=
  match List.find (fun row => String.eqb (fst row) line) table with
  | Some row => Decoded (snd row)
  | None => JSONDecodeError
  end.

(** A text between double quotes, as a JSON line writes a string. *)
Definition quoted (s : string) : string :=
  String double_quote (s +:+ String double_quote "").

(** The line [{"status": 1e999}]: a float too large for a double, which
    [json.loads] decodes to infinity. *)
Definition line_huge_status : string := "{" +:+ quoted "status" +:+ ": 1e999}".

(** The line [{"status": 200, "pool": "Blue"}]. *)
Definition line_blue : string :=
  "{" +:+ quoted "status" +:+ ": 200, " +:+ quoted "pool" +:+ ": " +:+ quoted "Blue" +:+ "}".

(** The line [{"status": 200, "pool": "green"}]. *)
Definition line_green : string :=
  "{" +:+ quoted "status" +:+ ": 200, " +:+ quoted "pool" +:+ ": " +:+ quoted "green" +:+ "}".

(** The line [{"upstream_status": "502, 200", "status": 200}]. *)
Definition line_bad_gateway : string :=
  "{" +:+ quoted "upstream_status" +:+ ": " +:+ quoted "502, 200" +:+ ", "
      +:+ quoted "status" +:+ ": 200}".

(** The line [{"pool": 5}]. *)
Definition line_numeric_pool : string := "{" +:+ quoted "pool" +:+ ": 5}".

Definition entry_huge_status : json := JObj [("status", JFloat (FInf false))].
Definition entry_blue : json := JObj [("status", JInt 200); ("pool", JStr "Blue")].
Definition entry_green : json := JObj [("status", JInt 200); ("pool", JStr "green")].
Definition entry_bad_gateway : json :=
  JObj [("upstream_status", JStr "502, 200"); ("status", JInt 200)].
Definition entry_numeric_pool : json := JObj [("pool", JInt 5)].

(** The lines the examples use, with what [json.loads] decodes them to. *)
Definition sample_lines : list (string * json) :=
  [ ("5", JInt 5);
    ("{}", JObj []);
    (line_huge_status, entry_huge_status);
    (line_blue, entry_blue);
    (line_green, entry_green);
    (line_bad_gateway, entry_bad_gateway);
    (line_numeric_pool, entry_numeric_pool) ].

(** [repr] on the floats of the examples: the special values, and whole
    numbers of at most sixteen digits. *)
Definition sample_float_repr (x : pyfloat) : string :=
  match x with
  | FNaN => "nan"
  | FInf negative => if negative then "-inf" else "inf"
  | FFin q => str_of_Z (Z.quot (Qnum q) (Zpos (Qden q))) +:+ ".0"
  end.

Definition sample_lib : PyLib :=
  {| json_loads := table_loads sample_lines; float_repr := sample_float_repr |}.

(** A world where the clock advances one second per external call, the
    maintenance file is absent and the webhook accepts. *)
Definition calm_world : World :=
  {| time_time := fun k => inject_Z (Z.of_nat k);
     os_path_exists := fun _ _ => false;
     requests_post := fun _ _ _ => Response 200 "ok" |}.

(** The same with the maintenance file present. *)
Definition maintenance_world : World :=
  {| time_time := fun k => inject_Z (Z.of_nat k);
     os_path_exists := fun _ _ => true;
     requests_post := fun _ _ _ => Response 200 "ok" |}.

(** The same as [calm_world] with a webhook that times out. *)
Definition failing_world : World :=
  {| time_time := fun k => inject_Z (Z.of_nat k);
     os_path_exists := fun _ _ => false;
     requests_post := fun _ _ _ => RequestException "timed out" |}.

(** A fresh object: window of two, threshold one half, primary pool
    blue, a maintenance flag configured. *)
Definition sample_watcher : AlertWatcher :=
  {| webhook_url := "https://hooks.example/alert";
     log_path := "/var/log/nginx/app_access.log";
     window := {| items := []; maxlen := 2 |};
     error_threshold := FFin (1 # 2);
     cooldown_seconds := 300;
     primary_pool := "blue";
     maintenance_flag := "/run/maintenance";
     current_pool := None;
     cooldowns := ∅;
     error_alert_active := false |}.

(** The same object later: window full of errors, flag down, green
    tracked, an [error_rate] alert sent at second 1. *)
Definition busy_watcher : AlertWatcher :=
  with_cooldowns (<["error_rate" := 1%Q]> ∅)
    (with_current_pool (Some "green")
       (with_window {| items := [1%Z; 1%Z]; maxlen := 2 |} sample_watcher)).


Definition error_entry : json := JObj [("status", JInt 503)].
Definition fine_entry : json := JObj [("status", JInt 200)].

(** ** Vocabulary of the further properties *)

(** A string of decimal digits only. *)
Fixpoint all_digits (s : string) : bool :=
  match s with
  | EmptyString => true
  | String c s' => between 48 57 (code c) && all_digits s'
  end.

(** The number a decimal numeral denotes, read digit by digit from the
    left with [acc] read so far. *)
Fixpoint uint_value (acc : N) (d : Decimal.uint) : N :=
  match d with
  | Decimal.Nil => acc
  | Decimal.D0 l => uint_value (10 * acc) l
  | Decimal.D1 l => uint_value (10 * acc + 1) l
  | Decimal.D2 l => uint_value (10 * acc + 2) l
  | Decimal.D3 l => uint_value (10 * acc + 3) l
  | Decimal.D4 l => uint_value (10 * acc + 4) l
  | Decimal.D5 l => uint_value (10 * acc + 5) l
  | Decimal.D6 l => uint_value (10 * acc + 6) l
  | Decimal.D7 l => uint_value (10 * acc + 7) l
  | Decimal.D8 l => uint_value (10 * acc + 8) l
  | Decimal.D9 l => uint_value (10 * acc + 9) l
  end.

(** A character that no stripping removes and no split cuts at. *)
Definition plain_char (c : ascii) : bool :=
  negb (is_space c) && negb (is_int_space c) && negb (Ascii.eqb c ",").

Fixpoint plain (s : string) : bool :=
  match s with
  | EmptyString => true
  | String c s' => plain_char c && plain s'
  end.

(** The messages of the alert events of one type in a stretch of trace. *)
Fixpoint alerts_of (alert_type : string) (l : list event) : list string :=
  match l with
  | [] => []
  | EvNotify t message :: rest =>
      if String.eqb t alert_type then message :: alerts_of alert_type rest
      else alerts_of alert_type rest
  | _ :: rest => alerts_of alert_type rest
  end.

(** The fields [__init__] sets from its arguments and no method assigns. *)
Definition config (w : AlertWatcher) : string * string * nat * pyfloat * Z * string * string :=
  (webhook_url w, log_path w, maxlen (window w), error_threshold w,
   cooldown_seconds w, primary_pool w, maintenance_flag w).

(** What the two detectors keep between lines. *)
Definition detector (w : AlertWatcher) : deque * bool :=
  (window w, error_alert_active w).

(** The detector after one more observation. *)
Definition detector_step (threshold : pyfloat) (s : deque * bool) (b : bool) : deque * bool :=
  let d := deque_append (fst s) (observation b) in
  (d, active_after (snd s) [level_of threshold d]).

Section LineObservation.
Context {lib : PyLib}.

(** The observation a line contributes to the window, if any. *)
Definition line_observation (line : string) : option bool :=
  let text := strip line in
  if is_empty text then None
  else match json_loads text with
       | Decoded entry =>
           if truthy entry
           then match _is_error entry with Ok b => Some b | Err _ => None end
           else None
       | _ => None
       end.

End LineObservation.


(** A window of observations only: zeros and ones. *)
Definition binary (d : deque) : Prop :=
  Forall (fun x => x = 0%Z \/ x = 1%Z) (items d).

(** The window and flag a run can reach: the window respects its bound
    [n], holds observations only, and the flag is up only on a full
    window. *)
Definition healthy (n : nat) (m : machine) : Prop :=
  bounded n m
  /\ binary (window (self m))
  /\ (error_alert_active (self m) = true -> deque_len (window (self m)) = n).

(** A threshold no rate between 0 and 1 reaches. *)
Definition out_of_reach (threshold : pyfloat) : Prop :=
  match threshold with
  | FNaN => True
  | FInf negative => negative = false
  | FFin t => (1 < t)%Q
  end.

(** A threshold every rate between 0 and 1 reaches. *)
Definition always_reached (threshold : pyfloat) : Prop :=
  match threshold with
  | FNaN => False
  | FInf negative => negative = true
  | FFin t => (t <= 0)%Q
  end.

Section Observations.
Context {lib : PyLib}.

(** The observations a list of lines contributes, in order. *)
Definition observations (lines : list string) : list Z :=
  map observation (omap line_observation lines).

End Observations.

(** The pool an entry makes the tracked one: a [status] equal to 200 and
    a [pool] text that is not empty once trimmed. *)
Definition entry_pool (entry : json) : option string :=
  match entry with
  | JObj fields =>
      match dict_get fields "pool" with
      | JStr p =>
          if negb (is_empty (strip p)) && eq_int (dict_get fields "status") 200
          then Some (lower (strip p))
          else None
      | _ => None
      end
  | _ => None
  end.

Section LinePool.
Context {lib : PyLib}.

Definition line_pool (line : string) : option string :=
  let text := strip line in
  if is_empty text then None
  else match json_loads text with
       | Decoded entry => if truthy entry then entry_pool entry else None
       | _ => None
       end.

(** The tracked pool after some lines: the pool of the last line that
    names one, else the pool tracked before. *)
Definition pool_after (current : option string) (lines : list string) : option string :=
  fold_left (fun tracked line => match line_pool line with
                                 | Some p => Some p
                                 | None => tracked
                                 end) lines current.

End LinePool.

(** ** The file tailer *)

Module Tailer.

(** An open file object. *)
Definition handle : Type := nat.

(** What [open(path, "r", encoding="utf-8")] gives: a file object,
    [FileNotFoundError], or another [OSError]. *)
Inductive open_answer : Type :=
| Opened (h : handle)
| OpenNotFound
| OpenFails.

(** What [file_obj.readline()] gives: a text, empty at the end of the
    data, or an exception ([UnicodeDecodeError], [OSError]). *)
Inductive read_answer : Type :=
| Line (text : string)
| ReadFails.

(** What [os.stat(path)] gives: identity and size, [FileNotFoundError],
    or another [OSError]. *)
Inductive stat_answer : Type :=
| Stat (st_ino st_size : Z)
| StatNotFound
| StatFails.

(** The operating system, asked by the number of the external call. *)
Class Files : Type := {
  os_open : nat -> string -> open_answer;
  os_fstat_ino : nat -> handle -> Z;
  file_readline : nat -> handle -> read_answer;
  os_stat : nat -> string -> stat_answer;
  file_tell : nat -> handle -> Z
}.

(** The calls [tail_file] makes, in order, with their answers; [Handed]
    marks a call of [watcher.process_line]. *)
Inductive os_event : Type :=
| OsOpen (path : string) (answer : open_answer)
| OsSeekEnd (h : handle)
| OsFstat (h : handle) (st_ino : Z)
| OsReadline (h : handle) (answer : read_answer)
| Handed (line : string)
| OsStat (path : string) (answer : stat_answer)
| OsTell (h : handle) (position : Z)
| OsSeekStart (h : handle)
| OsClose (h : handle)
| OsSleep (seconds : Q).

(** What ends [tail_file]: an exception of the pipeline, or one of the
    operating system that the loop does not catch. *)
Inductive tail_exn : Type :=
| FromPipeline (e : exn)
| FromSystem.

(** The local variables of [tail_file], the watcher with its world, and
    the calls made so far. *)
Record tailer : Type := {
  watcher : machine;
  file_obj : option handle;
  inode : option Z;
  calls : list os_event
}.

Inductive tail_result : Type :=
| Looping (t : tailer)
| Crashed (e : tail_exn) (t : tailer).

Definition ended (r : tail_result) : tailer :=
  match r with
  | Looping t => t
  | Crashed _ t => t
  end.

(** One more external call made, and noted. *)
Definition noted (events : list os_event) (t : tailer) : tailer :=
  {| watcher := {| self := self (watcher t); tick := S (tick (watcher t));
                   trace := trace (watcher t) |};
     file_obj := file_obj t; inode := inode t;
     calls := (calls t ++ events)%list |}.

Definition with_file (f : option handle) (i : option Z) (t : tailer) : tailer :=
  {| watcher := watcher t; file_obj := f; inode := i; calls := calls t |}.

Definition with_watcher (m : machine) (t : tailer) : tailer :=
  {| watcher := m; file_obj := file_obj t; inode := inode t; calls := calls t |}.

(** [log(message)] from inside [tail_file]. *)
Definition logged (message : string) (t : tailer) : tailer :=
  with_watcher (final (log message (watcher t))) t.

Section Loop.
Context {lib : PyLib} {world : World} {files : Files}.

(** The part of a pass that runs with a file open: read a line and hand
    it over, or look at the path and sleep. *)
Definition tail_open (path : string) (h : handle) (t : tailer) : tail_result :=
  let answer := file_readline (tick (watcher t)) h in
  let t := noted [OsReadline h answer] t in
  match answer with
  | ReadFails => Crashed FromSystem t
  | Line line =>
      if negb (is_empty line) then
        let t := {| watcher := watcher t; file_obj := file_obj t; inode := inode t;
                    calls := (calls t ++ [Handed line])%list |} in
        match process_line line (watcher t) with
        | Ret _ m => Looping (with_watcher m t)
        | Raise e m => Crashed (FromPipeline e) (with_watcher m t)
        end
      else
        let stat_result := os_stat (tick (watcher t)) path in
        let t := noted [OsStat path stat_result] t in
        match stat_result with
        | StatFails => Crashed FromSystem t
        | StatNotFound =>
            let t := noted [OsClose h] t in
            let t := with_file None None t in
            Looping (noted [OsSleep (1 # 5)] t)
        | Stat st_ino st_size =>
            if match inode t with
               | Some known => negb (st_ino =? known)%Z
               | None => false
               end
            then
              let t := logged "Log rotation detected; reopening file" t in
              let t := noted [OsClose h] t in
              Looping (with_file None None t)
            else
              let position := file_tell (tick (watcher t)) h in
              let t := noted [OsTell h position] t in
              let t := if (st_size <? position)%Z then noted [OsSeekStart h] t else t in
              Looping (noted [OsSleep (1 # 5)] t)
        end
  end.

(** One pass through the body of the [while True] loop. *)
Definition tail_iteration (path : string) (t : tailer) : tail_result :=
  match file_obj t with
  | Some h => tail_open path h t
  | None =>
      let answer := os_open (tick (watcher t)) path in
      let t := noted [OsOpen path answer] t in
      match answer with
      | OpenFails => Crashed FromSystem t
      | OpenNotFound => Looping (noted [OsSleep 1] t)
      | Opened h =>
          let t := with_file (Some h) (inode t) t in
          let t := noted [OsSeekEnd h] t in
          let st_ino := os_fstat_ino (tick (watcher t)) h in
          let t := noted [OsFstat h st_ino] t in
          let t := with_file (Some h) (Some st_ino) t in
          let t := logged ("Tailing log file " +:+ path) t in
          tail_open path h t
      end
  end.

(** [tail_file] through a number of passes; the loop has no exit but an
    exception. *)
Fixpoint tail_loop (passes : nat) (path : string) (t : tailer) : tail_result :=
  match passes with
  | O => Looping t
  | S passes' =>
      match tail_iteration path t with
      | Looping t' => tail_loop passes' path t'
      | Crashed e t' => Crashed e t'
      end
  end.

Definition tail_file (passes : nat) (path : string) (m : machine) : tail_result :=
  tail_loop passes path {| watcher := m; file_obj := None; inode := None; calls := [] |}.

End Loop.

End Tailer.

Import Tailer.

(** The texts [readline] returned, in order. *)
Fixpoint texts_read (l : list os_event) : list string :=
  match l with
  | [] => []
  | OsReadline _ (Line text) :: rest => text :: texts_read rest
  | _ :: rest => texts_read rest
  end.

(** The lines given to [process_line], in order. *)
Fixpoint lines_handed (l : list os_event) : list string :=
  match l with
  | [] => []
  | Handed line :: rest => line :: lines_handed rest
  | _ :: rest => lines_handed rest
  end.

(** Following the calls with the file object held: [None] as soon as a
    call opens a file while one is held, or uses or closes a file object
    that is not the one held. *)
Definition follow (held : option (option handle)) (e : os_event) : option (option handle) :=
  match held with
  | None => None
  | Some current =>
      match e with
      | OsOpen _ (Opened h) =>
          match current with None => Some (Some h) | Some _ => None end
      | OsOpen _ _ =>
          match current with None => Some None | Some _ => None end
      | OsSeekEnd h | OsFstat h _ | OsReadline h _ | OsTell h _ | OsSeekStart h =>
          match current with
          | Some h' => if Nat.eqb h h' then Some current else None
          | None => None
          end
      | OsClose h =>
          match current with
          | Some h' => if Nat.eqb h h' then Some None else None
          | None => None
          end
      | Handed _ | OsStat _ _ | OsSleep _ => Some current
      end
  end.

Definition held_after (l : list os_event) : option (option handle) :=
  fold_left follow l (Some None).

Section TailerState.
Context {lib : PyLib}.

(** What holds of the tailer between passes and where it ends. *)
Definition tidy (m0 : machine) (t : tailer) : Prop :=
  lines_handed (calls t)
  = List.filter (fun text => negb (is_empty text)) (texts_read (calls t))
  /\ held_after (calls t) = Some (file_obj t)
  /\ (inode t = None <-> file_obj t = None)
  /\ config (self (watcher t)) = config (self m0)
  /\ detector (self (watcher t))
     = fold_left (detector_step (error_threshold (self m0)))
         (omap line_observation (lines_handed (calls t))) (detector (self m0)).

End TailerState.

(** ** The entry point *)

(** The environment of the process, and [float] on a text ([None] stands
    for [ValueError]). *)
Class Process : Type := {
  os_getenv : string -> option string;
  float_of_str : string -> option pyfloat
}.

(** How [main] ends: [sys.exit], an exception before the tailer starts,
    or the tailer's own end.  An interrupt from the keyboard is no part
    of the model. *)
Inductive main_result : Type :=
| SystemExit (code : Z) (printed : list event)
| Uncaught (e : exn)
| Tailed (r : tail_result).

Section Main.
Context {lib : PyLib} {world : World} {files : Files} {process : Process}.

Definition main (passes : nat) : main_result :=
  let webhook_url := strip (default "" (os_getenv "SLACK_WEBHOOK_URL")) in
  if is_empty webhook_url then SystemExit 1 [EvLog "SLACK_WEBHOOK_URL is required."]
  else
    let log_path := default "/var/log/nginx/app_access.log" (os_getenv "LOG_PATH") in
    match int_of_str (default "200" (os_getenv "ALERT_ERROR_WINDOW")) with
    | None => Uncaught ValueError
    | Some window_size =>
        match float_of_str (default "0.02" (os_getenv "ALERT_ERROR_THRESHOLD")) with
        | None => Uncaught ValueError
        | Some threshold =>
            match int_of_str (default "300" (os_getenv "ALERT_COOLDOWN_SECONDS")) with
            | None => Uncaught ValueError
            | Some cooldown =>
                let primary_pool := os_getenv "PRIMARY_POOL" in
                let maintenance_flag := os_getenv "MAINTENANCE_FLAG_FILE" in
                match __init__ webhook_url log_path window_size threshold cooldown
                        primary_pool maintenance_flag with
                | Err e => Uncaught e
                | Ok watcher => Tailed (tail_file passes log_path (boot watcher))
                end
            end
        end
    end.

End Main.

(** The configuration [main] reads from the environment. *)
Definition settings {process : Process} (window_size : Z) (threshold : pyfloat) (cooldown : Z)
  : string * string * nat * pyfloat * Z * string * string :=
  (strip (default "" (os_getenv "SLACK_WEBHOOK_URL")),
   default "/var/log/nginx/app_access.log" (os_getenv "LOG_PATH"),
   Z.to_nat window_size, threshold, cooldown,
   lower (strip (default "" (os_getenv "PRIMARY_POOL"))),
   strip (default "" (os_getenv "MAINTENANCE_FLAG_FILE"))).

(** ** Further sample objects *)

(** The sample object with a threshold of 2, above every rate. *)
Definition deaf_watcher : AlertWatcher :=
  {| webhook_url := "https://hooks.example/alert";
     log_path := "/var/log/nginx/app_access.log";
     window := {| items := []; maxlen := 2 |};
     error_threshold := FFin 2;
     cooldown_seconds := 300;
     primary_pool := "blue";
     maintenance_flag := "/run/maintenance";
     current_pool := None;
     cooldowns := ∅;
     error_alert_active := false |}.

(** The sample object with a threshold of 0 and one healthy request in
    its window. *)
Definition eager_watcher : AlertWatcher :=
  {| webhook_url := "https://hooks.example/alert";
     log_path := "/var/log/nginx/app_access.log";
     window := {| items := [0%Z]; maxlen := 2 |};
     error_threshold := FFin 0;
     cooldown_seconds := 300;
     primary_pool := "blue";
     maintenance_flag := "/run/maintenance";
     current_pool := None;
     cooldowns := ∅;
     error_alert_active := false |}.

(** The sample object with no webhook. *)
Definition mute_watcher : AlertWatcher :=
  {| webhook_url := "";
     log_path := "/var/log/nginx/app_access.log";
     window := {| items := []; maxlen := 2 |};
     error_threshold := FFin (1 # 2);
     cooldown_seconds := 300;
     primary_pool := "blue";
     maintenance_flag := "/run/maintenance";
     current_pool := None;
     cooldowns := ∅;
     error_alert_active := false |}.

(** The line [5] as [readline] returns it, with its newline. *)
Definition line_five : string := String "5" (String (ascii_of_N 10) "").

(** A log file that is there, with inode 11: nothing to read at first,
    then the line [5] at the eighth external call. *)
Definition sample_files : Files :=
  {| os_open := fun _ _ => Opened 7%nat;
     os_fstat_ino := fun _ _ => 11%Z;
     file_readline := fun k _ => if Nat.eqb k 7 then Line line_five else Line "";
     os_stat := fun _ _ => Stat 11 0;
     file_tell := fun _ _ => 0%Z |}.

(** A log file replaced between two looks: the path has inode 12 while
    the file held has inode 11; the new file has the line
    [{"status": 200, "pool": "Blue"}] to read once. *)
Definition rotated_files : Files :=
  {| os_open := fun k _ => Opened k;
     os_fstat_ino := fun k _ => if Nat.leb k 2 then 11%Z else 12%Z;
     file_readline := fun k _ => if Nat.eqb k 13 then Line line_blue else Line "";
     os_stat := fun _ _ => Stat 12 0;
     file_tell := fun _ _ => 0%Z |}.

(** An environment that sets the webhook, a window of two, a threshold
    of one half, the primary pool and the maintenance flag. *)
Definition sample_process : Process :=
  {| os_getenv := fun name =>
       if String.eqb name "SLACK_WEBHOOK_URL" then Some " https://hooks.example/alert "
       else if String.eqb name "ALERT_ERROR_WINDOW" then Some "2"
       else if String.eqb name "ALERT_ERROR_THRESHOLD" then Some "0.5"
       else if String.eqb name "PRIMARY_POOL" then Some " Blue "
       else if String.eqb name "MAINTENANCE_FLAG_FILE" then Some "/run/maintenance "
       else None;
     float_of_str := fun text =>
       if String.eqb text "0.5" then Some (FFin (1 # 2)) else None |}.

(** The same environment with a window of 2**63. *)
Definition huge_window_process : Process :=
  {| os_getenv := fun name =>
       if String.eqb name "ALERT_ERROR_WINDOW" then Some "9223372036854775808"
       else os_getenv (Process := sample_process) name;
     float_of_str := float_of_str (Process := sample_process) |}.

(** The line [{"status": 200.0, "pool": "green"}]: the status written as
    a float. *)
Definition line_float_status : string :=
  "{" +:+ quoted "status" +:+ ": 200.0, " +:+ quoted "pool" +:+ ": " +:+ quoted "green" +:+ "}".

Definition entry_float_status : json :=
  JObj [("status", JFloat (FFin 200)); ("pool", JStr "green")].

(** A line that is one integer of 4301 digits, one more than the
    conversion limit. *)
Definition line_long_integer : string := string_of_list_ascii (repeat "5"%char 4301).

(** [sample_lib] with these two lines: the first decodes, the second
    makes [json.loads] raise [ValueError]. *)
Definition wider_lib : PyLib :=
  {| json_loads := fun line =>
       if String.eqb line line_long_integer then IntegerTooLong
       else table_loads (sample_lines ++ [(line_float_status, entry_float_status)]) line;
     float_repr := sample_float_repr |}.

(** ** Proof tools *)

Ltac unmonad :=
  unfold log in *;
  unfold mbind, M_bind, mret, M_ret, gets, modify, emit, external, lift in *;
  cbn beta iota in *.

(** Case analysis on an innermost scrutinee of the goal. *)
Ltac split_match :=
  match goal with
  | |- context [match ?x with _ => _ end] =>
      lazymatch x with
      | context [match _ with _ => _ end] => fail
      | _ => destruct x eqn:?
      end
  end.

Ltac split_all := repeat (split_match; cbn [self tick trace] in * ).

Ltac trace_eq :=
  cbn [trace self tick]; rewrite <- ?app_assoc; cbn [app]; try reflexivity.


(** ** The notification gate *)

Section Gate.
Context {lib : PyLib} {world : World}.

Lemma with_cooldowns_same (w : AlertWatcher) : w = with_cooldowns (cooldowns w) w.
Proof. destruct w; reflexivity. Qed.

Lemma is_empty_false (s : string) : s <> "" -> is_empty s = false.
Proof. destruct s; [congruence | reflexivity]. Qed.

Lemma is_empty_true (s : string) : is_empty s = true -> s = "".
Proof. destruct s; [reflexivity | discriminate]. Qed.

Lemma cooling_down_spec (m : machine) (alert_type : string) (last : Q) :
  cooldowns (self m) !! alert_type = Some last ->
  (negb (Qle_bool (inject_Z (cooldown_seconds (self m))) (time_time (tick m) - last)) = true
   <-> cooling_down m alert_type).
Proof.
  intros Hlast. unfold cooling_down. rewrite negb_true_iff. split.
  - intros Hq. exists last. split; [exact Hlast|].
    apply Qnot_le_lt. intros Hle. apply Qle_bool_iff in Hle. congruence.
  - intros (last' & Hl & Hlt). rewrite Hlast in Hl. injection Hl as <-.
    destruct (Qle_bool _ _) eqn:Hq; [|reflexivity].
    apply Qle_bool_iff in Hq. exfalso. exact (Qlt_not_le _ _ Hlt Hq).
Qed.

Lemma not_cooling_without_record (m : machine) (alert_type : string) :
  cooldowns (self m) !! alert_type = None -> ~ cooling_down m alert_type.
Proof. intros Hnone (last & Hl & _). congruence. Qed.

(** [_notify] always returns; it adds the alert event and what the gate
    did, calls the webhook at most once, and touches no field but
    [cooldowns]. *)
Lemma notify_frame (alert_type message : string) (m : machine) :
  exists m' gate,
    _notify alert_type message m = Ret () m'
    /\ trace m' = (trace m ++ EvNotify alert_type message :: gate)%list
    /\ notify_events gate = []
    /\ (length (post_events gate) <= 1)%nat
    /\ self m' = with_cooldowns (cooldowns (self m')) (self m).
Proof.
  unfold _notify, _in_cooldown, _maintenance_active. unmonad.
  destruct m as [w k tr]. cbn [self tick trace].
  split_all;
    (eexists _, _; split; [reflexivity|]; split; [trace_eq|];
     cbn; repeat split; try lia; try apply with_cooldowns_same; try reflexivity).
Qed.







(** C8.  With a maintenance flag configured: while the path exists no
    webhook call is made; an attempt that is not in cooldown asks the
    filesystem itself, at its own moment, and acts on that answer alone
    (the object stores no answer: a suppressed attempt leaves it as it
    was); when the answer is yes the gate writes one diagnostic line that
    names the alert type and the message; when the answer is no and a
    webhook is configured, the webhook is called. *)
Theorem notify_maintenance_gate (alert_type message : string) (m : machine) :
  maintenance_flag (self m) <> "" ->
  let flag := maintenance_flag (self m) in
  let present := os_path_exists (gate_tick m alert_type) flag in
  exists m' gate,
    _notify alert_type message m = Ret () m'
    /\ trace m' = (trace m ++ EvNotify alert_type message :: gate)%list
    /\ (present = true -> post_events gate = [])
    /\ (~ cooling_down m alert_type ->
        exists rest,
          gate = EvExists flag present :: rest
          /\ (present = true ->
              rest = [EvLog ("Maintenance mode active; suppressing " +:+ alert_type
                               +:+ " alert: " +:+ message)]
              /\ self m' = self m)
          /\ (present = false -> webhook_url (self m) <> "" ->
              exists answer rest',
                rest = EvPost (webhook_url (self m)) (":rotating_light: " +:+ message) answer
                         :: rest')).
Proof.
  intros Hflag flag present. subst flag present.
  unfold _notify, _in_cooldown, _maintenance_active, gate_tick. unmonad.
  destruct m as [w k tr]. cbn [self tick trace] in *.
  destruct (cooldowns w !! alert_type) as [last|] eqn:Hlast.
  - pose proof (cooling_down_spec {| self := w; tick := k; trace := tr |}
                  alert_type last Hlast) as Hcd.
    cbn [self tick trace] in *.
    destruct (negb (Qle_bool _ _)) eqn:Hq.
    + eexists _, _; split; [reflexivity|]; split; [trace_eq|].
      split; [reflexivity|]. intros Hno. exfalso. apply Hno, Hcd. reflexivity.
    + cbn [self tick trace]. rewrite (is_empty_false _ Hflag). cbn [self tick trace].
      destruct (os_path_exists (S k) (maintenance_flag w)) eqn:Hex.
      * eexists _, _; split; [reflexivity|]; split; [trace_eq|].
        split; [reflexivity|]. intros _. eexists. split; [reflexivity|].
        split; [intros _; split; reflexivity | discriminate].
      * split_all;
          (eexists _, _; split; [reflexivity|]; split; [trace_eq|];
           split; [discriminate|]; intros _; eexists; split; [reflexivity|];
           split; [discriminate|]; intros _ Hurl;
           try congruence; try (apply is_empty_false in Hurl; congruence); eauto).
  - cbn [self tick trace]. rewrite (is_empty_false _ Hflag). cbn [self tick trace].
    destruct (os_path_exists k (maintenance_flag w)) eqn:Hex.
    + eexists _, _; split; [reflexivity|]; split; [trace_eq|].
      split; [reflexivity|]. intros _. eexists. split; [reflexivity|].
      split; [intros _; split; reflexivity | discriminate].
    + split_all;
        (eexists _, _; split; [reflexivity|]; split; [trace_eq|];
         split; [discriminate|]; intros _; eexists; split; [reflexivity|];
         split; [discriminate|]; intros _ Hurl;
         try congruence; try (apply is_empty_false in Hurl; congruence); eauto).
Qed.

End Gate.

(** ** The rolling error-rate detector *)

Section Rolling.
Context {lib : PyLib} {world : World}.

Lemma notify_events_app (a b : list event) :
  notify_events (a ++ b) = (notify_events a ++ notify_events b)%list.
Proof.
  induction a as [|e a IH]; [reflexivity|].
  destruct e; cbn; rewrite ?IH; reflexivity.
Qed.

Lemma post_events_app (a b : list event) :
  post_events (a ++ b) = (post_events a ++ post_events b)%list.
Proof.
  induction a as [|e a IH]; [reflexivity|].
  destruct e; cbn; rewrite ?IH; reflexivity.
Qed.

Lemma record_error_fault entry e m :
  _is_error entry = Err e -> _record_error entry m = Raise e m.
Proof. intros H. unfold _record_error. unmonad. rewrite H. reflexivity. Qed.

(** One call of [_record_error] on an entry that classifies, by the level
    of the window after the append. *)
Lemma record_error_step entry b m :
  _is_error entry = Ok b ->
  let d := deque_append (window (self m)) (observation b) in
  let w1 := with_window d (self m) in
  match level_of (error_threshold (self m)) d with
  | Filling => _record_error entry m = Ret () (with_self w1 m)
  | Fault => _record_error entry m = Raise ZeroDivisionError (with_self w1 m)
  | Overflow => _record_error entry m = Raise OverflowError (with_self w1 m)
  | Low => _record_error entry m = Ret () (with_self (with_error_alert_active false w1) m)
  | High =>
      if error_alert_active (self m) then _record_error entry m = Ret () (with_self w1 m)
      else exists m' gate message,
          _record_error entry m = Ret () m'
          /\ trace m' = (trace m ++ EvNotify "error_rate" message :: gate)%list
          /\ notify_events gate = []
          /\ (length (post_events gate) <= 1)%nat
          /\ self m' = with_error_alert_active true (with_cooldowns (cooldowns (self m')) w1)
  end.
Proof.
  intros H d w1. unfold _record_error. unmonad. rewrite H. cbn [self tick trace].
  fold (observation b). fold d. unfold level_of.
  change (window (with_window d (self m))) with d.
  destruct (deque_len d <? maxlen d)%nat; [reflexivity|].
  unfold truediv.
  destruct (Z.of_nat (deque_len d) =? 0)%Z; [reflexivity|].
  destruct (binary64 _); [|reflexivity].
  cbn [self tick trace error_threshold with_window].
  destruct (float_ge _ _); [|reflexivity].
  cbn [self tick trace error_alert_active with_window].
  destruct (error_alert_active (self m)) eqn:Hact; cbn [negb]; [reflexivity|].
  match goal with
  | |- context [_notify ?t ?msg ?m0] =>
      destruct (notify_frame t msg m0) as (m' & gate & Hrun & Htr & Hn & Hp & Hself);
      rewrite Hrun
  end.
  eexists _, gate, _. split; [reflexivity|]. cbn [self tick trace] in *.
  split; [exact Htr|]. split; [exact Hn|]. split; [exact Hp|].
  rewrite Hself. reflexivity.
Qed.

(** A run of [_record_error] enters [_notify] once per rising edge. *)
Lemma record_all_edges entries : forall m ls,
  levels (error_threshold (self m)) (window (self m)) entries = Some ls ->
  Forall returning ls ->
  exists m' new,
    record_all entries m = Ret () m'
    /\ trace m' = (trace m ++ new)%list
    /\ map fst (notify_events new)
       = repeat "error_rate" (edges (error_alert_active (self m)) ls)
    /\ (edges (error_alert_active (self m)) ls = 0%nat -> new = [])
    /\ (length (post_events new) <= edges (error_alert_active (self m)) ls)%nat
    /\ error_alert_active (self m') = active_after (error_alert_active (self m)) ls.
Proof.
  induction entries as [|entry rest IH]; intros m ls Hls Hfault.
  - injection Hls as <-. exists m, []. cbn. rewrite app_nil_r. repeat split; auto.
  - cbn [levels] in Hls. destruct (_is_error entry) as [b|] eqn:Hb; [|discriminate].
    cbn zeta in Hls.
    set (d := deque_append (window (self m)) (observation b)) in *.
    destruct (levels _ d rest) as [ls'|] eqn:Hrest; [|discriminate].
    cbn in Hls. injection Hls as <-.
    pose proof (record_error_step entry b m Hb) as Hstep. cbn zeta in Hstep. fold d in Hstep.
    assert (Hf' : Forall returning ls') by (apply Forall_inv_tail in Hfault; exact Hfault).
    apply Forall_inv in Hfault. destruct Hfault as [Hnofault Hnooverflow].
    cbn [record_all]. unfold mbind, M_bind.
    destruct (level_of (error_threshold (self m)) d) eqn:Hlevel.
    + (* Filling *)
      rewrite Hstep.
      destruct (IH (with_self (with_window d (self m)) m) ls' Hrest Hf')
        as (m' & new & Hrun & Htr & Hev & Hnil & Hposts & Hact).
      cbn [with_self self tick trace error_alert_active with_window] in *.
      exists m', new. cbn [edges active_after]. auto 10.
    + (* Low *)
      rewrite Hstep.
      destruct (IH (with_self (with_error_alert_active false (with_window d (self m))) m)
                  ls' Hrest Hf')
        as (m' & new & Hrun & Htr & Hev & Hnil & Hposts & Hact).
      cbn [with_self self tick trace error_alert_active with_window
             with_error_alert_active] in *.
      exists m', new. cbn [edges active_after]. auto 10.
    + (* High *)
      destruct (error_alert_active (self m)) eqn:Hactive.
      * rewrite Hstep.
        destruct (IH (with_self (with_window d (self m)) m) ls') as (m' & new & Hrun & Htr & Hev & Hnil & Hposts & Hact); auto.
        cbn [with_self self tick trace error_alert_active with_window] in *.
        rewrite Hactive in *.
        exists m', new. cbn [edges active_after]. auto 10.
      * destruct Hstep as (m1 & gate & message & Hrun1 & Htr1 & Hn1 & Hp1 & Hself1).
        rewrite Hrun1.
        destruct (IH m1 ls') as (m' & new & Hrun & Htr & Hev & Hnil & Hposts & Hact); auto.
        { rewrite Hself1. exact Hrest. }
        rewrite Hself1 in Hev, Hnil, Hposts, Hact.
        cbn [with_self self error_alert_active with_window with_cooldowns with_error_alert_active] in *.
        exists m', (EvNotify "error_rate" message :: gate ++ new)%list.
        split; [exact Hrun|]. split.
        { rewrite Htr, Htr1, <- app_assoc. reflexivity. }
        cbn [edges active_after notify_events map fst repeat Nat.add].
        rewrite notify_events_app, Hn1. cbn [app]. rewrite Hev.
        split; [reflexivity|]. split; [discriminate|].
        cbn [post_events]. rewrite post_events_app, length_app. split; [lia|exact Hact].
    + exfalso. apply Hnofault. reflexivity.
    + exfalso. apply Hnooverflow. reflexivity.
Qed.

Lemma record_all_single entry m m' :
  record_all [entry] m = Ret () m' -> _record_error entry m = Ret () m'.
Proof.
  cbn [record_all]. unfold mbind, M_bind, mret, M_ret.
  destruct (_record_error entry m) as [[] m1|e m1]; congruence.
Qed.

Lemma single_event (l : list (string * string)) (alert_type : string) :
  map fst l = [alert_type] -> exists message, l = [(alert_type, message)].
Proof.
  destruct l as [|[t msg] [|? ?]]; cbn; try discriminate.
  intros [= ->]. eauto.
Qed.

Lemma edges_high (n : nat) : edges true (repeat High n) = 0%nat.
Proof. induction n; cbn; auto. Qed.

Lemma active_after_high (n : nat) : active_after true (repeat High n) = true.
Proof. induction n; cbn; auto. Qed.

Lemma no_fault_repeat (l : level) (n : nat) : returning l -> Forall returning (repeat l n).
Proof. intros Hl. induction n; cbn; constructor; assumption. Qed.

Lemma edges_low_then_high (k : nat) (a : bool) :
  edges a (repeat Low (S k) ++ [High])%list = 1%nat.
Proof. cbn. induction k; cbn; auto. Qed.

Lemma active_after_low_then_high (k : nat) (a : bool) :
  active_after a (repeat Low (S k) ++ [High])%list = true.
Proof. cbn. induction k; cbn; auto. Qed.

Lemma no_fault_low_then_high (k : nat) : Forall returning (repeat Low k ++ [High])%list.
Proof.
  apply Forall_app. split.
  - apply no_fault_repeat. split; discriminate.
  - repeat constructor; discriminate.
Qed.

(** C4.  The error-rate alert is edge-triggered.  From any machine:
    (1) an entry that brings the rate to the threshold while the flag is
    down emits exactly one [error_rate] event and raises the flag;
    (2) while the flag is up, entries that keep the rate at or above the
    threshold emit nothing at all and leave the flag up;
    (3) an entry with a full window and a rate below the threshold emits
    nothing and clears the flag, whatever it was;
    (4) after one or more such entries, the next entry that brings the
    rate back to the threshold emits exactly one new [error_rate] event. *)
Theorem error_rate_alert_is_edge_triggered (m : machine) :
  let threshold := error_threshold (self m) in
  let d := window (self m) in
  (forall entry,
      error_alert_active (self m) = false ->
      levels threshold d [entry] = Some [High] ->
      exists m' new message,
        _record_error entry m = Ret () m'
        /\ trace m' = (trace m ++ new)%list
        /\ notify_events new = [("error_rate", message)]
        /\ error_alert_active (self m') = true)
  /\ (forall entries n,
      error_alert_active (self m) = true ->
      levels threshold d entries = Some (repeat High n) ->
      exists m',
        record_all entries m = Ret () m'
        /\ trace m' = trace m
        /\ error_alert_active (self m') = true)
  /\ (forall entry,
      levels threshold d [entry] = Some [Low] ->
      exists m',
        _record_error entry m = Ret () m'
        /\ trace m' = trace m
        /\ error_alert_active (self m') = false)
  /\ (forall entries k,
      levels threshold d entries = Some (repeat Low (S k) ++ [High])%list ->
      exists m' new message,
        record_all entries m = Ret () m'
        /\ trace m' = (trace m ++ new)%list
        /\ notify_events new = [("error_rate", message)]
        /\ error_alert_active (self m') = true).
Proof.
  intros threshold d. subst threshold d. repeat split.
  - intros entry Hoff Hls.
    destruct (record_all_edges [entry] m [High] Hls) as (m' & new & Hrun & Htr & Hev & _ & _ & Hact).
    { repeat constructor; discriminate. }
    rewrite Hoff in Hev, Hact. cbn in Hev, Hact.
    apply single_event in Hev as [message Hev].
    exists m', new, message. auto using record_all_single.
  - intros entries n Hon Hls.
    destruct (record_all_edges entries m _ Hls) as (m' & new & Hrun & Htr & _ & Hnil & _ & Hact).
    { apply no_fault_repeat. split; discriminate. }
    rewrite Hon in Hnil, Hact. rewrite edges_high in Hnil.
    rewrite active_after_high in Hact.
    rewrite (Hnil eq_refl), app_nil_r in Htr. eauto.
  - intros entry Hls.
    destruct (record_all_edges [entry] m [Low] Hls) as (m' & new & Hrun & Htr & _ & Hnil & _ & Hact).
    { repeat constructor; discriminate. }
    cbn in Hnil, Hact. rewrite (Hnil eq_refl), app_nil_r in Htr.
    exists m'. auto using record_all_single.
  - intros entries k Hls.
    destruct (record_all_edges entries m _ Hls) as (m' & new & Hrun & Htr & Hev & _ & _ & Hact).
    { apply (no_fault_low_then_high (S k)). }
    rewrite edges_low_then_high in Hev. rewrite active_after_low_then_high in Hact.
    cbn in Hev. apply single_event in Hev as [message Hev].
    exists m', new, message. auto.
Qed.

(** C10.  When an entry brings the rate to the threshold with the flag
    down, [_notify] is entered once and the flag is up afterwards,
    whatever the gate did with the attempt ([gate] is what it did: nothing
    in cooldown, a maintenance line, a webhook call that failed or
    succeeded); and for as long as the following entries keep the rate at
    or above the threshold, nothing more is emitted: no further dispatch
    attempt is made. *)
Theorem alert_flag_set_whatever_the_gate_does
    (m : machine) (entry : json) (sustained : list json) (n : nat) :
  error_alert_active (self m) = false ->
  levels (error_threshold (self m)) (window (self m)) (entry :: sustained)
    = Some (High :: repeat High n) ->
  exists m1 gate message m',
    _record_error entry m = Ret () m1
    /\ trace m1 = (trace m ++ EvNotify "error_rate" message :: gate)%list
    /\ notify_events gate = []
    /\ (length (post_events gate) <= 1)%nat
    /\ error_alert_active (self m1) = true
    /\ record_all sustained m1 = Ret () m'
    /\ trace m' = trace m1
    /\ error_alert_active (self m') = true.
Proof.
  intros Hoff Hls. cbn [levels] in Hls.
  destruct (_is_error entry) as [b|] eqn:Hb; [|discriminate]. cbn zeta in Hls.
  set (d := deque_append (window (self m)) (observation b)) in *.
  destruct (levels _ d sustained) as [ls|] eqn:Hrest; [|discriminate].
  cbn in Hls. injection Hls as Hlevel ->.
  pose proof (record_error_step entry b m Hb) as Hstep. cbn zeta in Hstep.
  fold d in Hstep. rewrite Hlevel, Hoff in Hstep.
  destruct Hstep as (m1 & gate & message & Hrun1 & Htr1 & Hn1 & Hp1 & Hself1).
  assert (Hon : error_alert_active (self m1) = true) by (rewrite Hself1; reflexivity).
  destruct (record_all_edges sustained m1 (repeat High n))
    as (m' & new & Hrun & Htr & _ & Hnil & _ & Hact).
  { rewrite Hself1. exact Hrest. }
  { apply no_fault_repeat. split; discriminate. }
  rewrite Hon in Hnil, Hact. rewrite edges_high in Hnil.
  rewrite active_after_high in Hact.
  rewrite (Hnil eq_refl), app_nil_r in Htr.
  exists m1, gate, message, m'. auto 10.
Qed.


End Rolling.

(** ** The pool detector and the pipeline *)

Section Pipeline.
Context {lib : PyLib} {world : World}.

Lemma is_empty_lower (s : string) : is_empty (lower s) = is_empty s.
Proof. destruct s; reflexivity. Qed.

Lemma dict_get_absent (fields : list (string * json)) (key : string) :
  ~ In key (map fst fields) -> dict_get fields key = JNull.
Proof.
  induction fields as [|[k v] rest IH]; cbn; [reflexivity|].
  intros Hnot. destruct (String.eqb k key) eqn:Hk.
  - apply String.eqb_eq in Hk. exfalso. apply Hnot. left. exact Hk.
  - apply IH. intros Hin. apply Hnot. right. exact Hin.
Qed.

(** Whatever [_check_failover] does, it touches only the tracked pool and
    the cooldown table. *)
Lemma check_failover_frame (entry : json) (m : machine) :
  exists c p,
    self (final (_check_failover entry m)) = with_cooldowns c (with_current_pool p (self m)).
Proof.
  assert (Hid : forall w, w = with_cooldowns (cooldowns w) (with_current_pool (current_pool w) w))
    by (intros []; reflexivity).
  unfold _check_failover. unmonad.
  destruct (py_get entry "status"); cbn [final self]; [|eauto].
  destruct (py_get entry "pool"); cbn [final self]; [|eauto].
  destruct (py_strip _); cbn [final self]; [|eauto].
  destruct (py_get entry "release"); cbn [final self]; [|eauto].
  destruct (_ || _); cbn [final self tick trace]; [eauto|].
  destruct (bool_decide _); cbn [final self tick trace]; [eauto|].
  destruct (current_pool (self m)) as [previous|] eqn:Hprev; cbn [final self tick trace].
  - destruct (_ && _);
      match goal with
      | |- context [_notify ?t ?msg ?m0] =>
          destruct (notify_frame t msg m0) as (m' & gate & Hrun & _ & _ & _ & Hself);
          rewrite Hrun; cbn [final]; rewrite Hself; cbn [self]; eauto
      end.
  - eauto.
Qed.

Lemma strip_empty_pool (p : string) :
  py_strip (py_or (JStr p) (JStr "")) = Ok (strip p).
Proof. destruct p; reflexivity. Qed.

(** C6.  A qualifying observation (status equal to 200, a pool that is
    not empty once trimmed and lowercased) whose pool differs from the
    tracked one always returns and records the new pool.  With no pool
    tracked before, the only effect is the diagnostic line of the initial
    observation: no alert event.  With a pool tracked before, exactly one
    alert event is emitted: [recovery] when a primary pool is configured
    and the new pool is that one, [failover] otherwise.  The release in
    the messages is the text "unknown" when the entry has no [release]
    field. *)
Theorem pool_transition_events (fields : list (string * json)) (p : string) (m : machine) :
  let pool := lower (strip p) in
  let release := release_text fields in
  eq_int (dict_get fields "status") 200 = true ->
  dict_get fields "pool" = JStr p ->
  pool <> "" ->
  current_pool (self m) <> Some pool ->
  exists m' new,
    _check_failover (JObj fields) m = Ret () m'
    /\ trace m' = (trace m ++ new)%list
    /\ current_pool (self m') = Some pool
    /\ (current_pool (self m) = None ->
        new = [EvLog ("Initial pool observed: " +:+ pool +:+ " (release "
                        +:+ release +:+ ")")])
    /\ (forall previous,
          current_pool (self m) = Some previous ->
          primary_pool (self m) <> "" /\ pool = primary_pool (self m) ->
          notify_events new
          = [("recovery",
              "Traffic recovered to primary pool '" +:+ pool +:+ "' (was '"
                +:+ previous +:+ "'). Release " +:+ release +:+ " now serving.")])
    /\ (forall previous,
          current_pool (self m) = Some previous ->
          primary_pool (self m) = "" \/ pool <> primary_pool (self m) ->
          notify_events new
          = [("failover",
              "Failover detected: traffic moved from '" +:+ previous +:+ "' to '"
                +:+ pool +:+ "'. Release " +:+ release +:+ " now serving.")])
    /\ (~ In "release" (map fst fields) -> release = "unknown").
Proof.
  intros pool release Hstatus Hpool Hne Hdiff.
  assert (Hrel : ~ In "release" (map fst fields) -> release = "unknown").
  { intros Habs. unfold release, release_text. rewrite (dict_get_absent _ _ Habs). reflexivity. }
  unfold _check_failover. unmonad. cbn [py_get].
  rewrite Hpool, strip_empty_pool. fold pool. fold (release_text fields). fold release.
  rewrite Hstatus. rewrite (is_empty_false _ Hne). cbn [negb orb].
  rewrite bool_decide_eq_false_2 by exact Hdiff.
  cbn [self tick trace].
  destruct (current_pool (self m)) as [previous|] eqn:Hprev.
  - cbn [self primary_pool with_current_pool].
    destruct (negb (is_empty (primary_pool (self m))) && String.eqb pool (primary_pool (self m)))
      eqn:Hprimary;
      match goal with
      | |- context [_notify ?t ?msg ?m0] =>
          destruct (notify_frame t msg m0) as (m' & gate & Hrun & Htr & Hn & _ & Hself);
          rewrite Hrun
      end;
      cbn [self tick trace] in Htr;
      (exists m'; eexists; split; [reflexivity|]; split; [exact Htr|];
       split; [rewrite Hself; reflexivity|]; split; [discriminate|]).
    + apply andb_true_iff in Hprimary as [Hconf Heq]. apply String.eqb_eq in Heq.
      split; [|split; [|exact Hrel]].
      * intros previous' [= <-] _. cbn [notify_events]. rewrite Hn. reflexivity.
      * intros previous' _ [Hnone|Hother]; [|contradiction].
        rewrite Hnone in Hconf. discriminate.
    + split; [|split; [|exact Hrel]].
      * intros previous' _ [Hconf Heq]. exfalso.
        rewrite (is_empty_false _ Hconf) in Hprimary. apply String.eqb_eq in Heq.
        rewrite Heq in Hprimary. discriminate.
      * intros previous' [= <-] _. cbn [notify_events]. rewrite Hn. reflexivity.
  - eexists _, _. split; [reflexivity|]. cbn [self tick trace with_current_pool current_pool].
    split; [reflexivity|]. split; [reflexivity|]. split; [reflexivity|].
    split; [discriminate|]. split; [discriminate|exact Hrel].
Qed.

Lemma eq_int_200 (v : json) :
  eq_int v 200 = true ->
  v = JInt 200 \/ exists q : Q, v = JFloat (FFin q) /\ (q == 200)%Q.
Proof.
  destruct v as [|b|n|x|s|items|fields]; cbn; try discriminate.
  - destruct b; discriminate.
  - intros Hn. apply Z.eqb_eq in Hn. left. congruence.
  - destruct x as [| |q]; try discriminate. intros Hq.
    right. exists q. split; [reflexivity|]. apply Qeq_bool_iff in Hq. exact Hq.
Qed.

Lemma check_failover_pool_change (entry : json) (m : machine) :
  current_pool (self (final (_check_failover entry m))) <> current_pool (self m) ->
  exists fields p,
    entry = JObj fields
    /\ eq_int (dict_get fields "status") 200 = true
    /\ dict_get fields "pool" = JStr p
    /\ strip p <> ""
    /\ current_pool (self (final (_check_failover entry m))) = Some (lower (strip p)).
Proof.
  unfold _check_failover. unmonad.
  destruct entry as [|b|n|x|s|items|fields]; try (cbn; congruence).
  cbn [py_get].
  destruct (dict_get fields "pool") as [|b|n|x|p|items|pool_fields] eqn:Hpool;
    try (cbn; congruence).
  - destruct b; cbn; congruence.
  - unfold py_or. destruct (truthy (JInt n)); cbn; congruence.
  - unfold py_or. destruct (truthy (JFloat x)); cbn; congruence.
  - rewrite strip_empty_pool. rewrite is_empty_lower.
    destruct (is_empty (strip p)) eqn:Hempty; [cbn; congruence|].
    destruct (eq_int (dict_get fields "status") 200) eqn:Hstatus; [|cbn; congruence].
    cbn [negb orb self tick trace].
    destruct (bool_decide _) eqn:Hsame; [cbn; congruence|].
    intros _. exists fields, p. split; [reflexivity|]. split; [exact Hstatus|].
    split; [exact Hpool|]. split.
    { intros Hnil. rewrite Hnil in Hempty. discriminate. }
    destruct (current_pool (self m)) as [previous|]; [|reflexivity].
    destruct (_ && _);
      match goal with
      | |- context [_notify ?t ?msg ?m0] =>
          destruct (notify_frame t msg m0) as (m' & gate & Hrun & _ & _ & _ & Hself);
          rewrite Hrun; cbn [final]; rewrite Hself; reflexivity
      end.
  - unfold py_or. destruct (truthy (JArr items)); cbn; congruence.
  - unfold py_or. destruct (truthy (JObj pool_fields)); cbn; congruence.
Qed.

(** Whatever [_record_error] does, it touches only the window, the flag
    and the cooldown table. *)
Lemma record_error_frame (entry : json) (m : machine) :
  exists d c a,
    self (final (_record_error entry m))
    = with_error_alert_active a (with_cooldowns c (with_window d (self m))).
Proof.
  assert (Hid : forall w, w = with_error_alert_active (error_alert_active w)
                                (with_cooldowns (cooldowns w) (with_window (window w) w)))
    by (intros []; reflexivity).
  destruct (_is_error entry) as [b|e] eqn:Hb.
  - pose proof (record_error_step entry b m Hb) as Hstep. cbn zeta in Hstep.
    destruct (level_of _ _).
    + rewrite Hstep. cbn. eexists _, _, _. apply (Hid (with_window _ (self m))).
    + rewrite Hstep. cbn. eexists _, _, _. reflexivity.
    + destruct (error_alert_active (self m)).
      * rewrite Hstep. cbn. eexists _, _, _. apply (Hid (with_window _ (self m))).
      * destruct Hstep as (m' & gate & message & Hrun & _ & _ & _ & Hself).
        rewrite Hrun. cbn [final]. rewrite Hself. eexists _, _, _. reflexivity.
    + rewrite Hstep. cbn. eexists _, _, _. apply (Hid (with_window _ (self m))).
    + rewrite Hstep. cbn. eexists _, _, _. apply (Hid (with_window _ (self m))).
  - rewrite (record_error_fault entry e m Hb). cbn. eauto.
Qed.

(** [_parse_entry] leaves the object alone.  It raises what [json.loads]
    raises other than [JSONDecodeError]; else it returns [None] or what
    [json.loads] made of the stripped line. *)
Lemma parse_entry_cases (line : string) (m : machine) :
  (exists e,
      strip line <> "" /\ loads_raises (json_loads (strip line)) = Some e
      /\ _parse_entry line m = Raise e m)
  \/ exists entry m0,
      _parse_entry line m = Ret entry m0
      /\ self m0 = self m
      /\ (entry = JNull \/ (json_loads (strip line) = Decoded entry /\ m0 = m)).
Proof.
  unfold _parse_entry. unmonad.
  destruct (is_empty (strip line)) eqn:Hempty; [right; eauto 6|].
  assert (Hne : strip line <> "") by (intros H; rewrite H in Hempty; discriminate).
  destruct (json_loads (strip line)) as [data| | |] eqn:Hload; cbn; eauto 8.
Qed.

Lemma loads_raises_kinds (l : loaded) (e : exn) :
  loads_raises l = Some e -> e = ValueError \/ e = RecursionError.
Proof. destruct l; cbn; intros [=]; auto. Qed.

(** C5, amended.  Whatever a call of [process_line] does (return or
    raise), if the tracked pool differs afterwards, then the line decoded
    to an object whose [status] equals 200 as [==] compares (the [int]
    200, or a float equal to it; never a string, a boolean or [None]) and
    whose [pool] is a string that is not empty once trimmed; the tracked
    pool is then that pool, trimmed and lowercased.  Every other line
    leaves the tracked pool as it was. *)
Theorem tracked_pool_changes_only_on_200_with_pool (line : string) (m : machine) :
  current_pool (self (final (process_line line m))) <> current_pool (self m) ->
  exists fields p,
    json_loads (strip line) = Decoded (JObj fields)
    /\ (dict_get fields "status" = JInt 200
        \/ exists q : Q, dict_get fields "status" = JFloat (FFin q) /\ (q == 200)%Q)
    /\ dict_get fields "pool" = JStr p
    /\ strip p <> ""
    /\ current_pool (self (final (process_line line m))) = Some (lower (strip p)).
Proof.
  unfold process_line, mbind, M_bind.
  destruct (parse_entry_cases line m)
    as [(e & _ & _ & Hparse) | (entry & m0 & Hparse & Hself0 & Hentry)];
    rewrite Hparse; [cbn; congruence|].
  destruct (truthy entry) eqn:Htruthy; cbn [negb].
  2:{ cbn. rewrite Hself0. congruence. }
  destruct Hentry as [->|[Hload ->]]; [discriminate|].
  destruct (record_error_frame entry m) as (d & c & a & Hframe).
  destruct (_record_error entry m) as [[] m1|e m1]; cbn [final] in *.
  2:{ rewrite Hframe. cbn. congruence. }
  assert (Hpool1 : current_pool (self m1) = current_pool (self m))
    by (rewrite Hframe; reflexivity).
  rewrite <- Hpool1. intros Hchange.
  destruct (check_failover_pool_change entry m1 Hchange)
    as (fields & p & -> & Hstatus & Hpool & Hne & Hnew).
  exists fields, p. auto using eq_int_200.
Qed.

Lemma record_error_window (entry : json) (b : bool) (m : machine) :
  _is_error entry = Ok b ->
  window (self (final (_record_error entry m)))
  = deque_append (window (self m)) (observation b).
Proof.
  intros Hb. pose proof (record_error_step entry b m Hb) as Hstep. cbn zeta in Hstep.
  destruct (level_of _ _); try (rewrite Hstep; reflexivity).
  destruct (error_alert_active (self m)); [rewrite Hstep; reflexivity|].
  destruct Hstep as (m' & gate & message & Hrun & _ & _ & _ & Hself).
  rewrite Hrun. cbn [final]. rewrite Hself. reflexivity.
Qed.

Lemma check_failover_window (entry : json) (m : machine) :
  window (self (final (_check_failover entry m))) = window (self m).
Proof. destruct (check_failover_frame entry m) as (c & p & ->). reflexivity. Qed.

Lemma parse_entry_decoded (line : string) (entry : json) (m : machine) :
  strip line <> "" -> json_loads (strip line) = Decoded entry ->
  _parse_entry line m = Ret entry m.
Proof.
  intros Hne Hload. unfold _parse_entry.
  rewrite (is_empty_false _ Hne), Hload. reflexivity.
Qed.

Lemma deque_append_items (d : deque) (x : Z) :
  items (deque_append d x)
  = if (deque_len d <? maxlen d)%nat then (items d ++ [x])%list
    else tail (items d ++ [x])%list.
Proof.
  unfold deque_append, deque_len. cbn [items]. rewrite length_app. cbn [length].
  destruct (maxlen d <? length (items d) + 1)%nat eqn:Hfull;
    destruct (length (items d) <? maxlen d)%nat eqn:Hroom; try reflexivity.
  - apply Nat.ltb_lt in Hfull, Hroom. lia.
  - apply Nat.ltb_ge in Hfull, Hroom. lia.
Qed.

(** C2, amended.  A line that decodes to the empty object is skipped:
    [process_line] returns at once and nothing changes.  A line that
    decodes to a non-empty object whose classification returns [b] gets
    exactly one observation ([1] for an error, [0] otherwise) appended to
    the window, the oldest one leaving when the window was at capacity;
    this holds whether the rest of the call returns or raises. *)
Theorem one_observation_per_counted_object
    (line : string) (fields : list (string * json)) (m : machine) :
  strip line <> "" ->
  json_loads (strip line) = Decoded (JObj fields) ->
  (fields = [] -> process_line line m = Ret () m)
  /\ (forall b,
        fields <> [] ->
        _is_error (JObj fields) = Ok b ->
        let before := window (self m) in
        let after := window (self (final (process_line line m))) in
        after = deque_append before (observation b)
        /\ items after
           = if (deque_len before <? maxlen before)%nat
             then (items before ++ [observation b])%list
             else tail (items before ++ [observation b])%list).
Proof.
  intros Hne Hload. split.
  - intros ->. unfold process_line, mbind, M_bind.
    rewrite (parse_entry_decoded line _ m Hne Hload). reflexivity.
  - intros b Hfields Hb before after.
    assert (Hafter : after = deque_append before (observation b)).
    { subst after before. unfold process_line, mbind, M_bind.
      rewrite (parse_entry_decoded line _ m Hne Hload).
      destruct fields as [|field rest]; [congruence|]. cbn [truthy negb].
      pose proof (record_error_window _ b m Hb) as Hwin.
      destruct (_record_error _ m) as [[] m1|e m1]; cbn [final] in *; [|exact Hwin].
      rewrite check_failover_window. exact Hwin. }
    split; [exact Hafter|]. rewrite Hafter. apply deque_append_items.
Qed.

(** *** Division by zero *)

Lemma deque_append_maxlen (d : deque) (x : Z) : maxlen (deque_append d x) = maxlen d.
Proof. reflexivity. Qed.

Lemma deque_append_len (d : deque) (x : Z) :
  deque_len (deque_append d x)
  = if (deque_len d <? maxlen d)%nat then S (deque_len d) else deque_len d.
Proof.
  unfold deque_len at 1. rewrite deque_append_items. unfold deque_len.
  destruct (length (items d) <? maxlen d)%nat.
  - rewrite length_app. cbn. lia.
  - destruct (items d); [reflexivity|]. cbn. rewrite length_app. cbn. lia.
Qed.

Lemma deque_append_bounded (d : deque) (x : Z) :
  (deque_len d <= maxlen d)%nat ->
  (deque_len (deque_append d x) <= maxlen (deque_append d x))%nat.
Proof.
  intros Hle. rewrite deque_append_len, deque_append_maxlen.
  destruct (deque_len d <? maxlen d)%nat eqn:Hroom; [|exact Hle].
  apply Nat.ltb_lt in Hroom. lia.
Qed.

(** The guard of [_record_error]: past it, a window that respects its
    bound is exactly full, and a bound of at least one excludes the
    division by zero. *)
Lemma level_guard (threshold : pyfloat) (d : deque) (x : Z) :
  (deque_len d <= maxlen d)%nat ->
  let d' := deque_append d x in
  (level_of threshold d' <> Filling -> deque_len d' = maxlen d)
  /\ ((1 <= maxlen d)%nat -> level_of threshold d' <> Fault).
Proof.
  intros Hle d'. pose proof (deque_append_bounded d x Hle) as Hle'.
  fold d' in Hle'. change (maxlen d') with (maxlen d) in Hle'.
  unfold level_of. change (maxlen d') with (maxlen d). split.
  - destruct (deque_len d' <? maxlen d)%nat eqn:Hroom; [congruence|].
    apply Nat.ltb_ge in Hroom. lia.
  - intros Hpos. destruct (deque_len d' <? maxlen d)%nat eqn:Hroom; [discriminate|].
    apply Nat.ltb_ge in Hroom. unfold truediv.
    destruct (Z.of_nat (deque_len d') =? 0)%Z eqn:Hzero.
    + apply Z.eqb_eq in Hzero. lia.
    + destruct (binary64 _); [destruct (float_ge _ _)|]; discriminate.
Qed.

Lemma is_error_raises (entry : json) (e : exn) :
  _is_error entry = Err e -> e = AttributeError \/ e = OverflowError.
Proof.
  unfold _is_error, rbind.
  destruct (py_get entry "upstream_status") as [upstream|e0] eqn:Hget.
  - destruct entry; try discriminate. cbn [py_get].
    destruct (_first_status upstream); cbn [is_none py_int]; [discriminate|].
    destruct (is_none _); [discriminate|].
    destruct (py_int _) as [n|x] eqn:Hint; [discriminate|].
    destruct x; try discriminate; intros [= <-]; auto;
      destruct (dict_get fields "status") as [| | |[]| | |]; cbn in Hint;
      try discriminate; destruct (int_of_str _); discriminate.
  - intros [= <-]. destruct entry; cbn in Hget; try discriminate; injection Hget; auto.
Qed.

Lemma check_failover_raises (entry : json) (m m' : machine) (e : exn) :
  _check_failover entry m = Raise e m' -> e = AttributeError.
Proof.
  assert (Hget : forall key v e0, py_get v key = Err e0 -> e0 = AttributeError)
    by (intros key [] e0; cbn; congruence).
  unfold _check_failover. unmonad.
  destruct (py_get entry "status") eqn:H1; [|intros [= <- _]; eauto].
  destruct (py_get entry "pool") eqn:H2; [|intros [= <- _]; eauto].
  destruct (py_strip _) eqn:H3.
  2:{ intros [= <- _]. destruct (py_or _ _); cbn in H3; congruence. }
  destruct (py_get entry "release") eqn:H4; [|intros [= <- _]; eauto].
  destruct (_ || _); [discriminate|].
  destruct (bool_decide _); [discriminate|]. cbn [self tick trace].
  destruct (current_pool (self m)); [|discriminate].
  destruct (_ && _);
    match goal with
    | |- context [_notify ?t ?msg ?m0] =>
        destruct (notify_frame t msg m0) as (m1 & gate & Hrun & _);
        rewrite Hrun; discriminate
    end.
Qed.

Lemma process_line_window (line : string) (m : machine) :
  window (self (final (process_line line m))) = window (self m)
  \/ exists b, window (self (final (process_line line m)))
               = deque_append (window (self m)) (observation b).
Proof.
  unfold process_line, mbind, M_bind.
  destruct (parse_entry_cases line m)
    as [(e & _ & _ & Hparse) | (entry & m0 & Hparse & Hself0 & _)];
    rewrite Hparse; [left; reflexivity|].
  destruct (truthy entry); cbn [negb].
  2:{ left. cbn. rewrite Hself0. reflexivity. }
  destruct (_is_error entry) as [b|e] eqn:Hb.
  - right. exists b. pose proof (record_error_window entry b m0 Hb) as Hwin.
    rewrite Hself0 in Hwin.
    destruct (_record_error entry m0) as [[] m1|e m1]; cbn [final] in *; [|exact Hwin].
    rewrite check_failover_window. exact Hwin.
  - left. rewrite (record_error_fault entry e m0 Hb). cbn. rewrite Hself0. reflexivity.
Qed.

Lemma process_line_bounded (n : nat) (line : string) (m : machine) :
  bounded n m -> bounded n (final (process_line line m)).
Proof.
  intros [Hmax Hlen]. unfold bounded.
  destruct (process_line_window line m) as [->|[b ->]]; [auto|].
  split; [exact Hmax|]. rewrite <- Hmax.
  apply (deque_append_bounded (window (self m))). rewrite Hmax. exact Hlen.
Qed.

Lemma process_line_no_zero_division (n : nat) (line : string) (m m' : machine) :
  (1 <= n)%nat -> bounded n m -> process_line line m <> Raise ZeroDivisionError m'.
Proof.
  intros Hpos [Hmax Hlen]. unfold process_line, mbind, M_bind.
  destruct (parse_entry_cases line m)
    as [(e & _ & He & Hparse) | (entry & m0 & Hparse & Hself0 & _)]; rewrite Hparse.
  { intros [= -> _]. apply loads_raises_kinds in He as [|]; discriminate. }
  destruct (truthy entry); cbn [negb]; [|discriminate].
  destruct (_is_error entry) as [b|e] eqn:Hb.
  - pose proof (record_error_step entry b m0 Hb) as Hstep. cbn zeta in Hstep.
    rewrite Hself0 in Hstep.
    destruct (level_guard (error_threshold (self m)) (window (self m)) (observation b))
      as [_ Hfault]; [lia|]. cbn zeta in Hfault.
    destruct (level_of _ _) eqn:Hlevel.
    + rewrite Hstep. intros Hraise. apply check_failover_raises in Hraise. discriminate.
    + rewrite Hstep. intros Hraise. apply check_failover_raises in Hraise. discriminate.
    + destruct (error_alert_active (self m)).
      * rewrite Hstep. intros Hraise. apply check_failover_raises in Hraise. discriminate.
      * destruct Hstep as (m1 & gate & message & Hrun & _). rewrite Hrun.
        intros Hraise. apply check_failover_raises in Hraise. discriminate.
    + exfalso. apply Hfault; [lia|reflexivity].
    + rewrite Hstep. discriminate.
  - rewrite (record_error_fault entry e m0 Hb). intros [= -> _].
    apply is_error_raises in Hb as [|]; discriminate.
Qed.

Lemma process_lines_safe (n : nat) (lines : list string) : forall m,
  (1 <= n)%nat -> bounded n m ->
  bounded n (final (process_lines lines m))
  /\ forall m', process_lines lines m <> Raise ZeroDivisionError m'.
Proof.
  induction lines as [|line rest IH]; intros m Hpos Hb.
  - split; [exact Hb|discriminate].
  - cbn [process_lines]. unfold mbind, M_bind.
    pose proof (process_line_bounded n line m Hb) as Hb1.
    pose proof (fun m' => process_line_no_zero_division n line m m' Hpos Hb) as Hsafe.
    destruct (process_line line m) as [[] m1|e m1]; cbn [final] in *.
    + apply IH; assumption.
    + split; [exact Hb1|exact Hsafe].
Qed.

(** C9.  For an object built with [window_size >= 1], no run of
    [process_line] over any lines raises [ZeroDivisionError]: at every
    point of the run, the window after the next append is never at the
    division with length zero, and past the guard its length is exactly
    [window_size].  For [window_size = 0], the first entry that reaches
    [_record_error] and classifies raises [ZeroDivisionError], the window
    being empty. *)
Theorem rate_division_and_window_size
    (url path : string) (window_size : Z) (threshold : pyfloat) (cooldown : Z)
    (primary flag : option string) (w : AlertWatcher) :
  __init__ url path window_size threshold cooldown primary flag = Ok w ->
  ((1 <= window_size)%Z ->
   forall lines,
     let m := final (process_lines lines (boot w)) in
     (forall m', process_lines lines (boot w) <> Raise ZeroDivisionError m')
     /\ forall is_error,
         let d := deque_append (window (self m)) (observation is_error) in
         level_of threshold d <> Fault
         /\ (level_of threshold d <> Filling -> deque_len d = Z.to_nat window_size))
  /\ (window_size = 0%Z ->
      forall line entry b,
        strip line <> "" ->
        json_loads (strip line) = Decoded entry ->
        truthy entry = true ->
        _is_error entry = Ok b ->
        process_line line (boot w) = Raise ZeroDivisionError (boot w)
        /\ items (window w) = []).
Proof.
  intros Hinit. unfold __init__, deque_new, rbind in Hinit.
  destruct ((window_size <? - 2 ^ 63)%Z || (2 ^ 63 <=? window_size)%Z); [discriminate|].
  destruct (window_size <? 0)%Z eqn:Hneg; [discriminate|]. injection Hinit as <-.
  apply Z.ltb_ge in Hneg. split.
  - intros Hpos lines m.
    assert (Hb0 : bounded (Z.to_nat window_size) (boot (Build_AlertWatcher url path
                    {| items := []; maxlen := Z.to_nat window_size |} threshold cooldown
                    (lower (strip (default "" primary))) (strip (default "" flag))
                    None ∅ false))).
    { split; [reflexivity|]. cbn. lia. }
    destruct (process_lines_safe (Z.to_nat window_size) lines _ ltac:(lia) Hb0)
      as [[Hmax Hlen] Hsafe].
    split; [exact Hsafe|]. intros is_error d.
    destruct (level_guard threshold (window (self m)) (observation is_error))
      as [Hfull Hfault]; [subst m; lia|]. cbn zeta in Hfull, Hfault. fold d in Hfull, Hfault.
    split; [apply Hfault; subst m; lia|]. intros Hpast. rewrite (Hfull Hpast). exact Hmax.
  - intros -> line entry b Hne Hload Htruthy Hb. split; [|reflexivity].
    unfold process_line, mbind, M_bind.
    rewrite (parse_entry_decoded line entry _ Hne Hload), Htruthy. cbn [negb].
    pose proof (record_error_step entry b (boot (Build_AlertWatcher url path
                    {| items := []; maxlen := Z.to_nat 0 |} threshold cooldown
                    (lower (strip (default "" primary))) (strip (default "" flag))
                    None ∅ false)) Hb) as Hstep.
    cbn in Hstep. rewrite Hstep. reflexivity.
Qed.
End Pipeline.

(** ** Error classification against its wording *)

Section Classification.
Context {lib : PyLib}.

Lemma int_of_empty : int_of_str "" = None.
Proof. reflexivity. Qed.

Lemma first_status_loop_spec (tokens : list string) :
  _first_status_loop tokens = spec_first_parsed tokens.
Proof.
  unfold spec_first_parsed. induction tokens as [|token rest IH]; [reflexivity|].
  cbn [_first_status_loop omap list_omap]. 
  destruct (is_empty (strip token)) eqn:Hempty.
  - apply is_empty_true in Hempty. rewrite Hempty, int_of_empty. exact IH.
  - destruct (int_of_str (strip token)); [reflexivity|exact IH].
Qed.

Lemma first_status_spec (value : json) :
  _first_status value = spec_first_parsed (spec_tokens value).
Proof.
  destruct value; cbn [_first_status spec_tokens];
    first [apply first_status_loop_spec | reflexivity].
Qed.

(** Where the code and the wording agree: every object, except when no
    token of [upstream_status] parses and [status] is an infinite float. *)
Lemma is_error_agrees_with_spec (fields : list (string * json)) :
  (spec_first_parsed (spec_tokens (dict_get fields "upstream_status")) = None ->
   is_infinite (dict_get fields "status") = false) ->
  _is_error (JObj fields) = Ok (spec_is_error fields).
Proof.
  intros Hfinite. unfold _is_error, spec_is_error, spec_numeric, rbind. cbn [py_get].
  rewrite first_status_spec.
  destruct (spec_first_parsed _) as [n|]; [reflexivity|].
  specialize (Hfinite eq_refl).
  destruct (dict_get fields "status") as [|b|n|[| |q]|s|items|status_fields];
    cbn in *; try reflexivity; try discriminate.
  destruct (int_of_str s); reflexivity.
Qed.

(** Where they part: the conversion of an infinite [status] raises an
    exception that [_is_error] does not catch. *)
Lemma is_error_overflow (fields : list (string * json)) :
  spec_first_parsed (spec_tokens (dict_get fields "upstream_status")) = None ->
  is_infinite (dict_get fields "status") = true ->
  _is_error (JObj fields) = Err OverflowError.
Proof.
  intros Hnone Hinf. unfold _is_error, rbind. cbn [py_get].
  rewrite first_status_spec, Hnone.
  destruct (dict_get fields "status") as [| | |[| |]| | |]; try discriminate. reflexivity.
Qed.

Example bad_gateway_is_error : _is_error entry_bad_gateway = Ok true.
Proof. reflexivity. Qed.

(** C3, at the failing input.  On the entry [{"status": inf}] (what the
    line [{"status": 1e999}] decodes to) no token of [upstream_status]
    parses, the fallback is the [status] field, and its conversion raises
    [OverflowError], which [_is_error] does not catch: the entry is not
    classified at all. *)
Theorem is_error_raises_on_infinite_status :
  _is_error entry_huge_status = Err OverflowError.
Proof. apply is_error_overflow; reflexivity. Qed.

End Classification.

(** ** Rounding, and the rate of a window of observations *)

Lemma round_half_even_nonneg (q : Q) : (0 <= Qnum q)%Z -> (0 <= round_half_even q)%Z.
Proof.
  intros Hn. unfold round_half_even.
  assert (Hfl : (0 <= Qnum q / Zpos (Qden q))%Z) by (apply Z.div_pos; lia).
  destruct (_ <? _)%Z; [exact Hfl|].
  destruct (_ <? _)%Z; [lia|]. destruct (Z.even _); lia.
Qed.

Lemma round_half_even_le (q : Q) (N : Z) :
  (Qnum q <= N * Zpos (Qden q))%Z -> (round_half_even q <= N)%Z.
Proof.
  intros Hle. unfold round_half_even.
  pose proof (Z.div_mod (Qnum q) (Zpos (Qden q)) ltac:(lia)) as Hdm.
  pose proof (Z.mod_pos_bound (Qnum q) (Zpos (Qden q)) ltac:(lia)) as Hmod.
  set (fl := (Qnum q / Zpos (Qden q))%Z) in *.
  set (r := (Qnum q mod Zpos (Qden q))%Z) in *.
  assert (Hfl : (fl <= N)%Z) by nia.
  assert (Hup : (0 < r -> fl + 1 <= N)%Z) by nia.
  destruct (2 * r <? Zpos (Qden q))%Z eqn:H1; [exact Hfl|].
  apply Z.ltb_ge in H1.
  destruct (Zpos (Qden q) <? 2 * r)%Z; [apply Hup; lia|].
  destruct (Z.even fl); [exact Hfl | apply Hup; lia].
Qed.

Lemma binade_le (q : Q) :
  (0 < Qnum q)%Z -> (Qnum q <= Zpos (Qden q))%Z -> (binade q <= 0)%Z.
Proof.
  intros Hpos Hle. unfold binade.
  pose proof (Z.log2_le_mono _ _ Hle) as Hlog.
  destruct (Qle_bool _ _); lia.
Qed.

Lemma binary64_unit (q : Q) :
  (0 <= q)%Q -> (q <= 1)%Q ->
  exists x, binary64 q = Some x /\ (0 <= x)%Q /\ (x <= 1)%Q.
Proof.
  intros Hlow Hhigh. unfold binary64.
  destruct (Qeq_bool q 0) eqn:Hzero.
  { exists 0%Q. split; [reflexivity|]. split; [apply Qle_refl | discriminate]. }
  destruct q as [n d]. unfold Qle in Hlow, Hhigh. cbn in Hlow, Hhigh.
  assert (Hn : (0 < n)%Z).
  { assert (n <> 0)%Z; [|lia]. intros ->. apply Qeq_bool_neq in Hzero.
    apply Hzero. reflexivity. }
  assert (Habs : Qabs (n # d) = n # d) by (unfold Qabs; rewrite Z.abs_eq by lia; reflexivity).
  rewrite Habs. cbv zeta.
  pose proof (binade_le (n # d) Hn ltac:(cbn; lia)) as Hbin.
  set (p := Z.max (binade (n # d) - 52) (-1074)).
  assert (Hp : (p <= -52)%Z) by (unfold p; lia).
  set (P := (2 ^ (- p))%Z).
  assert (HP : (0 < P)%Z) by (apply Z.pow_pos_nonneg; lia).
  assert (Hshift : Qshift (n # d) (- p) = (n * P) # d).
  { unfold Qshift. destruct (0 <=? - p)%Z eqn:H; [reflexivity|]. apply Z.leb_gt in H. lia. }
  rewrite Hshift.
  set (m := round_half_even ((n * P) # d)).
  assert (Hm0 : (0 <= m)%Z) by (apply round_half_even_nonneg; cbn; nia).
  assert (Hm1 : (m <= P)%Z) by (apply round_half_even_le; cbn; nia).
  assert (Hx : Qshift (inject_Z m) p = m # (1 * Z.to_pos P)).
  { unfold Qshift. destruct (0 <=? p)%Z eqn:H; [apply Z.leb_le in H; lia|]. reflexivity. }
  rewrite Hx.
  assert (Hden : Zpos (1 * Z.to_pos P) = P) by (rewrite Pos.mul_1_l, Z2Pos.id; lia).
  assert (Hbig : (1 < 2 ^ 1024)%Z) by (apply Z.pow_gt_1; lia).
  destruct (Qle_bool (Qshift 1 1024) (m # (1 * Z.to_pos P))) eqn:Hover.
  { exfalso. apply Qle_bool_iff in Hover. unfold Qle, Qshift in Hover.
    cbn [Z.leb Z.compare Qnum Qden] in Hover.
    change (Qnum 1) with 1%Z in Hover. rewrite Hden in Hover.
    change (Zpos (Qden 1)) with 1%Z in Hover. nia. }
  destruct (Qnum (n # d) <? 0)%Z eqn:Hneg; [apply Z.ltb_lt in Hneg; cbn in Hneg; lia|].
  eexists. split; [reflexivity|]. unfold Qle. cbn [Qnum Qden]. rewrite Hden.
  change (Qnum 0) with 0%Z. change (Qden 0) with 1%positive.
  change (Qnum 1) with 1%Z. change (Qden 1) with 1%positive. lia.
Qed.

Lemma binary_append (d : deque) (b : bool) :
  binary d -> binary (deque_append d (observation b)).
Proof.
  unfold binary. intros Hd. rewrite deque_append_items.
  assert (Hgrown : Forall (fun x => x = 0%Z \/ x = 1%Z) (items d ++ [observation b])).
  { apply Forall_app. split; [exact Hd|]. constructor; [|constructor].
    destruct b; cbn; auto. }
  destruct (deque_len d <? maxlen d)%nat; [exact Hgrown|].
  destruct (items d ++ [observation b])%list; [constructor|].
  cbn. apply Forall_inv_tail in Hgrown. exact Hgrown.
Qed.

Lemma binary_sum (l : list Z) :
  Forall (fun x => x = 0%Z \/ x = 1%Z) l ->
  (0 <= fold_right Z.add 0 l <= Z.of_nat (length l))%Z.
Proof.
  induction 1 as [|x l [-> | ->] _ IH]; cbn [fold_right length]; lia.
Qed.

(** The rate of a window of observations: the division returns, with a
    float between 0 and 1. *)
Lemma rate_in_unit_interval (d : deque) :
  binary d -> (0 < deque_len d)%nat ->
  exists rate,
    truediv (deque_sum d) (Z.of_nat (deque_len d)) = Ok (FFin rate)
    /\ (0 <= rate)%Q /\ (rate <= 1)%Q.
Proof.
  intros Hbin Hpos. pose proof (binary_sum _ Hbin) as [Hlow Hhigh].
  fold (deque_sum d) in Hlow, Hhigh. fold (deque_len d) in Hhigh.
  assert (Hden : (0 < inject_Z (Z.of_nat (deque_len d)))%Q).
  { change 0%Q with (inject_Z 0). rewrite <- Zlt_Qlt. lia. }
  destruct (binary64_unit (inject_Z (deque_sum d) / inject_Z (Z.of_nat (deque_len d))))
    as (rate & Hrate & Hbounds).
  - apply Qle_shift_div_l; [exact Hden|]. rewrite Qmult_0_l.
    change 0%Q with (inject_Z 0). rewrite <- Zle_Qle. exact Hlow.
  - apply Qle_shift_div_r; [exact Hden|]. rewrite Qmult_1_l.
    rewrite <- Zle_Qle. exact Hhigh.
  - exists rate. unfold truediv.
    destruct (Z.of_nat (deque_len d) =? 0)%Z eqn:Hzero; [apply Z.eqb_eq in Hzero; lia|].
    rewrite Hrate. split; [reflexivity | exact Hbounds].
Qed.

(** A window of observations never takes the division past the largest
    float. *)
Lemma level_binary (threshold : pyfloat) (d : deque) :
  binary d -> level_of threshold d <> Overflow.
Proof.
  intros Hbin. unfold level_of.
  destruct (deque_len d <? maxlen d)%nat; [discriminate|].
  destruct (deque_len d) as [|n] eqn:Hlen.
  - unfold truediv. cbn. discriminate.
  - destruct (rate_in_unit_interval d Hbin ltac:(lia)) as (rate & Hrate & _).
    rewrite Hlen in Hrate. rewrite Hrate. destruct (float_ge _ _); discriminate.
Qed.

(** ** Faults that leave the pipeline *)

Section Faults.
Context {lib : PyLib} {world : World}.

(** A line that decodes to a truthy value other than an object makes
    [process_line] raise [AttributeError] at the first [entry.get]. *)
Lemma non_object_line_raises (line : string) (entry : json) (m : machine) :
  strip line <> "" ->
  json_loads (strip line) = Decoded entry ->
  truthy entry = true ->
  (forall fields, entry <> JObj fields) ->
  process_line line m = Raise AttributeError m.
Proof.
  intros Hne Hload Htruthy Hshape. unfold process_line, mbind, M_bind.
  rewrite (parse_entry_decoded line entry m Hne Hload), Htruthy. cbn [negb].
  rewrite (record_error_fault entry AttributeError m); [reflexivity|].
  destruct entry; try reflexivity. exfalso. exact (Hshape _ eq_refl).
Qed.

(** Blank lines, undecodable lines and falsy values are skipped. *)
Lemma skipped_line_returns (line : string) (m : machine) :
  (strip line = ""
   \/ json_loads (strip line) = JSONDecodeError
   \/ exists entry, json_loads (strip line) = Decoded entry /\ truthy entry = false) ->
  exists m', process_line line m = Ret () m' /\ self m' = self m.
Proof.
  intros Hskip. unfold process_line, mbind, M_bind.
  destruct (parse_entry_cases line m)
    as [(e & Hne & He & _) | (entry & m0 & Hparse & Hself0 & Hentry)].
  { exfalso. destruct Hskip as [Hblank|[Hnone|(entry' & Hload' & _)]];
      [contradiction | rewrite Hnone in He; discriminate
       | rewrite Hload' in He; discriminate]. }
  rewrite Hparse.
  assert (Hfalsy : truthy entry = false).
  { destruct Hentry as [->|[Hload ->]]; [reflexivity|].
    destruct Hskip as [Hblank|[Hnone|(entry' & Hload' & Hfalsy)]].
    - unfold _parse_entry in Hparse. rewrite Hblank in Hparse. cbn in Hparse.
      injection Hparse as <-. reflexivity.
    - congruence.
    - congruence. }
  rewrite Hfalsy. cbn. eauto.
Qed.

Lemma check_failover_returns (fields : list (string * json)) (m : machine) :
  (truthy (dict_get fields "pool") = false \/ exists p, dict_get fields "pool" = JStr p) ->
  exists m', _check_failover (JObj fields) m = Ret () m'.
Proof.
  intros Hpool. unfold _check_failover. unmonad. cbn [py_get].
  assert (Hstrip : exists s, py_strip (py_or (dict_get fields "pool") (JStr "")) = Ok s).
  { destruct Hpool as [Hfalsy|[p ->]].
    - unfold py_or. rewrite Hfalsy. eexists. reflexivity.
    - rewrite strip_empty_pool. eauto. }
  destruct Hstrip as [s ->].
  destruct (_ || _); [eauto|].
  destruct (bool_decide _); [eauto|]. cbn [self tick trace].
  destruct (current_pool (self m)); [|eauto].
  destruct (_ && _);
    match goal with
    | |- context [_notify ?t ?msg ?m0] =>
        destruct (notify_frame t msg m0) as (m1 & gate & Hrun & _);
        rewrite Hrun; eauto
    end.
Qed.

(** The lines on which [process_line] returns: an object that classifies,
    with a pool that is absent, falsy or a string, on a window of
    observations with a bound of at least one. *)
Lemma process_line_returns (n : nat) (line : string) (fields : list (string * json))
    (b : bool) (m : machine) :
  strip line <> "" ->
  json_loads (strip line) = Decoded (JObj fields) ->
  _is_error (JObj fields) = Ok b ->
  (truthy (dict_get fields "pool") = false \/ exists p, dict_get fields "pool" = JStr p) ->
  (1 <= n)%nat -> bounded n m -> binary (window (self m)) ->
  exists m', process_line line m = Ret () m'.
Proof.
  intros Hne Hload Hb Hpool Hpos [Hmax Hlen] Hbin. unfold process_line, mbind, M_bind.
  rewrite (parse_entry_decoded line _ m Hne Hload).
  destruct (truthy (JObj fields)); cbn [negb]; [|eexists; reflexivity].
  pose proof (record_error_step _ b m Hb) as Hstep. cbn zeta in Hstep.
  destruct (level_guard (error_threshold (self m)) (window (self m)) (observation b))
    as [_ Hfault]; [lia|]. cbn zeta in Hfault.
  destruct (level_of _ _) eqn:Hlevel.
  - rewrite Hstep. apply check_failover_returns, Hpool.
  - rewrite Hstep. apply check_failover_returns, Hpool.
  - destruct (error_alert_active (self m)).
    + rewrite Hstep. apply check_failover_returns, Hpool.
    + destruct Hstep as (m1 & gate & message & Hrun & _). rewrite Hrun.
      apply check_failover_returns, Hpool.
  - exfalso. apply Hfault; [lia|reflexivity].
  - exfalso. exact (level_binary _ _ (binary_append _ b Hbin) Hlevel).
Qed.
End Faults.

(** ** Evaluations on the sample lines *)

(** C1, at the failing input.  The line [5] decodes to the number 5, a
    truthy value with no [get] method: [process_line] raises
    [AttributeError] out of the pipeline. *)
Theorem number_line_raises_attribute_error :
  json_loads (PyLib := sample_lib) (strip "5") = Decoded (JInt 5)
  /\ process_line (lib := sample_lib) (world := calm_world) "5" (boot sample_watcher)
     = Raise AttributeError (boot sample_watcher).
Proof.
  split; [reflexivity|].
  apply non_object_line_raises with (entry := JInt 5);
    [discriminate | reflexivity | reflexivity | discriminate].
Qed.

Example numeric_pool_raises_after_recording :
  exists m',
    process_line (lib := sample_lib) (world := calm_world) line_numeric_pool
      (boot sample_watcher) = Raise AttributeError m'
    /\ items (window (self m')) = [0%Z].
Proof. eexists. split; reflexivity. Qed.

Example huge_status_line_raises :
  process_line (lib := sample_lib) (world := calm_world) line_huge_status
    (boot sample_watcher) = Raise OverflowError (boot sample_watcher).
Proof. reflexivity. Qed.

(** C2, counterexample.  The line [{}] decodes to the empty object, which
    classifies as a non-error; yet [process_line] leaves the machine as it
    was: the window stays empty, where one appended observation would
    make it [[0]]. *)
Lemma empty_object_line_not_counted :
  let m := boot sample_watcher in
  let m' := final (process_line (lib := sample_lib) (world := calm_world) "{}" m) in
  json_loads (PyLib := sample_lib) (strip "{}") = Decoded (JObj [])
  /\ _is_error (lib := sample_lib) (JObj []) = Ok false
  /\ m' = m
  /\ items (window (self m')) = []
  /\ items (deque_append (window (self m)) (observation false)) = [0%Z].
Proof. repeat split; reflexivity. Qed.

Example sample_watcher_built :
  __init__ "https://hooks.example/alert" "/var/log/nginx/app_access.log" 2
    (FFin (1 # 2)) 300 (Some " Blue ") (Some "/run/maintenance ")
  = Ok sample_watcher.
Proof. reflexivity. Qed.

(** The amended C2 on the line [{"status": 200, "pool": "Blue"}]. *)
Lemma one_observation_witness :
  items (window (self (final (process_line (lib := sample_lib) (world := calm_world)
                                line_blue (boot sample_watcher)))))
  = [0%Z].
Proof.
  destruct (one_observation_per_counted_object (lib := sample_lib) (world := calm_world)
              line_blue [("status", JInt 200); ("pool", JStr "Blue")]
              (boot sample_watcher)) as [_ Hcount].
  - vm_compute. discriminate.
  - reflexivity.
  - destruct (Hcount false) as [_ Hitems]; [discriminate | reflexivity |].
    exact Hitems.
Defined.

(** C5 on the same line, from a fresh object. *)
Lemma tracked_pool_witness :
  exists fields p,
    json_loads (PyLib := sample_lib) (strip line_blue) = Decoded (JObj fields)
    /\ (dict_get fields "status" = JInt 200
        \/ exists q : Q, dict_get fields "status" = JFloat (FFin q) /\ (q == 200)%Q)
    /\ dict_get fields "pool" = JStr p
    /\ strip p <> ""
    /\ current_pool (self (final (process_line (lib := sample_lib) (world := calm_world)
                                    line_blue (boot sample_watcher))))
       = Some (lower (strip p)).
Proof.
  apply (tracked_pool_changes_only_on_200_with_pool (lib := sample_lib)
           (world := calm_world) line_blue (boot sample_watcher)).
  vm_compute. discriminate.
Defined.

(** C5, counterexample.  The line [{"status": 200.0, "pool": "green"}]
    has a status that is not the integer 200 but the float 200.0, and
    the tracked pool changes all the same: from none to green. *)
Lemma float_status_changes_pool :
  let m := boot sample_watcher in
  let m' := final (process_line (lib := wider_lib) (world := calm_world)
                     line_float_status m) in
  json_loads (PyLib := wider_lib) (strip line_float_status)
  = Decoded (JObj [("status", JFloat (FFin 200)); ("pool", JStr "green")])
  /\ current_pool (self m) = None
  /\ current_pool (self m') = Some "green".
Proof. repeat split; vm_compute; reflexivity. Qed.

(** C6 on a return to the primary pool. *)
Lemma pool_transition_witness :
  exists m' new,
    _check_failover (lib := sample_lib) (world := calm_world) entry_blue (boot busy_watcher)
    = Ret () m'
    /\ trace m' = new
    /\ current_pool (self m') = Some "blue"
    /\ notify_events new
       = [("recovery",
           "Traffic recovered to primary pool 'blue' (was 'green'). Release unknown now serving.")].
Proof.
  destruct (pool_transition_events (lib := sample_lib) (world := calm_world)
              [("status", JInt 200); ("pool", JStr "Blue")] "Blue" (boot busy_watcher))
    as (m' & new & Hrun & Htr & Hpool & _ & Hrecovery & _ & _).
  - reflexivity.
  - reflexivity.
  - vm_compute. discriminate.
  - vm_compute. discriminate.
  - exists m', new. split; [exact Hrun|]. split; [exact Htr|]. split; [exact Hpool|].
    apply (Hrecovery "green"); [reflexivity|]. split; [discriminate|reflexivity].
Defined.

(** C8 with the maintenance file present. *)
Lemma maintenance_gate_witness :
  exists m' gate,
    _notify (world := maintenance_world) "failover" "moved" (boot sample_watcher) = Ret () m'
    /\ trace m' = EvNotify "failover" "moved" :: gate
    /\ post_events gate = []
    /\ gate = [EvExists "/run/maintenance" true;
               EvLog "Maintenance mode active; suppressing failover alert: moved"]
    /\ self m' = sample_watcher.
Proof.
  destruct (notify_maintenance_gate (world := maintenance_world) "failover" "moved"
              (boot sample_watcher)) as (m' & gate & Hrun & Htr & Hquiet & Hfresh).
  - discriminate.
  - destruct Hfresh as (rest & Hgate & Hpresent & _).
    + apply not_cooling_without_record. reflexivity.
    + destruct (Hpresent eq_refl) as [Hrest Hself].
      exists m', gate. split; [exact Hrun|]. split; [exact Htr|].
      split; [exact (Hquiet eq_refl)|]. split; [|exact Hself].
      rewrite Hgate, Hrest. reflexivity.
Defined.

(** C9 on an object built with a window of two. *)
Lemma window_size_witness :
  deque_len
    (deque_append
       (window (self (final (process_lines (lib := sample_lib) (world := calm_world)
                               [line_bad_gateway; line_bad_gateway; "5"]
                               (boot sample_watcher)))))
       (observation true))
  = Z.to_nat 2.
Proof.
  destruct (rate_division_and_window_size (lib := sample_lib) (world := calm_world)
              "https://hooks.example/alert" "/var/log/nginx/app_access.log" 2
              (FFin (1 # 2)) 300 (Some " Blue ") (Some "/run/maintenance ")
              sample_watcher eq_refl) as [Hpositive _].
  destruct (Hpositive ltac:(lia) [line_bad_gateway; line_bad_gateway; "5"]) as [_ Hguard].
  destruct (Hguard true) as [_ Hfull]. apply Hfull. vm_compute. discriminate.
Defined.

(** C10 with a webhook that times out. *)
Lemma flag_set_witness :
  let m := boot (with_window {| items := [1%Z]; maxlen := 2 |} sample_watcher) in
  exists m1 gate message m',
    _record_error (lib := sample_lib) (world := failing_world) error_entry m = Ret () m1
    /\ trace m1 = (trace m ++ EvNotify "error_rate" message :: gate)%list
    /\ notify_events gate = []
    /\ (length (post_events gate) <= 1)%nat
    /\ error_alert_active (self m1) = true
    /\ record_all (lib := sample_lib) (world := failing_world) [error_entry; fine_entry] m1
       = Ret () m'
    /\ trace m' = trace m1
    /\ error_alert_active (self m') = true.
Proof.
  apply (alert_flag_set_whatever_the_gate_does (lib := sample_lib) (world := failing_world)
           (boot (with_window {| items := [1%Z]; maxlen := 2 |} sample_watcher))
           error_entry [error_entry; fine_entry] 2).
  - reflexivity.
  - vm_compute. reflexivity.
Defined.

(** The rate is the double nearest to the quotient, as in the program:
    4 errors in 200 reach a threshold of 0.02, which as a double lies
    just above 1/50, and 23 errors in 160 read 14.37 percent. *)
Example rate_is_a_double :
  level_of (FFin (5764607523034235 # 288230376151711744))
    {| items := (repeat 1%Z 4 ++ repeat 0%Z 196)%list; maxlen := 200 |} = High
  /\ rbind (truediv 23 160) (fun rate => Ok (format_2f (float_scale rate 100)))
     = Ok "14.37".
Proof. split; vm_compute; reflexivity. Qed.

Example failed_send_raises_flag :
  let m := boot (with_window {| items := [1%Z]; maxlen := 2 |} sample_watcher) in
  let m1 := final (_record_error (lib := sample_lib) (world := failing_world) error_entry m) in
  post_events (trace m1) = [RequestException "timed out"]
  /\ error_alert_active (self m1) = true
  /\ cooldowns (self m1) = ∅.
Proof. repeat split; reflexivity. Qed.

Example two_crossings_two_events :
  let m := boot sample_watcher in
  let run := [error_entry; error_entry; fine_entry; fine_entry; fine_entry; error_entry] in
  levels (lib := sample_lib) (error_threshold (self m)) (window (self m)) run
  = Some [Filling; High; High; Low; Low; High]
  /\ map fst (notify_events
                (trace (final (record_all (lib := sample_lib) (world := calm_world) run m))))
     = ["error_rate"; "error_rate"].
Proof. split; vm_compute; reflexivity. Qed.

(** C4 on a window one error short of full. *)
Lemma edge_trigger_witness :
  let m := boot (with_window {| items := [1%Z]; maxlen := 2 |} sample_watcher) in
  exists m' new message,
    _record_error (lib := sample_lib) (world := calm_world) error_entry m = Ret () m'
    /\ trace m' = (trace m ++ new)%list
    /\ notify_events new = [("error_rate", message)]
    /\ error_alert_active (self m') = true.
Proof.
  pose proof (error_rate_alert_is_edge_triggered (lib := sample_lib) (world := calm_world)
                (boot (with_window {| items := [1%Z]; maxlen := 2 |} sample_watcher)))
    as Hedge.
  cbv zeta in Hedge. destruct Hedge as [Hcross _].
  apply Hcross; [reflexivity | vm_compute; reflexivity].
Defined.

Example cooldown_suppresses_silently :
  trace (final (_notify (world := calm_world) "error_rate" "high" (boot busy_watcher)))
  = [EvNotify "error_rate" "high"]
  /\ trace (final (_notify (world := calm_world) "failover" "moved" (boot busy_watcher)))
     = [EvNotify "failover" "moved";
        EvExists "/run/maintenance" false;
        EvPost "https://hooks.example/alert" ":rotating_light: moved" (Response 200 "ok");
        EvLog "Sent failover alert: moved"].
Proof. split; reflexivity. Qed.

Example zero_window_divides_by_zero :
  exists w,
    __init__ "https://hooks.example/alert" "/var/log/nginx/app_access.log" 0
      (FFin (1 # 2)) 300 None None = Ok w
    /\ process_line (lib := sample_lib) (world := calm_world) line_blue (boot w)
       = Raise ZeroDivisionError (boot w).
Proof. eexists. split; reflexivity. Qed.

Example negative_window_refused :
  __init__ "https://hooks.example/alert" "/var/log/nginx/app_access.log" (-1)
    (FFin (1 # 2)) 300 None None = Err ValueError.
Proof. reflexivity. Qed.

(** ** Integer codes: the round trip through [str] and [int] *)

Lemma uint_value_acc (d : Decimal.uint) : forall a : positive,
  uint_value (Npos a) d = Npos (Pos.of_uint_acc d a).
Proof.
  induction d; intros a; cbn [uint_value Pos.of_uint_acc]; try reflexivity;
    match goal with
    | |- uint_value ?x _ = _ =>
        match goal with
        | |- _ = Npos (Pos.of_uint_acc _ ?p) =>
            replace x with (Npos p) by lia; apply IHd
        end
    end.
Qed.

Lemma uint_value_of_uint (d : Decimal.uint) : uint_value 0 d = Pos.of_uint d.
Proof.
  induction d; cbn [uint_value Pos.of_uint]; try reflexivity;
    try (change (10 * 0)%N with 0%N; exact IHd);
    match goal with
    | |- uint_value ?x _ = Npos (Pos.of_uint_acc _ ?p) =>
        change x with (Npos p); apply uint_value_acc
    end.
Qed.

Lemma digits_value_uint (d : Decimal.uint) : forall (acc : N) (b : bool),
  d <> Decimal.Nil \/ b = true ->
  digits_value (Z.of_N acc) b (NilEmpty.string_of_uint d) = Some (Z.of_N (uint_value acc d)).
Proof.
  induction d; intros acc b Hne;
    cbn [NilEmpty.string_of_uint digits_value uint_value];
    try (destruct Hne as [Hne| ->]; [congruence|reflexivity]);
    match goal with
    | |- context [digit_value ?c] =>
        let v := eval vm_compute in (digit_value c) in
        change (digit_value c) with v; cbv iota beta
    end;
    match goal with
    | |- digits_value ?z true _ = Some (Z.of_N (uint_value ?n _)) =>
        replace z with (Z.of_N n) by lia; apply IHd; right; reflexivity
    end.
Qed.

Lemma digits_of_to_uint (p : positive) :
  digits_value 0 false (NilEmpty.string_of_uint (Pos.to_uint p)) = Some (Zpos p).
Proof.
  change 0%Z with (Z.of_N 0).
  rewrite (digits_value_uint (Pos.to_uint p) 0 false).
  - rewrite uint_value_of_uint, Unsigned.of_to. reflexivity.
  - left. apply Unsigned.to_uint_nonnil.
Qed.

Lemma all_digits_uint (d : Decimal.uint) : all_digits (NilEmpty.string_of_uint d) = true.
Proof. induction d; cbn [NilEmpty.string_of_uint all_digits]; try reflexivity; exact IHd. Qed.

Lemma string_of_to_uint (p : positive) :
  NilZero.string_of_uint (Pos.to_uint p) = NilEmpty.string_of_uint (Pos.to_uint p).
Proof.
  pose proof (Unsigned.to_uint_nonnil p) as Hne.
  destruct (Pos.to_uint p); [congruence|reflexivity..].
Qed.

(** [str(n)] is a sign and digits: ["-"] followed by digits, or digits. *)
Lemma str_of_Z_shape (n : Z) :
  exists digits, all_digits digits = true /\ digits <> ""
    /\ digits_value 0 false digits = Some (Z.abs n)
    /\ str_of_Z n = if (n <? 0)%Z then String "-" digits else digits.
Proof.
  unfold str_of_Z. destruct n as [|p|p]; cbn [Z.to_int NilZero.string_of_int Z.ltb Z.compare Z.abs].
  - exists "0". repeat split; try reflexivity. discriminate.
  - rewrite string_of_to_uint. eexists. split; [apply all_digits_uint|].
    split; [|split; [apply digits_of_to_uint|reflexivity]].
    pose proof (Unsigned.to_uint_nonnil p) as Hne.
    destruct (Pos.to_uint p); cbn; congruence.
  - rewrite string_of_to_uint. eexists. split; [apply all_digits_uint|].
    split; [|split; [apply digits_of_to_uint|reflexivity]].
    pose proof (Unsigned.to_uint_nonnil p) as Hne.
    destruct (Pos.to_uint p); cbn; congruence.
Qed.

Lemma digit_plain (c : ascii) : between 48 57 (code c) = true -> plain_char c = true.
Proof. destruct c as [[] [] [] [] [] [] [] []]; vm_compute; congruence. Qed.

Lemma all_digits_plain (s : string) : all_digits s = true -> plain s = true.
Proof.
  induction s as [|c s IH]; [reflexivity|]. cbn [all_digits plain].
  intros [Hc Hs]%andb_true_iff. rewrite (digit_plain c Hc), (IH Hs). reflexivity.
Qed.

Lemma plain_strip (s : string) : plain s = true -> strip s = s.
Proof.
  intros Hs. unfold strip.
  assert (Hl : lstrip s = s).
  { destruct s as [|c s']; [reflexivity|]. cbn [plain] in Hs. cbn [lstrip].
    apply andb_true_iff in Hs as [Hc _]. unfold plain_char in Hc.
    destruct (is_space c); [discriminate|reflexivity]. }
  rewrite Hl. clear Hl. induction s as [|c s IH]; [reflexivity|].
  cbn [plain] in Hs. apply andb_true_iff in Hs as [Hc Hs]. cbn [rstrip].
  rewrite (IH Hs). destruct s; [|reflexivity].
  unfold plain_char in Hc. destruct (is_space c); [discriminate|reflexivity].
Qed.

Lemma plain_int_strip (s : string) : plain s = true -> int_rstrip (int_lstrip s) = s.
Proof.
  intros Hs.
  assert (Hl : int_lstrip s = s).
  { destruct s as [|c s']; [reflexivity|]. cbn [plain] in Hs. cbn [int_lstrip].
    apply andb_true_iff in Hs as [Hc _]. unfold plain_char in Hc.
    destruct (is_space c), (is_int_space c); try discriminate; reflexivity. }
  rewrite Hl. clear Hl. induction s as [|c s IH]; [reflexivity|].
  cbn [plain] in Hs. apply andb_true_iff in Hs as [Hc Hs]. cbn [int_rstrip].
  rewrite (IH Hs). destruct s; [|reflexivity].
  unfold plain_char in Hc. destruct (is_space c), (is_int_space c); try discriminate; reflexivity.
Qed.

Lemma plain_split (s : string) : plain s = true -> split_comma s = [s].
Proof.
  induction s as [|c s IH]; [reflexivity|]. cbn [plain split_comma].
  intros [Hc Hs]%andb_true_iff. rewrite (IH Hs).
  unfold plain_char in Hc. destruct (Ascii.eqb c ","); [|reflexivity].
  rewrite !andb_false_r in Hc. discriminate.
Qed.

Lemma int_of_str_digits (s : string) :
  all_digits s = true -> (max_str_digits <? count_digits s)%N = false ->
  int_of_str s = digits_value 0 false s.
Proof.
  intros Hs Hlimit. unfold int_of_str. cbv zeta.
  rewrite (plain_int_strip s (all_digits_plain s Hs)), Hlimit.
  destruct s as [|c r]; [reflexivity|].
  cbn [all_digits] in Hs. apply andb_true_iff in Hs as [Hc _]. clear Hlimit.
  destruct c as [[] [] [] [] [] [] [] []]; vm_compute in Hc; try discriminate Hc;
    reflexivity.
Qed.

Lemma count_digits_minus (s : string) : count_digits (String "-" s) = count_digits s.
Proof. reflexivity. Qed.

Lemma int_of_str_minus (s : string) :
  all_digits s = true -> (max_str_digits <? count_digits s)%N = false ->
  int_of_str (String "-" s) = Z.opp <$> digits_value 0 false s.
Proof.
  intros Hs Hlimit. unfold int_of_str. cbv zeta.
  rewrite (plain_int_strip (String "-" s)); [rewrite count_digits_minus, Hlimit; reflexivity|].
  cbn [plain]. rewrite (all_digits_plain s Hs). reflexivity.
Qed.

Lemma str_of_Z_plain (n : Z) : plain (str_of_Z n) = true.
Proof.
  destruct (str_of_Z_shape n) as (digits & Hd & _ & _ & ->).
  destruct (n <? 0)%Z; cbn [plain]; rewrite (all_digits_plain _ Hd); reflexivity.
Qed.

Lemma str_of_Z_nonempty (n : Z) : is_empty (str_of_Z n) = false.
Proof.
  destruct (str_of_Z_shape n) as (digits & _ & Hne & _ & ->).
  destruct (n <? 0)%Z; [reflexivity|]. destruct digits; [congruence|reflexivity].
Qed.

Lemma str_of_int_text (n : Z) (text : string) :
  str_of_int n = Some text ->
  text = str_of_Z n /\ (max_str_digits <? count_digits text)%N = false.
Proof.
  unfold str_of_int. cbv zeta.
  destruct (max_str_digits <? count_digits (str_of_Z n))%N eqn:Hlimit; [discriminate|].
  intros [= <-]. auto.
Qed.

(** [int(str(n)) == n], where [str(n)] returns. *)
Lemma int_of_str_of_int (n : Z) (text : string) :
  str_of_int n = Some text -> int_of_str text = Some n.
Proof.
  intros Htext. destruct (str_of_int_text n text Htext) as [-> Hlimit]. revert Hlimit.
  destruct (str_of_Z_shape n) as (digits & Hd & _ & Hvalue & ->).
  destruct (n <? 0)%Z eqn:Hneg.
  - rewrite count_digits_minus. intros Hlimit.
    rewrite (int_of_str_minus _ Hd Hlimit), Hvalue. cbn. f_equal. apply Z.ltb_lt in Hneg. lia.
  - intros Hlimit.
    rewrite (int_of_str_digits _ Hd Hlimit), Hvalue. f_equal. apply Z.ltb_ge in Hneg. lia.
Qed.

Section Codes.
Context {lib : PyLib}.

Lemma first_status_of_code (n : Z) (text : string) (v : json) :
  str_of_int n = Some text ->
  v = JInt n \/ v = JStr text -> _first_status v = Some n.
Proof.
  intros Htext Hv. pose proof (int_of_str_of_int n text Htext) as Hint.
  destruct (str_of_int_text n text Htext) as [Hnumeral _].
  assert (Hstr : py_str v = text)
    by (destruct Hv as [-> | ->]; [exact (eq_sym Hnumeral) | reflexivity]).
  assert (Hfirst : _first_status v = _first_status_loop (split_comma (py_str v)))
    by (destruct Hv as [-> | ->]; reflexivity).
  rewrite Hfirst, Hstr, Hnumeral.
  rewrite (plain_split _ (str_of_Z_plain n)). cbn [_first_status_loop].
  rewrite (plain_strip _ (str_of_Z_plain n)), str_of_Z_nonempty, <- Hnumeral, Hint.
  reflexivity.
Qed.

(** X1.  An integer code within the digit limit of [str] (4300 digits)
    classifies the same whether the log writes it as a number or as the
    text [str] gives for it, in [upstream_status] or, with
    [upstream_status] absent or null, in [status]: the entry is an error
    exactly when the code is at least 500. *)
Theorem numeric_code_round_trip
    (fields : list (string * json)) (n : Z) (text : string) (v : json) :
  str_of_int n = Some text ->
  v = JInt n \/ v = JStr text ->
  (dict_get fields "upstream_status" = v -> _is_error (JObj fields) = Ok (500 <=? n)%Z)
  /\ (dict_get fields "upstream_status" = JNull ->
      dict_get fields "status" = v -> _is_error (JObj fields) = Ok (500 <=? n)%Z).
Proof.
  intros Htext Hv. split.
  - intros Hup. unfold _is_error, rbind. cbn [py_get].
    rewrite Hup, (first_status_of_code n text v Htext Hv). reflexivity.
  - intros Hup Hst. unfold _is_error, rbind. cbn [py_get].
    rewrite Hup, Hst. cbn [_first_status].
    destruct Hv as [-> | ->]; cbn [is_none py_int]; [reflexivity|].
    rewrite (int_of_str_of_int n text Htext). reflexivity.
Qed.
End Codes.

(** ** One line, in terms of the detector *)

Section Summary.
Context {lib : PyLib} {world : World}.

Lemma alerts_of_app (t : string) (a b : list event) :
  alerts_of t (a ++ b) = (alerts_of t a ++ alerts_of t b)%list.
Proof.
  induction a as [|e a IH]; [reflexivity|].
  destruct e; cbn [app alerts_of]; try exact IH.
  destruct (String.eqb _ _); cbn [app]; rewrite IH; reflexivity.
Qed.

Lemma alerts_of_quiet (t : string) (l : list event) :
  notify_events l = [] -> alerts_of t l = [].
Proof.
  induction l as [|e l IH]; [reflexivity|]. destruct e; cbn; auto. discriminate.
Qed.

(** What one call of [_notify] adds: its alert event, then a gate part
    without alert events and with at most one webhook call. *)
Lemma notify_adds (alert_type message : string) (m : machine) :
  exists m' gate,
    _notify alert_type message m = Ret () m'
    /\ trace m' = (trace m ++ EvNotify alert_type message :: gate)%list
    /\ notify_events gate = []
    /\ (length (post_events gate) <= 1)%nat
    /\ (tick m <= tick m')%nat
    /\ self m' = with_cooldowns (cooldowns (self m')) (self m).
Proof.
  unfold _notify, _in_cooldown, _maintenance_active. unmonad.
  destruct m as [w k tr]. cbn [self tick trace].
  split_all;
    (eexists _, _; split; [reflexivity|]; split; [trace_eq|];
     cbn; repeat split; try lia; try apply with_cooldowns_same; try reflexivity).
Qed.

Lemma check_failover_adds (entry : json) (m : machine) :
  let m' := final (_check_failover entry m) in
  exists new,
    trace m' = (trace m ++ new)%list
    /\ (tick m <= tick m')%nat
    /\ alerts_of "error_rate" new = []
    /\ (length (notify_events new) <= 1)%nat
    /\ (length (post_events new) <= length (notify_events new))%nat.
Proof.
  cbn zeta. unfold _check_failover. unmonad.
  assert (Hquiet : exists new, trace m = (trace m ++ new)%list /\ (tick m <= tick m)%nat
            /\ alerts_of "error_rate" new = [] /\ (length (notify_events new) <= 1)%nat
            /\ (length (post_events new) <= length (notify_events new))%nat).
  { exists []. rewrite app_nil_r. cbn. repeat split; lia. }
  destruct (py_get entry "status"); cbn [final]; [|exact Hquiet].
  destruct (py_get entry "pool"); cbn [final]; [|exact Hquiet].
  destruct (py_strip _); cbn [final]; [|exact Hquiet].
  destruct (py_get entry "release"); cbn [final]; [|exact Hquiet].
  destruct (_ || _); cbn [final self tick trace]; [exact Hquiet|].
  destruct (bool_decide _); cbn [final self tick trace]; [exact Hquiet|].
  destruct (current_pool (self m)) as [previous|]; cbn [final self tick trace].
  - destruct (_ && _);
      match goal with
      | |- context [_notify ?t ?msg ?m0] =>
          destruct (notify_adds t msg m0) as (m' & gate & Hrun & Htr & Hn & Hp & Htick & _);
          rewrite Hrun; cbn [final self tick trace] in *;
          exists (EvNotify t msg :: gate); split; [exact Htr|]; split; [exact Htick|];
          cbn [alerts_of notify_events post_events String.eqb Ascii.eqb Bool.eqb length];
          rewrite Hn; cbn; split; [apply alerts_of_quiet, Hn|]; split; lia
      end.
  - eexists. split; [reflexivity|]. cbn. repeat split; lia.
Qed.

(** One call of [_record_error] on an entry that classifies, in terms of
    the detector: the window gets the observation, the flag follows the
    level, and [_notify] is entered exactly on a rising edge. *)
Lemma record_error_adds (entry : json) (b : bool) (m : machine) :
  _is_error entry = Ok b ->
  let m' := final (_record_error entry m) in
  let threshold := error_threshold (self m) in
  let d := deque_append (window (self m)) (observation b) in
  exists new,
    trace m' = (trace m ++ new)%list
    /\ detector (self m') = detector_step threshold (detector (self m)) b
    /\ self m' = with_error_alert_active (error_alert_active (self m'))
                   (with_cooldowns (cooldowns (self m')) (with_window d (self m)))
    /\ notify_events new
       = map (fun message => ("error_rate", message)) (alerts_of "error_rate" new)
    /\ length (alerts_of "error_rate" new)
       = edges (error_alert_active (self m)) [level_of threshold d]
    /\ (length (post_events new) <= length (notify_events new))%nat
    /\ (returning (level_of threshold d) -> _record_error entry m = Ret () m').
Proof.
  intros Hb. cbn zeta. unfold detector, detector_step. cbn [fst snd].
  assert (Hid : forall w, w = with_error_alert_active (error_alert_active w)
                                (with_cooldowns (cooldowns w) w))
    by (intros []; reflexivity).
  pose proof (record_error_step entry b m Hb) as Hstep. cbn zeta in Hstep.
  destruct (level_of _ _) eqn:Hlevel; cbn [active_after edges].
  - rewrite Hstep. cbn [final with_self self tick trace].
    exists []. rewrite app_nil_r.
    cbn [with_window window error_alert_active cooldowns alerts_of notify_events
           post_events map length].
    repeat split; try lia; try (intros _; reflexivity);
      try apply (Hid (with_window _ (self m))).
  - rewrite Hstep. cbn [final with_self self tick trace].
    exists []. rewrite app_nil_r.
    cbn [with_window with_error_alert_active window error_alert_active cooldowns
           alerts_of notify_events post_events map length].
    repeat split; try lia; try (intros _; reflexivity).
  - destruct (error_alert_active (self m)) eqn:Hactive.
    + rewrite Hstep. cbn [final with_self self tick trace].
      exists []. rewrite app_nil_r.
      cbn [with_window window error_alert_active cooldowns alerts_of notify_events
             post_events map length].
      rewrite Hactive.
      repeat split; try lia; try (intros _; reflexivity);
        try (rewrite <- Hactive; apply (Hid (with_window _ (self m)))).
    + destruct Hstep as (m' & gate & message & Hrun & Htr & Hn & Hp & Hself).
      rewrite Hrun. cbn [final].
      exists (EvNotify "error_rate" message :: gate).
      split; [exact Htr|].
      rewrite Hself.
      cbn [with_error_alert_active with_cooldowns with_window window
             error_alert_active cooldowns].
      split; [reflexivity|]. split; [reflexivity|].
      cbn [alerts_of notify_events post_events String.eqb Ascii.eqb Bool.eqb length map].
      rewrite Hn, (alerts_of_quiet _ _ Hn).
      cbn [map length Nat.add]. repeat split; try lia.
  - rewrite Hstep. cbn [final with_self self tick trace].
    exists []. rewrite app_nil_r.
    cbn [with_window window error_alert_active cooldowns alerts_of notify_events
           post_events map length].
    repeat split; try lia; try (intros [H _]; exfalso; apply H; reflexivity);
      try apply (Hid (with_window _ (self m))).
  - rewrite Hstep. cbn [final with_self self tick trace].
    exists []. rewrite app_nil_r.
    cbn [with_window window error_alert_active cooldowns alerts_of notify_events
           post_events map length].
    repeat split; try lia; try (intros [_ H]; exfalso; apply H; reflexivity);
      try apply (Hid (with_window _ (self m))).
Qed.

(** One call of [process_line], returned or raised, in terms of the
    detector and of what it adds to the trace. *)
Lemma process_line_adds (line : string) (m : machine) :
  let m' := final (process_line line m) in
  let threshold := error_threshold (self m) in
  exists new,
    trace m' = (trace m ++ new)%list
    /\ config (self m') = config (self m)
    /\ detector (self m')
       = match line_observation line with
         | Some b => detector_step threshold (detector (self m)) b
         | None => detector (self m)
         end
    /\ length (alerts_of "error_rate" new)
       = match line_observation line with
         | Some b =>
             edges (error_alert_active (self m))
               [level_of threshold (deque_append (window (self m)) (observation b))]
         | None => 0%nat
         end
    /\ (length (notify_events new) <= 2)%nat
    /\ (length (post_events new) <= length (notify_events new))%nat.
Proof.
  cbn zeta. unfold process_line, _parse_entry, line_observation. unmonad.
  destruct (is_empty (strip line)).
  { exists []. rewrite app_nil_r. cbn. repeat split; lia. }
  destruct (json_loads (strip line)) as [entry| | |].
  2:{ eexists. cbn [final trace self]. split; [reflexivity|]. cbn. repeat split; lia. }
  2,3: (exists []; rewrite app_nil_r; cbn; repeat split; lia).
  destruct (truthy entry); cbn [negb].
  2:{ exists []. rewrite app_nil_r. cbn. repeat split; lia. }
  destruct (_is_error entry) as [b|e] eqn:Hb.
  2:{ rewrite (record_error_fault entry e m Hb).
      exists []. rewrite app_nil_r. cbn. repeat split; lia. }
  destruct (record_error_adds entry b m Hb)
    as (new1 & Htr1 & Hdet1 & Hself1 & Hn1 & Hedges1 & Hp1 & _).
  assert (Hlen1 : (length (notify_events new1) <= 1)%nat).
  { rewrite Hn1, length_map, Hedges1. cbn.
    destruct (level_of _ _), (error_alert_active (self m)); cbn; lia. }
  destruct (_record_error entry m) as [[] m1|e m1]; cbn [final] in *.
  - destruct (check_failover_frame entry m1) as (c & p & Hself2).
    destruct (check_failover_adds entry m1) as (new2 & Htr2 & _ & Hquiet2 & Hlen2 & Hp2).
    cbn zeta in *.
    exists (new1 ++ new2)%list.
    split; [rewrite Htr2, Htr1, app_assoc; reflexivity|].
    rewrite Hself2. split; [rewrite Hself1; reflexivity|].
    split; [exact Hdet1|].
    rewrite alerts_of_app, notify_events_app, post_events_app, !length_app, Hquiet2.
    cbn [length]. repeat split; lia.
  - exists new1. split; [exact Htr1|]. split; [rewrite Hself1; reflexivity|].
    split; [exact Hdet1|]. repeat split; lia.
Qed.
End Summary.

(** ** Invariants of a run *)

Section Invariants.
Context {lib : PyLib} {world : World}.

Lemma process_lines_invariant (P : machine -> Prop) :
  (forall line m, P m -> P (final (process_line line m))) ->
  forall lines m, P m -> P (final (process_lines lines m)).
Proof.
  intros Hstep lines. induction lines as [|line rest IH]; intros m Hm; [exact Hm|].
  cbn [process_lines]. unfold mbind, M_bind.
  pose proof (Hstep line m Hm) as H1.
  destruct (process_line line m) as [[] m1|e m1]; cbn [final] in *; auto.
Qed.

Lemma healthy_step (n : nat) (threshold : pyfloat) (d : deque) (a b : bool) :
  maxlen d = n -> (deque_len d <= n)%nat -> binary d -> (a = true -> deque_len d = n) ->
  let s := detector_step threshold (d, a) b in
  maxlen (fst s) = n /\ (deque_len (fst s) <= n)%nat /\ binary (fst s)
  /\ (snd s = true -> deque_len (fst s) = n).
Proof.
  intros Hmax Hlen Hbin Hfull. cbn zeta. unfold detector_step. cbn [fst snd].
  set (d' := deque_append d (observation b)).
  assert (Hlen' : (deque_len d' <= n)%nat).
  { rewrite <- Hmax. apply (deque_append_bounded d). lia. }
  split; [exact Hmax|]. split; [exact Hlen'|]. split; [apply binary_append, Hbin|].
  assert (Hgrow : (deque_len d <= deque_len d')%nat).
  { unfold d'. rewrite deque_append_len. destruct (_ <? _)%nat; lia. }
  unfold level_of. change (maxlen d') with (maxlen d). rewrite Hmax.
  destruct (deque_len d' <? n)%nat eqn:Hroom.
  - cbn [active_after]. intros Ha. specialize (Hfull Ha). apply Nat.ltb_lt in Hroom. lia.
  - apply Nat.ltb_ge in Hroom. intros _. lia.
Qed.

Lemma process_line_healthy (n : nat) (line : string) (m : machine) :
  healthy n m -> healthy n (final (process_line line m)).
Proof.
  intros ([Hmax Hlen] & Hbin & Hfull).
  destruct (process_line_adds line m) as (new & _ & _ & Hdet & _). cbn zeta in Hdet.
  unfold healthy, bounded. unfold detector in Hdet.
  destruct (line_observation line) as [b|].
  - pose proof (healthy_step n (error_threshold (self m)) (window (self m))
                  (error_alert_active (self m)) b Hmax Hlen Hbin Hfull) as Hnext.
    cbn zeta in Hnext. rewrite <- Hdet in Hnext. cbn [fst snd] in Hnext. tauto.
  - injection Hdet as -> ->. tauto.
Qed.

Lemma init_healthy (url path : string) (window_size : Z) (threshold : pyfloat)
    (cooldown : Z) (primary flag : option string) (w : AlertWatcher) :
  __init__ url path window_size threshold cooldown primary flag = Ok w ->
  healthy (Z.to_nat window_size) (boot w)
  /\ config w = (url, path, Z.to_nat window_size, threshold, cooldown,
                 lower (strip (default "" primary)), strip (default "" flag)).
Proof.
  intros Hinit. unfold __init__, deque_new, rbind in Hinit.
  destruct ((window_size <? - 2 ^ 63)%Z || (2 ^ 63 <=? window_size)%Z); [discriminate|].
  destruct (window_size <? 0)%Z; [discriminate|]. injection Hinit as <-.
  split; [|reflexivity]. repeat split; cbn; try lia; try constructor; try discriminate.
Qed.


(** X2.  No run of [process_line] assigns the fields set from the
    arguments of [__init__]: the webhook, the log path, the window bound,
    the threshold, the cooldown, the primary pool and the maintenance
    flag are the same after any lines, returned or raised. *)
Theorem configuration_never_changes (lines : list string) (m : machine) :
  config (self (final (process_lines lines m))) = config (self m).
Proof.
  apply (process_lines_invariant (fun m' => config (self m') = config (self m)));
    [|reflexivity].
  intros line m1 Hm1. destruct (process_line_adds line m1) as (new & _ & Hconfig & _).
  cbn zeta in Hconfig. congruence.
Qed.

Lemma process_lines_healthy (n : nat) (lines : list string) (m : machine) :
  healthy n m -> healthy n (final (process_lines lines m)).
Proof.
  apply (process_lines_invariant (healthy n)). intros line m1. apply process_line_healthy.
Qed.

(** X3.  From the object [__init__] builds, after any lines: the window
    keeps its bound, never holds more than the bound, holds zeros and
    ones only, and its sum lies between zero and its length. *)
Theorem window_stays_bounded_and_binary
    (url path : string) (window_size : Z) (threshold : pyfloat) (cooldown : Z)
    (primary flag : option string) (w : AlertWatcher) (lines : list string) :
  __init__ url path window_size threshold cooldown primary flag = Ok w ->
  let d := window (self (final (process_lines lines (boot w)))) in
  maxlen d = Z.to_nat window_size
  /\ (deque_len d <= Z.to_nat window_size)%nat
  /\ Forall (fun x => x = 0%Z \/ x = 1%Z) (items d)
  /\ (0 <= deque_sum d <= Z.of_nat (deque_len d))%Z.
Proof.
  intros Hinit d. destruct (init_healthy _ _ _ _ _ _ _ _ Hinit) as [Hboot _].
  destruct (process_lines_healthy _ lines _ Hboot) as ([Hmax Hlen] & Hbin & _).
  fold d in Hmax, Hlen, Hbin. repeat split; try assumption; apply binary_sum, Hbin.
Qed.

(** X4.  From the object [__init__] builds, after any lines: whenever
    [error_alert_active] is up the window is full. *)
Theorem flag_up_only_on_full_window
    (url path : string) (window_size : Z) (threshold : pyfloat) (cooldown : Z)
    (primary flag : option string) (w : AlertWatcher) (lines : list string) :
  __init__ url path window_size threshold cooldown primary flag = Ok w ->
  let m := final (process_lines lines (boot w)) in
  error_alert_active (self m) = true ->
  deque_len (window (self m)) = maxlen (window (self m)).
Proof.
  intros Hinit m Hup. destruct (init_healthy _ _ _ _ _ _ _ _ Hinit) as [Hboot _].
  destruct (process_lines_healthy _ lines _ Hboot) as ([Hmax _] & _ & Hfull).
  fold m in Hmax, Hfull. rewrite Hmax. exact (Hfull Hup).
Qed.

(** *** The window as a queue *)

Lemma append_drops (d : deque) (x : Z) :
  (deque_len d <= maxlen d)%nat ->
  items (deque_append d x) = drop (S (deque_len d) - maxlen d) (items d ++ [x]).
Proof.
  intros Hle. rewrite deque_append_items.
  destruct (deque_len d <? maxlen d)%nat eqn:Hroom.
  - apply Nat.ltb_lt in Hroom. replace (S (deque_len d) - maxlen d)%nat with 0%nat by lia.
    reflexivity.
  - apply Nat.ltb_ge in Hroom. replace (S (deque_len d) - maxlen d)%nat with 1%nat by lia.
    destruct (items d ++ [x])%list; reflexivity.
Qed.

Lemma drop_then_more (n : nat) (l ys : list Z) :
  let kept := drop (length l - n) l in
  drop (length (kept ++ ys) - n) (kept ++ ys) = drop (length (l ++ ys) - n) (l ++ ys).
Proof.
  cbn zeta. rewrite <- (drop_app_le l ys (length l - n)) by lia.
  rewrite drop_drop. f_equal. rewrite length_drop, !length_app. lia.
Qed.

(** X5.  The window is a queue of the most recent observations: after a
    run that returns, it holds the last [maxlen] of what it held followed
    by the observations of the lines, in order; blank, undecodable and
    falsy lines contribute nothing. *)
Theorem window_holds_last_observations (lines : list string) : forall (m m' : machine),
  (deque_len (window (self m)) <= maxlen (window (self m)))%nat ->
  process_lines lines m = Ret () m' ->
  let n := maxlen (window (self m)) in
  let all := (items (window (self m)) ++ observations lines)%list in
  maxlen (window (self m')) = n
  /\ items (window (self m')) = drop (length all - n) all.
Proof.
  induction lines as [|line rest IH]; intros m m' Hle Hrun; cbn zeta.
  - injection Hrun as <-. split; [reflexivity|]. unfold observations. cbn.
    rewrite app_nil_r. replace (length _ - _)%nat with 0%nat; [reflexivity|].
    unfold deque_len in Hle. lia.
  - cbn [process_lines] in Hrun. unfold mbind, M_bind in Hrun.
    destruct (process_line_adds line m) as (new & _ & _ & Hdet & _). cbn zeta in Hdet.
    destruct (process_line line m) as [[] m1|e m1]; [|discriminate]. cbn [final] in Hdet.
    unfold detector in Hdet.
    assert (Hwin : window (self m1)
                   = match line_observation line with
                     | Some b => deque_append (window (self m)) (observation b)
                     | None => window (self m)
                     end).
    { destruct (line_observation line); unfold detector_step in Hdet; cbn [fst snd] in Hdet;
        congruence. }
    clear Hdet.
    assert (Hmax1 : maxlen (window (self m1)) = maxlen (window (self m)))
      by (rewrite Hwin; destruct (line_observation line); reflexivity).
    assert (Hle1 : (deque_len (window (self m1)) <= maxlen (window (self m1)))%nat).
    { rewrite Hwin. destruct (line_observation line); [|exact Hle].
      apply deque_append_bounded, Hle. }
    destruct (IH m1 m' Hle1 Hrun) as [Hmax' Hitems']. cbn zeta in Hitems'.
    split; [congruence|]. rewrite Hitems', Hmax1. unfold observations.
    cbn [omap list_omap]. rewrite Hwin.
    destruct (line_observation line) as [b|]; [|reflexivity].
    cbn [map]. rewrite (append_drops _ _ Hle).
    replace (S (deque_len (window (self m))) - maxlen (window (self m)))%nat
      with (length (items (window (self m)) ++ [observation b]) - maxlen (window (self m)))%nat
      by (rewrite length_app; unfold deque_len; cbn; lia).
    rewrite (drop_then_more (maxlen (window (self m)))
               (items (window (self m)) ++ [observation b])).
    rewrite <- !app_assoc. reflexivity.
Qed.

(** *** Cold start and thresholds at the edges *)

Lemma level_out_of_reach (threshold : pyfloat) (d : deque) :
  binary d -> out_of_reach threshold -> level_of threshold d <> High.
Proof.
  intros Hbin Hout. unfold level_of.
  destruct (deque_len d <? maxlen d)%nat; [discriminate|].
  destruct (deque_len d) as [|n] eqn:Hlen; [unfold truediv; cbn; discriminate|].
  destruct (rate_in_unit_interval d Hbin ltac:(lia)) as (rate & Hrate & _ & Hone).
  rewrite Hlen in Hrate. rewrite Hrate.
  destruct threshold as [|negative|t]; cbn [float_ge out_of_reach] in *.
  - discriminate.
  - subst negative. discriminate.
  - destruct (Qle_bool t rate) eqn:Hge; [|discriminate].
    apply Qle_bool_iff in Hge. exfalso.
    apply (Qlt_not_le _ _ Hout). exact (Qle_trans _ _ _ Hge Hone).
Qed.

Lemma level_always_reached (threshold : pyfloat) (d : deque) :
  binary d -> always_reached threshold -> level_of threshold d <> Low.
Proof.
  intros Hbin Hall. unfold level_of.
  destruct (deque_len d <? maxlen d)%nat; [discriminate|].
  destruct (deque_len d) as [|n] eqn:Hlen; [unfold truediv; cbn; discriminate|].
  destruct (rate_in_unit_interval d Hbin ltac:(lia)) as (rate & Hrate & Hzero & _).
  rewrite Hlen in Hrate. rewrite Hrate.
  destruct threshold as [|negative|t]; cbn [float_ge always_reached] in *.
  - contradiction.
  - subst negative. discriminate.
  - destruct (Qle_bool t rate) eqn:Hge; [discriminate|].
    exfalso. assert (Hle : Qle_bool t rate = true).
    { apply Qle_bool_iff. exact (Qle_trans _ _ _ Hall Hzero). }
    congruence.
Qed.

(** X6.  While the window is short of its bound no error-rate alert is
    raised and the flag keeps its value, whatever the lines say. *)
Theorem no_alert_before_window_fills (lines : list string) : forall (m : machine),
  (deque_len (window (self m)) + length (observations lines)
   < maxlen (window (self m)))%nat ->
  let m' := final (process_lines lines m) in
  exists new,
    trace m' = (trace m ++ new)%list
    /\ alerts_of "error_rate" new = []
    /\ error_alert_active (self m') = error_alert_active (self m).
Proof.
  induction lines as [|line rest IH]; intros m Hroom; cbn zeta.
  - exists []. rewrite app_nil_r. auto.
  - cbn [process_lines]. unfold mbind, M_bind.
    destruct (process_line_adds line m) as (new1 & Htr1 & _ & Hdet & Hedges & _).
    cbn zeta in Hdet, Hedges. unfold observations in Hroom. cbn [omap list_omap] in Hroom.
    assert (Hstep : alerts_of "error_rate" new1 = []
                    /\ error_alert_active (self (final (process_line line m)))
                       = error_alert_active (self m)
                    /\ (deque_len (window (self (final (process_line line m))))
                        + length (observations rest)
                        < maxlen (window (self (final (process_line line m)))))%nat).
    { unfold detector, detector_step in Hdet. cbn [fst snd] in Hdet.
      destruct (line_observation line) as [b|].
      - cbn [map length] in Hroom.
        assert (Hfill : level_of (error_threshold (self m))
                          (deque_append (window (self m)) (observation b)) = Filling).
        { unfold level_of. rewrite deque_append_len. cbn [maxlen deque_append].
          destruct (deque_len (window (self m)) <? maxlen (window (self m)))%nat eqn:H1;
            [|apply Nat.ltb_ge in H1; lia].
          destruct (S _ <? _)%nat eqn:H2; [reflexivity|]. apply Nat.ltb_ge in H2. lia. }
        rewrite Hfill in Hdet, Hedges. cbn [edges active_after] in Hdet, Hedges.
        injection Hdet as Hwin Hflag. rewrite Hwin, Hflag.
        split; [apply length_zero_iff_nil, Hedges|]. split; [reflexivity|].
        rewrite deque_append_len. cbn [maxlen deque_append]. unfold observations.
        destruct (_ <? _)%nat; lia.
      - injection Hdet as Hwin Hflag. rewrite Hwin, Hflag.
        split; [apply length_zero_iff_nil, Hedges|]. split; [reflexivity|exact Hroom]. }
    destruct Hstep as (Hquiet1 & Hflag1 & Hroom1).
    destruct (process_line line m) as [[] m1|e m1]; cbn [final] in *.
    + destruct (IH m1 Hroom1) as (new2 & Htr2 & Hquiet2 & Hflag2). cbn zeta in *.
      exists (new1 ++ new2)%list. rewrite Htr2, Htr1, app_assoc, alerts_of_app, Hquiet1, Hquiet2.
      repeat split. congruence.
    + exists new1. auto.
Qed.

(** X7.  With a threshold above 1, or infinite, or not a number, no
    run raises an error-rate alert. *)
Theorem threshold_out_of_reach_never_alerts (n : nat) (lines : list string) :
  forall (m : machine),
  healthy n m ->
  out_of_reach (error_threshold (self m)) ->
  exists new,
    trace (final (process_lines lines m)) = (trace m ++ new)%list
    /\ alerts_of "error_rate" new = [].
Proof.
  induction lines as [|line rest IH]; intros m Hm Hout.
  - exists []. rewrite app_nil_r. auto.
  - cbn [process_lines]. unfold mbind, M_bind.
    pose proof (process_line_healthy n line m Hm) as Hm1.
    destruct (process_line_adds line m) as (new1 & Htr1 & Hconfig & _ & Hedges & _).
    cbn zeta in Hedges.
    assert (Hquiet1 : alerts_of "error_rate" new1 = []).
    { apply length_zero_iff_nil. rewrite Hedges.
      destruct (line_observation line) as [b|]; [|reflexivity].
      destruct Hm as (_ & Hbin & _).
      pose proof (level_out_of_reach _ _ (binary_append _ b Hbin) Hout) as Hlevel.
      destruct (level_of _ _); cbn; try reflexivity. congruence. }
    assert (Hout1 : out_of_reach (error_threshold (self (final (process_line line m))))).
    { unfold config in Hconfig. injection Hconfig as _ _ _ -> _ _ _. exact Hout. }
    destruct (process_line line m) as [[] m1|e m1]; cbn [final] in *.
    + destruct (IH m1 Hm1 Hout1) as (new2 & Htr2 & Hquiet2).
      exists (new1 ++ new2)%list. rewrite Htr2, Htr1, app_assoc, alerts_of_app, Hquiet1, Hquiet2.
      auto.
    + exists new1. auto.
Qed.

(** X8.  With a threshold of zero or below, the observation that fills
    the window raises the error-rate alert when the flag is down, even
    when the window holds no error. *)
Theorem threshold_always_reached_alerts_on_full_window
    (entry : json) (b : bool) (m : machine) :
  _is_error entry = Ok b ->
  always_reached (error_threshold (self m)) ->
  binary (window (self m)) ->
  error_alert_active (self m) = false ->
  (1 <= maxlen (window (self m)) <= S (deque_len (window (self m))))%nat ->
  (deque_len (window (self m)) <= maxlen (window (self m)))%nat ->
  exists m' new message,
    _record_error entry m = Ret () m'
    /\ trace m' = (trace m ++ new)%list
    /\ notify_events new = [("error_rate", message)]
    /\ error_alert_active (self m') = true.
Proof.
  intros Hb Hall Hbin Hoff [Hpos Hfull] Hle.
  pose proof (record_error_step entry b m Hb) as Hstep. cbn zeta in Hstep.
  pose proof (level_always_reached _ _ (binary_append _ b Hbin) Hall) as Hlow.
  destruct (level_guard (error_threshold (self m)) (window (self m)) (observation b) Hle)
    as [_ Hfault]. cbn zeta in Hfault. specialize (Hfault Hpos).
  assert (Hfilled : level_of (error_threshold (self m))
                      (deque_append (window (self m)) (observation b)) <> Filling).
  { unfold level_of. rewrite deque_append_len. cbn [maxlen deque_append].
    destruct (deque_len (window (self m)) <? maxlen (window (self m)))%nat eqn:H1.
    - destruct (S _ <? _)%nat eqn:H2; [apply Nat.ltb_lt in H2; lia|].
      destruct (truediv _ _) as [rate|[]]; [destruct (float_ge _ _)|..]; discriminate.
    - rewrite H1.
      destruct (truediv _ _) as [rate|[]]; [destruct (float_ge _ _)|..]; discriminate. }
  pose proof (level_binary (error_threshold (self m)) _ (binary_append _ b Hbin)) as Hfits.
  destruct (level_of _ _); try congruence.
  rewrite Hoff in Hstep. destruct Hstep as (m' & gate & message & Hrun & Htr & Hn & _ & Hself).
  exists m', (EvNotify "error_rate" message :: gate), message.
  split; [exact Hrun|]. split; [exact Htr|]. cbn [notify_events]. rewrite Hn.
  split; [reflexivity|]. rewrite Hself. reflexivity.
Qed.
End Invariants.

(** ** One line *)

Section Lines.
Context {lib : PyLib} {world : World}.

(** X9.  A line that is blank after [strip], or decodes to a falsy value,
    changes nothing at all: no log line, no state change.  A line that
    does not decode leaves exactly one log line, with the stripped text,
    and the object as it was. *)
Theorem skipped_lines_leave_no_mark (line : string) (m : machine) :
  (strip line = "" -> process_line line m = Ret () m)
  /\ (forall entry, strip line <> "" -> json_loads (strip line) = Decoded entry ->
      truthy entry = false -> process_line line m = Ret () m)
  /\ (strip line <> "" -> json_loads (strip line) = JSONDecodeError ->
      process_line line m
      = Ret () {| self := self m; tick := tick m;
                  trace := trace m ++ [EvLog ("Skipping unparsable log line: "
                                                +:+ strip line)] |}).
Proof.
  split; [|split].
  - unfold process_line, _parse_entry. unmonad. intros ->. destruct m. reflexivity.
  - intros entry Hne Hload Hfalsy. unfold process_line, mbind, M_bind.
    rewrite (parse_entry_decoded line entry m Hne Hload), Hfalsy. reflexivity.
  - unfold process_line, _parse_entry. unmonad.
    intros Hne Hnone. rewrite (is_empty_false _ Hne), Hnone. reflexivity.
Qed.

(** X10.  On an object [_is_error] raises in one case only: no token of
    [upstream_status] parses and [status] is an infinite float; the
    exception is then [OverflowError]. *)
Theorem is_error_fault_iff (fields : list (string * json)) (e : exn) :
  _is_error (JObj fields) = Err e
  <-> e = OverflowError
      /\ _first_status (dict_get fields "upstream_status") = None
      /\ is_infinite (dict_get fields "status") = true.
Proof.
  rewrite first_status_spec. split.
  - intros Hraise.
    destruct (spec_first_parsed (spec_tokens (dict_get fields "upstream_status")))
      as [c|] eqn:Hfirst.
    + rewrite is_error_agrees_with_spec in Hraise; [discriminate|].
      rewrite Hfirst. discriminate.
    + destruct (is_infinite (dict_get fields "status")) eqn:Hinf.
      * rewrite (is_error_overflow fields Hfirst Hinf) in Hraise. injection Hraise as <-. auto.
      * rewrite is_error_agrees_with_spec in Hraise; [discriminate|]. intros _. exact Hinf.
  - intros (-> & Hfirst & Hinf). apply is_error_overflow; assumption.
Qed.

Lemma process_line_raises (line : string) (m m' : machine) (e : exn) :
  process_line line m = Raise e m' ->
  (loads_raises (json_loads (strip line)) = Some e /\ m' = m)
  \/ (loads_raises (json_loads (strip line)) = None
      /\ (e = AttributeError \/ e = OverflowError \/ e = ZeroDivisionError)).
Proof.
  unfold process_line, mbind, M_bind.
  destruct (parse_entry_cases line m)
    as [(x & _ & Hx & ->) | (entry & m0 & -> & _ & Hentry)].
  { intros [= <- <-]. left. auto. }
  destruct (truthy entry) eqn:Htruthy; cbn [negb]; [|discriminate].
  destruct Hentry as [-> | [Hload _]]; [discriminate|].
  intros Hraise. right. split; [rewrite Hload; reflexivity|]. revert Hraise.
  destruct (_is_error entry) as [b|x] eqn:Hx.
  - pose proof (record_error_step entry b m0 Hx) as Hstep. cbn zeta in Hstep.
    destruct (level_of _ _); [| |destruct (error_alert_active (self m0))| |];
      try (rewrite Hstep; intros H; apply check_failover_raises in H; auto);
      try (rewrite Hstep; intros [= <- _]; auto).
    destruct Hstep as (m1 & gate & message & -> & _).
    intros H; apply check_failover_raises in H; auto.
  - rewrite (record_error_fault entry x m0 Hx). intros [= -> _].
    apply is_error_raises in Hx as [|]; auto.
Qed.

(** X11.  The exceptions that can leave [process_line].  What
    [json.loads] raises other than [JSONDecodeError] leaves it: a plain
    [ValueError] or a [RecursionError], with the machine as it was.  On
    every other line only [AttributeError], [OverflowError] and, on a
    window bound of zero, [ZeroDivisionError] can leave; [TypeError]
    never does. *)
Theorem process_line_fault_kinds (n : nat) (line : string) (m m' : machine) (e : exn) :
  bounded n m ->
  process_line line m = Raise e m' ->
  (loads_raises (json_loads (strip line)) = Some e
   /\ (e = ValueError \/ e = RecursionError) /\ m' = m)
  \/ (loads_raises (json_loads (strip line)) = None
      /\ (e = AttributeError \/ e = OverflowError
          \/ (e = ZeroDivisionError /\ n = 0%nat))).
Proof.
  intros Hb Hraise.
  destruct (process_line_raises line m m' e Hraise) as [[He ->] | [Hnone He]].
  - left. split; [exact He|]. split; [exact (loads_raises_kinds _ _ He) | reflexivity].
  - right. split; [exact Hnone|].
    destruct He as [He | [He | He]]; auto.
    right. right. split; [exact He|]. subst e.
    destruct n as [|n]; [reflexivity|]. exfalso.
    exact (process_line_no_zero_division (S n) line m m' ltac:(lia) Hb Hraise).
Qed.

(** X12.  One line raises at most one error-rate alert and at most two
    alerts in all, and the webhook is called at most once per alert. *)
Theorem at_most_two_alerts_per_line (line : string) (m : machine) :
  exists new,
    trace (final (process_line line m)) = (trace m ++ new)%list
    /\ (length (alerts_of "error_rate" new) <= 1)%nat
    /\ (length (notify_events new) <= 2)%nat
    /\ (length (post_events new) <= length (notify_events new))%nat.
Proof.
  destruct (process_line_adds line m) as (new & Htr & _ & _ & Hedges & Hn & Hp).
  cbn zeta in Hedges. exists new. split; [exact Htr|].
  split; [|split; [exact Hn|exact Hp]]. rewrite Hedges.
  destruct (line_observation line); [|lia].
  destruct (level_of _ _), (error_alert_active (self m)); cbn; lia.
Qed.

(** X13.  The two detectors keep apart: [_record_error] never touches
    the tracked pool, [_check_failover] never touches the window or the
    flag, and neither touches the configuration. *)
Theorem detectors_do_not_interfere (entry : json) (m : machine) :
  current_pool (self (final (_record_error entry m))) = current_pool (self m)
  /\ detector (self (final (_check_failover entry m))) = detector (self m)
  /\ config (self (final (_record_error entry m))) = config (self m)
  /\ config (self (final (_check_failover entry m))) = config (self m).
Proof.
  destruct (check_failover_frame entry m) as (c & p & Hfail).
  rewrite Hfail. repeat split.
  - destruct (record_error_frame entry m) as (d & c' & a & ->). reflexivity.
  - destruct (_is_error entry) as [b|x] eqn:Hx.
    + destruct (record_error_adds entry b m Hx) as (new & _ & _ & Hself & _).
      cbn zeta in Hself. rewrite Hself. reflexivity.
    + rewrite (record_error_fault entry x m Hx). reflexivity.
Qed.

(** X14.  [_check_failover] on the same entry a second time does nothing:
    no log line, no alert, no state change. *)
Theorem check_failover_idempotent (entry : json) (m m1 : machine) :
  _check_failover entry m = Ret () m1 ->
  _check_failover entry m1 = Ret () m1.
Proof.
  unfold _check_failover. unmonad.
  destruct (py_get entry "status") as [status|]; [|discriminate].
  destruct (py_get entry "pool") as [raw_pool|]; [|discriminate].
  destruct (py_strip _) as [stripped|]; [|discriminate].
  destruct (py_get entry "release") as [raw_release|]; [|discriminate].
  destruct (_ || _); [intros [= <-]; reflexivity|].
  destruct (bool_decide (current_pool (self m) = Some (lower stripped))) eqn:Hsame.
  - intros [= <-]. rewrite Hsame. reflexivity.
  - cbn [self tick trace].
    destruct (current_pool (self m)) as [previous|].
    + destruct (_ && _);
        match goal with
        | |- context [_notify ?t ?msg ?m0] =>
            destruct (notify_frame t msg m0) as (m' & gate & Hrun & _ & _ & _ & Hself);
            rewrite Hrun; intros [= <-];
            rewrite bool_decide_eq_true_2 by (rewrite Hself; reflexivity); reflexivity
        end.
    + intros [= <-]. cbn [self with_current_pool current_pool].
      rewrite bool_decide_eq_true_2 by reflexivity. reflexivity.
Qed.
End Lines.

(** ** The gate over several attempts *)

Section GateRuns.
Context {lib : PyLib} {world : World}.



(** X16.  With an empty [webhook_url] no attempt calls the webhook or
    changes the object; an attempt out of cooldown and out of maintenance
    ends with the log line that says no webhook is configured. *)
Theorem no_webhook_never_posts (alert_type message : string) (m : machine) :
  webhook_url (self m) = "" ->
  exists m' gate,
    _notify alert_type message m = Ret () m'
    /\ trace m' = (trace m ++ EvNotify alert_type message :: gate)%list
    /\ post_events gate = []
    /\ self m' = self m
    /\ (~ cooling_down m alert_type ->
        (maintenance_flag (self m) = ""
         \/ os_path_exists (gate_tick m alert_type) (maintenance_flag (self m)) = false) ->
        exists checks,
          gate = (checks ++ [EvLog ("Cannot send " +:+ alert_type
                                      +:+ " alert (no webhook configured): " +:+ message)])%list
          /\ notify_events checks = [] /\ post_events checks = []).
Proof.
  intros Hurl.
  unfold _notify, _in_cooldown, _maintenance_active, gate_tick. unmonad.
  destruct m as [w k tr]. cbn [self tick trace] in *.
  destruct (cooldowns w !! alert_type) as [last|] eqn:Hlast.
  - pose proof (cooling_down_spec {| self := w; tick := k; trace := tr |}
                  alert_type last Hlast) as Hcd.
    cbn [self tick trace] in *.
    destruct (negb (Qle_bool _ _)) eqn:Hq.
    + eexists _, _; split; [reflexivity|]; split; [trace_eq|].
      split; [reflexivity|]. split; [reflexivity|].
      intros Hno. exfalso. apply Hno, Hcd. reflexivity.
    + cbn [self tick trace].
      destruct (is_empty (maintenance_flag w)) eqn:Hflag; cbn [self tick trace].
      * rewrite Hurl. cbn [is_empty].
        eexists _, _; split; [reflexivity|]; split; [trace_eq|].
        split; [reflexivity|]. split; [reflexivity|].
        intros _ _. exists []. repeat split.
      * destruct (os_path_exists (S k) (maintenance_flag w)) eqn:Hex; cbn [self tick trace].
        -- eexists _, _; split; [reflexivity|]; split; [trace_eq|].
           split; [reflexivity|]. split; [reflexivity|].
           intros _ [Hnone|Habsent]; [|discriminate].
           rewrite Hnone in Hflag. discriminate.
        -- rewrite Hurl. cbn [is_empty].
           eexists _, _; split; [reflexivity|]; split; [trace_eq|].
           split; [reflexivity|]. split; [reflexivity|].
           intros _ _. exists [EvExists (maintenance_flag w) false]. repeat split.
  - cbn [self tick trace].
    destruct (is_empty (maintenance_flag w)) eqn:Hflag; cbn [self tick trace].
    + rewrite Hurl. cbn [is_empty].
      eexists _, _; split; [reflexivity|]; split; [trace_eq|].
      split; [reflexivity|]. split; [reflexivity|].
      intros _ _. exists []. repeat split.
    + destruct (os_path_exists k (maintenance_flag w)) eqn:Hex; cbn [self tick trace].
      * eexists _, _; split; [reflexivity|]; split; [trace_eq|].
        split; [reflexivity|]. split; [reflexivity|].
        intros _ [Hnone|Habsent]; [|discriminate].
        rewrite Hnone in Hflag. discriminate.
      * rewrite Hurl. cbn [is_empty].
        eexists _, _; split; [reflexivity|]; split; [trace_eq|].
        split; [reflexivity|]. split; [reflexivity|].
        intros _ _. exists [EvExists (maintenance_flag w) false]. repeat split.
Qed.
End GateRuns.

(** ** The file tailer *)

Section TailerFacts.
Context {lib : PyLib} {world : World} {files : Files}.

Lemma texts_read_app (a b : list os_event) :
  texts_read (a ++ b) = (texts_read a ++ texts_read b)%list.
Proof.
  induction a as [|e a IH]; [reflexivity|].
  destruct e as [| | |? []| | | | | |]; cbn [app texts_read]; rewrite IH; reflexivity.
Qed.

Lemma lines_handed_app (a b : list os_event) :
  lines_handed (a ++ b) = (lines_handed a ++ lines_handed b)%list.
Proof.
  induction a as [|e a IH]; [reflexivity|].
  destruct e; cbn [app lines_handed]; rewrite IH; reflexivity.
Qed.

Lemma held_after_app (a b : list os_event) :
  held_after (a ++ b) = fold_left follow b (held_after a).
Proof. unfold held_after. apply fold_left_app. Qed.

Ltac tidy_calls :=
  cbn [calls noted with_file with_watcher logged watcher file_obj inode];
  rewrite <- ?app_assoc; cbn [app];
  rewrite ?texts_read_app, ?lines_handed_app, ?held_after_app, ?List.filter_app;
  cbn [texts_read lines_handed List.filter fold_left app];
  rewrite ?app_nil_r.

Ltac tidy_held Hheld Hfile :=
  rewrite Hheld, Hfile; do 4 (cbn [follow]; rewrite ?Nat.eqb_refl).

Lemma tail_open_tidy (m0 : machine) (path : string) (h : handle) (t : tailer) :
  file_obj t = Some h -> inode t <> None ->
  tidy m0 t -> tidy m0 (ended (tail_open path h t)).
Proof.
  intros Hfile Hinode (Hlines & Hheld & Hboth & Hconfig & Hdet).
  unfold tail_open.
  destruct (file_readline (tick (watcher t)) h) as [line|].
  2:{ cbn [ended]. unfold tidy. tidy_calls. tidy_held Hheld Hfile.
      repeat split; try assumption; rewrite ?Hfile; try discriminate. contradiction. }
  destruct (is_empty line) eqn:Hempty; cbn [negb].
  - cbn [noted watcher tick self trace file_obj inode calls].
    destruct (os_stat _ path) as [st_ino st_size| |].
    + destruct (inode t) as [known|] eqn:Hknown; [|contradiction].
      destruct (negb (st_ino =? known)%Z).
      * cbn [ended]. unfold tidy, logged, log, emit. tidy_calls. cbn [final self].
        rewrite Hempty. tidy_held Hheld Hfile. cbn [negb]. rewrite ?app_nil_r.
        repeat split; assumption.
      * destruct (st_size <? _)%Z; cbn [ended]; unfold tidy; tidy_calls;
          rewrite Hempty; tidy_held Hheld Hfile; cbn [negb]; rewrite ?app_nil_r;
          cbn [self]; rewrite ?Hknown;
          repeat split; try assumption; try discriminate.
    + cbn [ended]. unfold tidy. tidy_calls.
      rewrite Hempty. tidy_held Hheld Hfile. cbn [negb]. rewrite ?app_nil_r.
      cbn [self]. repeat split; assumption.
    + cbn [ended]. unfold tidy. tidy_calls.
      rewrite Hempty. tidy_held Hheld Hfile. cbn [negb]. rewrite ?app_nil_r.
      cbn [self]. repeat split; try assumption; rewrite ?Hfile; try discriminate.
      contradiction.
  - cbn [noted watcher tick self trace file_obj inode calls].
    set (m := {| self := self (watcher t); tick := S (tick (watcher t));
                 trace := trace (watcher t) |}).
    destruct (process_line_adds line m) as (new & _ & Hconfig1 & Hdet1 & _).
    cbn zeta in Hconfig1, Hdet1. change (self m) with (self (watcher t)) in Hconfig1, Hdet1.
    assert (Hthreshold : error_threshold (self (watcher t)) = error_threshold (self m0)).
    { unfold config in Hconfig. injection Hconfig as _ _ _ -> _ _ _. reflexivity. }
    assert (Hend : tidy m0 {| watcher := final (process_line line m); file_obj := file_obj t;
                              inode := inode t;
                              calls := ((calls t ++ [OsReadline h (Line line)])
                                        ++ [Handed line])%list |}).
    { unfold tidy. tidy_calls. rewrite Hempty. tidy_held Hheld Hfile. cbn [negb].
      split; [rewrite Hlines; reflexivity|]. split; [reflexivity|].
      split; [rewrite <- Hfile; exact Hboth|]. split; [congruence|].
      rewrite omap_app, fold_left_app, <- Hdet, Hdet1, Hthreshold. cbn [omap list_omap].
      destruct (line_observation line); reflexivity. }
    destruct (process_line line m) as [[] m1|e m1]; exact Hend.
Qed.

Lemma tail_iteration_tidy (m0 : machine) (path : string) (t : tailer) :
  tidy m0 t -> tidy m0 (ended (tail_iteration path t)).
Proof.
  intros Ht. unfold tail_iteration.
  destruct (file_obj t) as [h|] eqn:Hfile.
  - apply tail_open_tidy; [exact Hfile| |exact Ht].
    destruct Ht as (_ & _ & Hboth & _). intros Hnone. apply Hboth in Hnone. congruence.
  - destruct Ht as (Hlines & Hheld & Hboth & Hconfig & Hdet).
    destruct (os_open (tick (watcher t)) path) as [h| |] eqn:Hopen.
    + apply tail_open_tidy; [reflexivity|discriminate|].
      unfold tidy, logged, log, emit. tidy_calls. cbn [final self].
      tidy_held Hheld Hfile.
      repeat split; try assumption; discriminate.
    + cbn [ended]. unfold tidy. tidy_calls. tidy_held Hheld Hfile. cbn [self].
      repeat split; try assumption; intros _; apply Hboth, Hfile.
    + cbn [ended]. unfold tidy. tidy_calls. tidy_held Hheld Hfile. cbn [self].
      repeat split; try assumption; intros _; apply Hboth, Hfile.
Qed.

Lemma tail_loop_tidy (m0 : machine) (path : string) (passes : nat) :
  forall t, tidy m0 t -> tidy m0 (ended (tail_loop passes path t)).
Proof.
  induction passes as [|passes IH]; intros t Ht; [exact Ht|].
  cbn [tail_loop]. pose proof (tail_iteration_tidy m0 path t Ht) as Hnext.
  destruct (tail_iteration path t) as [t'|e t']; cbn [ended] in *; auto.
Qed.

Lemma tail_file_tidy (passes : nat) (path : string) (m : machine) :
  tidy m (ended (tail_file passes path m)).
Proof.
  apply tail_loop_tidy. unfold tidy. cbn. repeat split; auto.
Qed.

(** X17.  Whatever the files do and however [tail_file] ends, the lines
    handed to [process_line] are the non-empty texts [readline] returned:
    all of them, in the order read, none twice. *)
Theorem tail_hands_over_what_it_reads (passes : nat) (path : string) (m : machine) :
  let t := ended (tail_file passes path m) in
  lines_handed (calls t)
  = List.filter (fun text => negb (is_empty text)) (texts_read (calls t)).
Proof. exact (proj1 (tail_file_tidy passes path m)). Qed.

(** X18.  [tail_file] holds at most one file object: it opens only when
    it holds none, reads, seeks and closes only the one it holds, and
    closes it before it lets go of it; the inode is known exactly while
    a file is held. *)
Theorem tail_holds_one_file (passes : nat) (path : string) (m : machine) :
  let t := ended (tail_file passes path m) in
  held_after (calls t) = Some (file_obj t)
  /\ (inode t = None <-> file_obj t = None).
Proof.
  destruct (tail_file_tidy passes path m) as (_ & Hheld & Hboth & _). split; assumption.
Qed.

(** X19.  The window and the flag after tailing, however it ended, are
    those the observations of the lines handed over produce, one step
    of the detector each; the configuration is the one given. *)
Theorem tail_detector_follows_lines (passes : nat) (path : string) (m : machine) :
  let t := ended (tail_file passes path m) in
  detector (self (watcher t))
  = fold_left (detector_step (error_threshold (self m)))
      (omap line_observation (lines_handed (calls t))) (detector (self m))
  /\ config (self (watcher t)) = config (self m).
Proof.
  destruct (tail_file_tidy passes path m) as (_ & _ & _ & Hconfig & Hdet). split; assumption.
Qed.

(** X20.  A line that decodes to a truthy value that is no object ends
    the tailer: the [AttributeError] of [process_line] leaves the loop at
    that line, with the file still open and the object as it was. *)
Theorem bad_line_ends_tailer
    (passes : nat) (path : string) (t : tailer) (h : handle) (line : string) (v : json) :
  file_obj t = Some h ->
  file_readline (tick (watcher t)) h = Line line ->
  strip line <> "" ->
  json_loads (strip line) = Decoded v ->
  truthy v = true ->
  (forall fields, v <> JObj fields) ->
  exists t',
    tail_loop (S passes) path t = Crashed (FromPipeline AttributeError) t'
    /\ file_obj t' = Some h
    /\ self (watcher t') = self (watcher t)
    /\ calls t' = (calls t ++ [OsReadline h (Line line); Handed line])%list.
Proof.
  intros Hfile Hread Hne Hload Htruthy Hshape.
  cbn [tail_loop]. unfold tail_iteration, tail_open. rewrite Hfile, Hread.
  assert (Hfull : is_empty line = false).
  { destruct line; [|reflexivity]. exfalso. apply Hne. reflexivity. }
  rewrite Hfull. cbn [negb noted watcher file_obj inode calls].
  rewrite (non_object_line_raises line v _ Hne Hload Htruthy Hshape).
  eexists. split; [reflexivity|]. cbn. rewrite Hfile, <- app_assoc. auto.
Qed.

End TailerFacts.

(** ** The entry point *)

Section MainFacts.
Context {lib : PyLib} {world : World} {files : Files} {process : Process}.

Lemma detector_steps_healthy (n : nat) (threshold : pyfloat) (obs : list bool) :
  forall s : deque * bool,
  (maxlen (fst s) = n /\ (deque_len (fst s) <= n)%nat /\ binary (fst s)
   /\ (snd s = true -> deque_len (fst s) = n)) ->
  let s' := fold_left (detector_step threshold) obs s in
  maxlen (fst s') = n /\ (deque_len (fst s') <= n)%nat /\ binary (fst s')
  /\ (snd s' = true -> deque_len (fst s') = n).
Proof.
  induction obs as [|b obs IH]; intros s Hs; [exact Hs|].
  cbn [fold_left]. apply IH. destruct s as [d a]. cbn [fst snd] in Hs.
  destruct Hs as (Hmax & Hlen & Hbin & Hfull).
  exact (healthy_step n threshold d a b Hmax Hlen Hbin Hfull).
Qed.

Lemma tail_file_healthy (n passes : nat) (path : string) (m : machine) :
  healthy n m -> healthy n (watcher (ended (tail_file passes path m))).
Proof.
  intros ([Hmax Hlen] & Hbin & Hfull).
  destruct (tail_file_tidy passes path m) as (_ & _ & _ & _ & Hdet).
  pose proof (detector_steps_healthy n (error_threshold (self m))
                (omap line_observation
                   (lines_handed (calls (ended (tail_file passes path m)))))
                (detector (self m)) (conj Hmax (conj Hlen (conj Hbin Hfull)))) as Hend.
  cbn zeta in Hend. rewrite <- Hdet in Hend. unfold detector in Hend. cbn [fst snd] in Hend.
  unfold healthy, bounded. tauto.
Qed.

(** X21.  [main] stops with exit status 1 and one log line exactly when
    [SLACK_WEBHOOK_URL] is unset or blank, whatever else the environment
    holds; any other failure before the tailer starts is a [ValueError],
    or the [OverflowError] of [deque] on an [ALERT_ERROR_WINDOW] that
    does not fit 64 bits. *)
Theorem main_needs_webhook (passes : nat) :
  (strip (default "" (os_getenv "SLACK_WEBHOOK_URL")) = ""
   <-> exists code printed, main passes = SystemExit code printed)
  /\ (forall code printed, main passes = SystemExit code printed ->
        code = 1%Z /\ printed = [EvLog "SLACK_WEBHOOK_URL is required."])
  /\ (forall e, main passes = Uncaught e ->
        e = ValueError
        \/ (e = OverflowError
            /\ exists window_size,
                int_of_str (default "200" (os_getenv "ALERT_ERROR_WINDOW"))
                = Some window_size
                /\ (window_size < - 2 ^ 63 \/ 2 ^ 63 <= window_size)%Z)).
Proof.
  unfold main.
  destruct (is_empty (strip (default "" (os_getenv "SLACK_WEBHOOK_URL")))) eqn:Hurl.
  - apply is_empty_true in Hurl. split; [|split].
    + split; [intros _; eauto | intros _; exact Hurl].
    + intros code printed [= <- <-]. auto.
    + discriminate.
  - assert (Hne : strip (default "" (os_getenv "SLACK_WEBHOOK_URL")) <> "")
      by (intros H; rewrite H in Hurl; discriminate).
    destruct (int_of_str (default "200" _)) as [window_size|];
      [|split; [split; [contradiction | intros (? & ? & [=])]
               |split; [discriminate | intros e [= <-]; auto]]].
    destruct (float_of_str _) as [threshold|];
      [|split; [split; [contradiction | intros (? & ? & [=])]
               |split; [discriminate | intros e [= <-]; auto]]].
    destruct (int_of_str (default "300" _)) as [cooldown|];
      [|split; [split; [contradiction | intros (? & ? & [=])]
               |split; [discriminate | intros e [= <-]; auto]]].
    unfold __init__, deque_new, rbind.
    destruct ((window_size <? - 2 ^ 63)%Z || (2 ^ 63 <=? window_size)%Z) eqn:Hfit.
    + split; [split; [contradiction | intros (? & ? & [=])]|].
      split; [discriminate|]. intros e [= <-]. right. split; [reflexivity|].
      exists window_size. split; [reflexivity|].
      apply orb_true_iff in Hfit as [Hlow | Hhigh];
        [left; apply Z.ltb_lt, Hlow | right; apply Z.leb_le, Hhigh].
    + destruct (window_size <? 0)%Z;
        (split; [split; [contradiction | intros (? & ? & [=])]
                |split; [discriminate | intros e [=]; auto]]).
Qed.

(** X22.  Whenever [main] gets to the tailer, the object runs on the settings
    of the environment from the first line to the last: the webhook is
    not empty, the window bound is the integer of [ALERT_ERROR_WINDOW]
    and not negative, and the window and the flag keep their invariant. *)
Theorem main_settings_hold (passes : nat) (r : tail_result) :
  main passes = Tailed r ->
  exists window_size threshold cooldown,
    int_of_str (default "200" (os_getenv "ALERT_ERROR_WINDOW")) = Some window_size
    /\ (0 <= window_size)%Z
    /\ float_of_str (default "0.02" (os_getenv "ALERT_ERROR_THRESHOLD")) = Some threshold
    /\ int_of_str (default "300" (os_getenv "ALERT_COOLDOWN_SECONDS")) = Some cooldown
    /\ config (self (watcher (ended r))) = settings window_size threshold cooldown
    /\ webhook_url (self (watcher (ended r))) <> ""
    /\ healthy (Z.to_nat window_size) (watcher (ended r)).
Proof.
  unfold main.
  destruct (is_empty (strip (default "" (os_getenv "SLACK_WEBHOOK_URL")))) eqn:Hurl;
    [discriminate|].
  destruct (int_of_str (default "200" _)) as [window_size|]; [|discriminate].
  destruct (float_of_str _) as [threshold|]; [|discriminate].
  destruct (int_of_str (default "300" _)) as [cooldown|]; [|discriminate].
  destruct (__init__ _ _ _ _ _ _ _) as [w|e] eqn:Hinit; [|discriminate].
  intros [= <-]. exists window_size, threshold, cooldown.
  destruct (init_healthy _ _ _ _ _ _ _ _ Hinit) as [Hboot Hconfig].
  assert (Hsize : (0 <= window_size)%Z).
  { unfold __init__, deque_new, rbind in Hinit.
    destruct ((window_size <? - 2 ^ 63)%Z || (2 ^ 63 <=? window_size)%Z); [discriminate|].
    destruct (window_size <? 0)%Z eqn:Hneg; [discriminate|]. apply Z.ltb_ge in Hneg. lia. }
  destruct (tail_file_tidy passes
              (default "/var/log/nginx/app_access.log" (os_getenv "LOG_PATH")) (boot w))
    as (_ & _ & _ & Hsame & _).
  cbn [boot self] in Hsame.
  repeat split; try reflexivity; try assumption.
  - rewrite Hsame, Hconfig. reflexivity.
  - unfold config in Hsame, Hconfig. rewrite Hconfig in Hsame.
    injection Hsame as -> _ _ _ _ _ _. intros Hempty. rewrite Hempty in Hurl. discriminate.
  - destruct (tail_file_healthy _ passes
                (default "/var/log/nginx/app_access.log" (os_getenv "LOG_PATH"))
                (boot w) Hboot) as ([Hmax _] & _). exact Hmax.
  - destruct (tail_file_healthy _ passes
                (default "/var/log/nginx/app_access.log" (os_getenv "LOG_PATH"))
                (boot w) Hboot) as ([_ Hlen] & _). exact Hlen.
  - destruct (tail_file_healthy _ passes
                (default "/var/log/nginx/app_access.log" (os_getenv "LOG_PATH"))
                (boot w) Hboot) as (_ & Hbin & _). exact Hbin.
  - destruct (tail_file_healthy _ passes
                (default "/var/log/nginx/app_access.log" (os_getenv "LOG_PATH"))
                (boot w) Hboot) as (_ & _ & Hfull). exact Hfull.
Qed.
End MainFacts.

(** ** The tracked pool over a run *)

Section Pools.
Context {lib : PyLib} {world : World}.

Lemma check_failover_pool (entry : json) (m : machine) :
  current_pool (self (final (_check_failover entry m)))
  = match entry_pool entry with
    | Some p => Some p
    | None => current_pool (self m)
    end.
Proof.
  unfold _check_failover, entry_pool. unmonad.
  destruct entry as [|b|n|x|s|items|fields]; try reflexivity.
  cbn [py_get].
  destruct (dict_get fields "pool") as [|b|n|x|p|items|pool_fields] eqn:Hpool;
    try reflexivity.
  - destruct b; reflexivity.
  - unfold py_or. destruct (truthy (JInt n)); reflexivity.
  - unfold py_or. destruct (truthy (JFloat x)); reflexivity.
  - rewrite strip_empty_pool. rewrite is_empty_lower.
    destruct (is_empty (strip p)) eqn:Hempty; [reflexivity|].
    destruct (eq_int (dict_get fields "status") 200) eqn:Hstatus; [|reflexivity].
    cbn [negb orb andb self tick trace].
    destruct (bool_decide _) eqn:Hsame.
    { apply bool_decide_eq_true_1 in Hsame. cbn [final]. exact Hsame. }
    destruct (current_pool (self m)) as [previous|]; [|reflexivity].
    destruct (_ && _);
      match goal with
      | |- context [_notify ?t ?msg ?m0] =>
          destruct (notify_frame t msg m0) as (m' & gate & Hrun & _ & _ & _ & Hself);
          rewrite Hrun; cbn [final]; rewrite Hself; reflexivity
      end.
  - unfold py_or. destruct (truthy (JArr items)); reflexivity.
  - unfold py_or. destruct (truthy (JObj pool_fields)); reflexivity.
Qed.

Lemma process_line_pool (line : string) (m m' : machine) :
  process_line line m = Ret () m' ->
  current_pool (self m')
  = match line_pool line with
    | Some p => Some p
    | None => current_pool (self m)
    end.
Proof.
  unfold process_line, _parse_entry, line_pool. unmonad.
  destruct (is_empty (strip line)); [intros [= <-]; reflexivity|].
  destruct (json_loads (strip line)) as [entry| | |];
    [|intros [= <-]; reflexivity|discriminate|discriminate].
  destruct (truthy entry); cbn [negb]; [|intros [= <-]; reflexivity].
  destruct (record_error_frame entry m) as (d & c & a & Hframe).
  destruct (_record_error entry m) as [[] m1|e m1]; [|discriminate].
  cbn [final] in Hframe. intros Hrun.
  pose proof (check_failover_pool entry m1) as Hpool. rewrite Hrun in Hpool.
  cbn [final] in Hpool. rewrite Hpool, Hframe. reflexivity.
Qed.

(** X23.  After a run that returns, the tracked pool is the pool of the last
    line with status 200 and a pool, trimmed and lowercased; with no
    such line it is the pool tracked before. *)
Theorem tracked_pool_is_the_last_seen (lines : list string) : forall (m m' : machine),
  process_lines lines m = Ret () m' ->
  current_pool (self m') = pool_after (current_pool (self m)) lines.
Proof.
  induction lines as [|line rest IH]; intros m m' Hrun.
  - injection Hrun as <-. reflexivity.
  - cbn [process_lines] in Hrun. unfold mbind, M_bind in Hrun.
    destruct (process_line line m) as [[] m1|e m1] eqn:Hline; [|discriminate].
    rewrite (IH m1 m' Hrun), (process_line_pool line m m1 Hline). reflexivity.
Qed.
End Pools.

(** ** The further properties on the sample objects *)

(** X1 on the code 502 written as a text. *)
Lemma numeric_code_witness :
  str_of_int 502 = Some "502"
  /\ _is_error (lib := sample_lib) (JObj [("upstream_status", JStr "502")]) = Ok true
  /\ _is_error (lib := sample_lib) (JObj [("status", JStr "502")]) = Ok true.
Proof.
  assert (Htext : str_of_int 502 = Some "502") by (vm_compute; reflexivity).
  split; [exact Htext|]. split.
  - destruct (numeric_code_round_trip (lib := sample_lib)
                [("upstream_status", JStr "502")] 502 "502" (JStr "502") Htext)
      as [Hfirst _].
    + right. reflexivity.
    + apply Hfirst. reflexivity.
  - destruct (numeric_code_round_trip (lib := sample_lib)
                [("status", JStr "502")] 502 "502" (JStr "502") Htext)
      as [_ Hsecond].
    + right. reflexivity.
    + apply Hsecond; reflexivity.
Defined.

(** X3 on three lines, the last of which raises. *)
Lemma window_invariant_witness :
  let d := window (self (final (process_lines (lib := sample_lib) (world := calm_world)
                                  [line_bad_gateway; line_blue; "5"] (boot sample_watcher)))) in
  maxlen d = Z.to_nat 2
  /\ (deque_len d <= Z.to_nat 2)%nat
  /\ Forall (fun x => x = 0%Z \/ x = 1%Z) (items d)
  /\ (0 <= deque_sum d <= Z.of_nat (deque_len d))%Z.
Proof.
  exact (window_stays_bounded_and_binary (lib := sample_lib) (world := calm_world)
           "https://hooks.example/alert" "/var/log/nginx/app_access.log" 2
           (FFin (1 # 2)) 300 (Some " Blue ") (Some "/run/maintenance ")
           sample_watcher [line_bad_gateway; line_blue; "5"] eq_refl).
Defined.

(** X4 after two errors on a window of two. *)
Lemma flag_full_window_witness :
  let m := final (process_lines (lib := sample_lib) (world := calm_world)
                    [line_bad_gateway; line_bad_gateway] (boot sample_watcher)) in
  error_alert_active (self m) = true
  /\ deque_len (window (self m)) = maxlen (window (self m)).
Proof.
  split; [vm_compute; reflexivity|].
  apply (flag_up_only_on_full_window (lib := sample_lib) (world := calm_world)
           "https://hooks.example/alert" "/var/log/nginx/app_access.log" 2
           (FFin (1 # 2)) 300 (Some " Blue ") (Some "/run/maintenance ")
           sample_watcher [line_bad_gateway; line_bad_gateway] eq_refl).
  vm_compute. reflexivity.
Defined.

(** X5 on four lines, one of them the empty object. *)
Lemma last_observations_witness :
  exists m',
    process_lines (lib := sample_lib) (world := calm_world)
      [line_bad_gateway; "{}"; line_blue; line_bad_gateway] (boot sample_watcher) = Ret () m'
    /\ observations (lib := sample_lib) [line_bad_gateway; "{}"; line_blue; line_bad_gateway]
       = [1%Z; 0%Z; 1%Z]
    /\ items (window (self m')) = [0%Z; 1%Z].
Proof.
  eexists. split; [vm_compute; reflexivity|]. split; [vm_compute; reflexivity|].
  match goal with
  | |- items (window (self ?m')) = _ =>
      destruct (window_holds_last_observations (lib := sample_lib) (world := calm_world)
                  [line_bad_gateway; "{}"; line_blue; line_bad_gateway]
                  (boot sample_watcher) m') as [_ Hitems]
  end.
  - cbn. lia.
  - vm_compute. reflexivity.
  - rewrite Hitems. vm_compute. reflexivity.
Defined.

(** X6 on one error in a window of two. *)
Lemma cold_start_witness :
  exists new,
    trace (final (process_lines (lib := sample_lib) (world := calm_world)
                    [line_bad_gateway] (boot sample_watcher)))
    = (trace (boot sample_watcher) ++ new)%list
    /\ alerts_of "error_rate" new = []
    /\ error_alert_active
         (self (final (process_lines (lib := sample_lib) (world := calm_world)
                         [line_bad_gateway] (boot sample_watcher))))
       = error_alert_active (self (boot sample_watcher)).
Proof.
  apply (no_alert_before_window_fills (lib := sample_lib) (world := calm_world)
           [line_bad_gateway] (boot sample_watcher)).
  vm_compute. lia.
Defined.

(** X7 on three errors and a threshold of 2. *)
Lemma deaf_watcher_witness :
  exists new,
    trace (final (process_lines (lib := sample_lib) (world := calm_world)
                    [line_bad_gateway; line_bad_gateway; line_bad_gateway]
                    (boot deaf_watcher)))
    = (trace (boot deaf_watcher) ++ new)%list
    /\ alerts_of "error_rate" new = [].
Proof.
  apply (threshold_out_of_reach_never_alerts (lib := sample_lib) (world := calm_world) 2
           [line_bad_gateway; line_bad_gateway; line_bad_gateway] (boot deaf_watcher)).
  - repeat split; cbn; try lia; try constructor; discriminate.
  - reflexivity.
Defined.

(** X8 on a healthy request and a threshold of 0. *)
Lemma eager_watcher_witness :
  exists m' new message,
    _record_error (lib := sample_lib) (world := calm_world) fine_entry (boot eager_watcher)
    = Ret () m'
    /\ trace m' = (trace (boot eager_watcher) ++ new)%list
    /\ notify_events new = [("error_rate", message)]
    /\ error_alert_active (self m') = true.
Proof.
  apply (threshold_always_reached_alerts_on_full_window (lib := sample_lib)
           (world := calm_world) fine_entry false (boot eager_watcher)).
  - reflexivity.
  - cbn. discriminate.
  - repeat constructor.
  - reflexivity.
  - cbn. lia.
  - cbn. lia.
Defined.

(** X11 on an integer of 4301 digits: [json.loads] raises [ValueError]
    and nothing catches it. *)
Lemma fault_kinds_witness :
  process_line (lib := wider_lib) (world := calm_world) line_long_integer
    (boot sample_watcher) = Raise ValueError (boot sample_watcher)
  /\ loads_raises (json_loads (PyLib := wider_lib) (strip line_long_integer))
     = Some ValueError.
Proof.
  assert (Hraise : process_line (lib := wider_lib) (world := calm_world) line_long_integer
                     (boot sample_watcher) = Raise ValueError (boot sample_watcher))
    by (vm_compute; reflexivity).
  split; [exact Hraise|].
  destruct (process_line_fault_kinds (lib := wider_lib) (world := calm_world) 2
              line_long_integer (boot sample_watcher) (boot sample_watcher) ValueError)
    as [[Hloads _] | [_ [Hkind | [Hkind | [Hkind _]]]]].
  - split; cbn; lia.
  - exact Hraise.
  - exact Hloads.
  - discriminate Hkind.
  - discriminate Hkind.
  - discriminate Hkind.
Defined.

(** X14 on a return to the primary pool seen twice. *)
Lemma failover_twice_witness :
  let m1 := final (_check_failover (lib := sample_lib) (world := calm_world) entry_blue
                     (boot busy_watcher)) in
  notify_events (trace m1)
  = [("recovery",
      "Traffic recovered to primary pool 'blue' (was 'green'). Release unknown now serving.")]
  /\ _check_failover (lib := sample_lib) (world := calm_world) entry_blue m1 = Ret () m1.
Proof.
  split; [vm_compute; reflexivity|].
  apply (check_failover_idempotent (lib := sample_lib) (world := calm_world) entry_blue
           (boot busy_watcher)).
  vm_compute. reflexivity.
Defined.


(** X16 on the object with no webhook. *)
Lemma no_webhook_witness :
  exists m' gate,
    _notify (world := calm_world) "failover" "moved" (boot mute_watcher) = Ret () m'
    /\ trace m' = (trace (boot mute_watcher) ++ EvNotify "failover" "moved" :: gate)%list
    /\ post_events gate = []
    /\ self m' = mute_watcher
    /\ gate = [EvExists "/run/maintenance" false;
               EvLog "Cannot send failover alert (no webhook configured): moved"].
Proof.
  destruct (no_webhook_never_posts (world := calm_world) "failover" "moved" (boot mute_watcher))
    as (m' & gate & Hrun & Htr & Hposts & Hself & Hlog).
  - reflexivity.
  - exists m', gate. split; [exact Hrun|]. split; [exact Htr|]. split; [exact Hposts|].
    split; [exact Hself|].
    assert (Hm : m' = final (_notify (world := calm_world) "failover" "moved"
                               (boot mute_watcher))) by (rewrite Hrun; reflexivity).
    rewrite Hm in Htr. vm_compute in Htr. injection Htr as <-. reflexivity.
Defined.

(** A run of the tailer over a rotation: the file held is closed, the
    path is opened again, and the line found there is handed over. *)
Example sample_tail_run :
  let r := tail_file (lib := sample_lib) (world := calm_world) (files := rotated_files) 3
             "/var/log/nginx/app_access.log" (boot sample_watcher) in
  calls (ended r)
  = [OsOpen "/var/log/nginx/app_access.log" (Opened 0); OsSeekEnd 0; OsFstat 0 11;
     OsReadline 0 (Line "");
     OsStat "/var/log/nginx/app_access.log" (Stat 12 0); OsClose 0;
     OsOpen "/var/log/nginx/app_access.log" (Opened 6); OsSeekEnd 6; OsFstat 6 12;
     OsReadline 6 (Line "");
     OsStat "/var/log/nginx/app_access.log" (Stat 12 0); OsTell 6 0; OsSleep (1 # 5);
     OsReadline 6 (Line line_blue); Handed line_blue]
  /\ file_obj (ended r) = Some 6%nat
  /\ current_pool (self (watcher (ended r))) = Some "blue"
  /\ trace (watcher (ended r))
     = [EvLog "Tailing log file /var/log/nginx/app_access.log";
        EvLog "Log rotation detected; reopening file";
        EvLog "Tailing log file /var/log/nginx/app_access.log";
        EvLog "Initial pool observed: blue (release unknown)"].
Proof. vm_compute. repeat split. Qed.

(** X20: the tailer reads nothing on its first pass and the line [5]
    on its second. *)
Lemma bad_line_witness :
  let t := ended (tail_file (lib := sample_lib) (world := calm_world) (files := sample_files) 1
                    "/var/log/nginx/app_access.log" (boot sample_watcher)) in
  exists t',
    tail_loop (lib := sample_lib) (world := calm_world) (files := sample_files) 1
      "/var/log/nginx/app_access.log" t
    = Crashed (FromPipeline AttributeError) t'
    /\ file_obj t' = Some 7%nat
    /\ self (watcher t') = self (watcher t)
    /\ calls t' = (calls t ++ [OsReadline 7 (Line line_five); Handed line_five])%list.
Proof.
  cbv zeta.
  apply (bad_line_ends_tailer (lib := sample_lib) (world := calm_world) (files := sample_files)
           0 "/var/log/nginx/app_access.log" _ 7%nat line_five (JInt 5)).
  - reflexivity.
  - reflexivity.
  - vm_compute. discriminate.
  - reflexivity.
  - reflexivity.
  - discriminate.
Defined.

(** X21 on a window of 2**63: [deque] raises [OverflowError]. *)
Lemma main_overflow_witness :
  main (lib := sample_lib) (world := calm_world) (files := sample_files)
    (process := huge_window_process) 1 = Uncaught OverflowError
  /\ exists window_size,
      int_of_str "9223372036854775808" = Some window_size
      /\ (window_size < - 2 ^ 63 \/ 2 ^ 63 <= window_size)%Z.
Proof.
  assert (Hmain : main (lib := sample_lib) (world := calm_world) (files := sample_files)
                    (process := huge_window_process) 1 = Uncaught OverflowError)
    by (vm_compute; reflexivity).
  split; [exact Hmain|].
  destruct (main_needs_webhook (lib := sample_lib) (world := calm_world)
              (files := sample_files) (process := huge_window_process) 1)
    as (_ & _ & Hfail).
  destruct (Hfail OverflowError Hmain) as [Hkind | [_ Hsize]];
    [discriminate Hkind | exact Hsize].
Defined.

(** X22 on the sample environment. *)
Lemma main_settings_witness :
  let r := tail_file (lib := sample_lib) (world := calm_world) (files := rotated_files) 3
             "/var/log/nginx/app_access.log" (boot sample_watcher) in
  exists window_size threshold cooldown,
    int_of_str (default "200" (os_getenv (Process := sample_process) "ALERT_ERROR_WINDOW"))
    = Some window_size
    /\ (0 <= window_size)%Z
    /\ float_of_str (Process := sample_process)
         (default "0.02" (os_getenv (Process := sample_process) "ALERT_ERROR_THRESHOLD"))
       = Some threshold
    /\ int_of_str (default "300" (os_getenv (Process := sample_process)
                                    "ALERT_COOLDOWN_SECONDS")) = Some cooldown
    /\ config (self (watcher (ended r)))
       = settings (process := sample_process) window_size threshold cooldown
    /\ webhook_url (self (watcher (ended r))) <> ""
    /\ healthy (Z.to_nat window_size) (watcher (ended r)).
Proof.
  cbv zeta.
  apply (main_settings_hold (lib := sample_lib) (world := calm_world) (files := rotated_files)
           (process := sample_process) 3).
  vm_compute. reflexivity.
Defined.

(** X23 on green, an error without a pool, blue, and the empty object. *)
Lemma tracked_pool_run_witness :
  exists m',
    process_lines (lib := sample_lib) (world := calm_world)
      [line_green; line_bad_gateway; line_blue; "{}"] (boot sample_watcher) = Ret () m'
    /\ current_pool (self m') = Some "blue".
Proof.
  eexists. split; [vm_compute; reflexivity|].
  match goal with
  | |- current_pool (self ?m') = _ =>
      rewrite (tracked_pool_is_the_last_seen (lib := sample_lib) (world := calm_world)
                 [line_green; line_bad_gateway; line_blue; "{}"] (boot sample_watcher) m')
  end.
  - vm_compute. reflexivity.
  - vm_compute. reflexivity.
Defined.
